(** * FNE SDK (fne-sdk-js): validation engine, credential cache, request
    pipeline, wire serialisation, services and client, embedded from the
    TypeScript sources.

    Conventions of the embedding.
    - A JavaScript string is a [string]: the bytes of its UTF-8 encoding
      (a lone surrogate being written as the three bytes of its code
      point), so that ASCII text is itself and the accented letters of the
      French messages are the bytes of the source file.  Concatenation,
      equality and [startsWith] are those of the bytes: the SDK joins
      strings and tests prefixes with its own ASCII texts at the joints,
      so that no surrogate pair is made or split there.  [\s] and [trim]
      go by the white space of ECMAScript, read off the bytes
      ([Str.tokens]), and [length] counts UTF-16 code units
      ([Str.length]).
    - A JavaScript [number] is a [number]: a rational, the two infinities
      or NaN.  Only comparisons are taken on such values, and they agree
      with the IEEE ones.  Integral quantities (HTTP status, milliseconds,
      attempt counters) are [Z].
    - [null] and [undefined] are [None]. *)

From Stdlib Require Import ZArith QArith String Ascii List Lia Bool Btauto.
From stdpp Require Import base strings gmap list pretty.

Set Warnings "-register-all".

Local Open Scope string_scope.
Local Open Scope list_scope.

(* ===================================================================== *)
(** ** Characters and strings *)
(* ===================================================================== *)

Module Str.

(** The white space of ECMAScript, which [\s] matches and [trim] strips:
    TAB, LF, VT, FF, CR, SPACE, U+00A0, U+1680, U+2000 to U+200A, U+2028,
    U+2029, U+202F, U+205F, U+3000 and U+FEFF.  The first six are one
    byte. *)
Definition is_space (a : ascii) : bool :=
  let n := nat_of_ascii a in
  ((9 <=? n)%nat && (n <=? 13)%nat) || (n =? 32)%nat.

(** U+00A0 is the two bytes [C2 A0]. *)
Definition space2 (a b : ascii) : bool :=
  (nat_of_ascii a =? 194)%nat && (nat_of_ascii b =? 160)%nat.

(** U+1680 is [E1 9A 80]; U+2000 to U+200A are [E2 80 80] to [E2 80 8A];
    U+2028, U+2029 and U+202F are [E2 80 A8], [E2 80 A9] and [E2 80 AF];
    U+205F is [E2 81 9F]; U+3000 is [E3 80 80]; U+FEFF is [EF BB BF]. *)
Definition space3 (a b c : ascii) : bool :=
  let x := nat_of_ascii a in
  let y := nat_of_ascii b in
  let z := nat_of_ascii c in
  ((x =? 225)%nat && (y =? 154)%nat && (z =? 128)%nat)
  || ((x =? 226)%nat && (y =? 128)%nat
      && (((128 <=? z)%nat && (z <=? 138)%nat)
          || (z =? 168)%nat || (z =? 169)%nat || (z =? 175)%nat))
  || ((x =? 226)%nat && (y =? 129)%nat && (z =? 159)%nat)
  || ((x =? 227)%nat && (y =? 128)%nat && (z =? 128)%nat)
  || ((x =? 239)%nat && (y =? 187)%nat && (z =? 191)%nat).

(** A string read from left to right: a white-space character, held as
    its first byte and the bytes that follow it, or one byte of any other
    character. *)
Inductive token : Type :=
| Space (a : ascii) (more : string)
| Byte (a : ascii).

Definition is_Space (t : token) : bool :=
  match t with Space _ _ => true | Byte _ => false end.

Fixpoint tokens (s : string) : list token :=
  match s with
  | EmptyString => []
  | String a s1 =>
      if is_space a then Space a "" :: tokens s1
      else
        match s1 with
        | String b s2 =>
            if space2 a b then Space a (String b "") :: tokens s2
            else
              match s2 with
              | String c s3 =>
                  if space3 a b c
                  then Space a (String b (String c "")) :: tokens s3
                  else Byte a :: tokens s1
              | EmptyString => Byte a :: tokens s1
              end
        | EmptyString => Byte a :: tokens s1
        end
  end.

(** The white-space character at the head of a string, if there is one,
    and what follows it. *)
Definition lead (s : string) : option (token * string) :=
  match s with
  | EmptyString => None
  | String a s1 =>
      if is_space a then Some (Space a "", s1)
      else
        match s1 with
        | String b s2 =>
            if space2 a b then Some (Space a (String b ""), s2)
            else
              match s2 with
              | String c s3 =>
                  if space3 a b c
                  then Some (Space a (String b (String c "")), s3)
                  else None
              | EmptyString => None
              end
        | EmptyString => None
        end
  end.

Fixpoint untokens (ts : list token) : string :=
  match ts with
  | [] => ""
  | Space a more :: ts' => String a (more +:+ untokens ts')
  | Byte a :: ts' => String a (untokens ts')
  end.

(** The string holds white space only (or nothing). *)
Definition all_space (s : string) : bool := List.forallb is_Space (tokens s).

(** [s.length]: the number of UTF-16 code units.  A character of one, two
    or three bytes is one unit and a character of four bytes is two;
    [pending] counts the continuation bytes that the character being read
    still owes. *)
Fixpoint units (pending : nat) (s : string) : nat :=
  match s with
  | EmptyString => 0
  | String a s' =>
      let n := nat_of_ascii a in
      match pending, (128 <=? n)%nat && (n <? 192)%nat with
      | S p, true => units p s'
      | _, _ =>
          if (n <? 192)%nat then S (units 0 s')
          else if (n <? 224)%nat then S (units 1 s')
          else if (n <? 240)%nat then S (units 2 s')
          else S (S (units 3 s'))
      end
  end.

Definition length (s : string) : nat := units 0 s.

(** [\d] *)
Definition is_digit (a : ascii) : bool :=
  let n := nat_of_ascii a in (48 <=? n)%nat && (n <=? 57)%nat.

(** [[A-Z]] *)
Definition is_upper (a : ascii) : bool :=
  let n := nat_of_ascii a in (65 <=? n)%nat && (n <=? 90)%nat.

Fixpoint forallb (p : ascii -> bool) (s : string) : bool :=
  match s with
  | EmptyString => true
  | String c s' => p c && forallb p s'
  end.

Fixpoint dropSpaces (ts : list token) : list token :=
  match ts with
  | Space _ _ :: ts' => dropSpaces ts'
  | _ => ts
  end.

(** [s.trim()]: the string without the white space at its two ends. *)
Definition trim (s : string) : string :=
  untokens (List.rev (dropSpaces (List.rev (dropSpaces (tokens s))))).

(** [s.replace(/[...]/g, '')], for the class [p] of characters. *)
Definition remove (p : token -> bool) (s : string) : string :=
  untokens (List.filter (fun t => negb (p t)) (tokens s)).

(** The string as a pattern sees it that asks of a character whether it
    is white space but not which: every white-space character is written
    SPACE. *)
Definition spaced (t : token) : ascii :=
  match t with Space _ _ => " "%char | Byte a => a end.

Definition fold (s : string) : string :=
  string_of_list_ascii (List.map spaced (tokens s)).

(** [s.startsWith(p)] *)
Fixpoint startsWith (s p : string) {struct p} : bool :=
  match p with
  | EmptyString => true
  | String a p' =>
      match s with
      | EmptyString => false
      | String b s' => Ascii.eqb a b && startsWith s' p'
      end
  end.

(** [xs.join(sep)] *)
Fixpoint join (sep : string) (xs : list string) : string :=
  match xs with
  | [] => ""
  | [x] => x
  | x :: rest => x +:+ sep +:+ join sep rest
  end.

(** [xs.includes(x)] *)
Definition includes (xs : list string) (x : string) : bool :=
  existsb (String.eqb x) xs.

Definition chars (s : string) : list ascii := list_ascii_of_string s.

(** [s.toLowerCase()], on the ASCII letters; the other characters keep
    their bytes.  The SDK only searches the result for ASCII words, and
    the two characters outside ASCII whose lower case holds an ASCII
    letter, U+212A ([k]) and U+0130 ([i] followed by U+0307), cannot make
    one of these words, which hold no [k] and do not end with [i]. *)
Definition lower (a : ascii) : ascii :=
  let n := nat_of_ascii a in
  if (65 <=? n)%nat && (n <=? 90)%nat then ascii_of_nat (n + 32) else a.

Fixpoint toLowerCase (s : string) : string :=
  match s with
  | EmptyString => EmptyString
  | String c s' => String (lower c) (toLowerCase s')
  end.

(** [s.includes(sub)] *)
Fixpoint contains (s sub : string) : bool :=
  startsWith s sub ||
  match s with
  | EmptyString => false
  | String _ s' => contains s' sub
  end.

(** [s.replace(/\/$/, '')] *)
Fixpoint dropFinalSlash (s : string) : string :=
  match s with
  | EmptyString => EmptyString
  | String c EmptyString => if Ascii.eqb c "/" then EmptyString else s
  | String c s' => String c (dropFinalSlash s')
  end.

End Str.

(* ===================================================================== *)
(** ** Regular expressions: the fragment used by [helpers.ts] *)
(* ===================================================================== *)

Module Regex.

Inductive regex : Type :=
| Void : regex
| Eps : regex
| Class (p : ascii -> bool) : regex
| Seq (r1 r2 : regex) : regex
| Alt (r1 r2 : regex) : regex
| Star (r : regex) : regex.

Definition Lit (c : ascii) : regex := Class (Ascii.eqb c).

Fixpoint Word (s : string) : regex :=
  match s with
  | EmptyString => Eps
  | String c s' => Seq (Lit c) (Word s')
  end.

(** [r?] *)
Definition Opt (r : regex) : regex := Alt Eps r.

(** [r+] *)
Definition Plus (r : regex) : regex := Seq r (Star r).

(** [r{n}] *)
Fixpoint Times (n : nat) (r : regex) : regex :=
  match n with
  | O => Eps
  | S n' => Seq r (Times n' r)
  end.

(** [r{m,n}] for [m <= n] *)
Definition Between (m n : nat) (r : regex) : regex :=
  Seq (Times m r) (Times (n - m) (Opt r)).

Fixpoint nullable (r : regex) : bool :=
  match r with
  | Void => false
  | Eps => true
  | Class _ => false
  | Seq r1 r2 => nullable r1 && nullable r2
  | Alt r1 r2 => nullable r1 || nullable r2
  | Star _ => true
  end.

Fixpoint deriv (c : ascii) (r : regex) : regex :=
  match r with
  | Void => Void
  | Eps => Void
  | Class p => if p c then Eps else Void
  | Seq r1 r2 =>
      if nullable r1
      then Alt (Seq (deriv c r1) r2) (deriv c r2)
      else Seq (deriv c r1) r2
  | Alt r1 r2 => Alt (deriv c r1) (deriv c r2)
  | Star r1 => Seq (deriv c r1) (Star r1)
  end.

Fixpoint matches (r : regex) (w : list ascii) : bool :=
  match w with
  | [] => nullable r
  | c :: w' => matches (deriv c r) w'
  end.

(** [/^r$/.test(s)]: the patterns of the SDK are all anchored at both
    ends, so [test] is a match of the whole string. *)
Definition test (r : regex) (s : string) : bool := matches r (Str.chars s).

(** The language of a regular expression. *)
Inductive lang : regex -> list ascii -> Prop :=
| L_Eps : lang Eps []
| L_Class p c : p c = true -> lang (Class p) [c]
| L_Seq r1 r2 w1 w2 : lang r1 w1 -> lang r2 w2 -> lang (Seq r1 r2) (w1 ++ w2)
| L_AltL r1 r2 w : lang r1 w -> lang (Alt r1 r2) w
| L_AltR r1 r2 w : lang r2 w -> lang (Alt r1 r2) w
| L_Star0 r : lang (Star r) []
| L_StarS r w1 w2 : lang r w1 -> lang (Star r) w2 -> lang (Star r) (w1 ++ w2).

End Regex.

(* ===================================================================== *)
(** ** [utils/helpers.ts]: the three format validators *)
(* ===================================================================== *)

Import Regex.

Definition digit : regex := Class Str.is_digit.

(** [/^\d{7}[A-Z]$/] *)
Definition ncc_pattern : regex := Seq (Times 7 digit) (Class Str.is_upper).

Definition isValidNcc (ncc : string) : bool := test ncc_pattern ncc.

(** [[\s.-]] *)
Definition phone_noise (t : Str.token) : bool :=
  match t with
  | Str.Space _ _ => true
  | Str.Byte a => Ascii.eqb a "." || Ascii.eqb a "-"
  end.

(** [/^\+225\d{10}$/] *)
Definition phone_plus225 : regex := Seq (Word "+225") (Times 10 digit).
(** [/^225\d{10}$/] *)
Definition phone_225 : regex := Seq (Word "225") (Times 10 digit).
(** [/^0?\d{8,10}$/] *)
Definition phone_local : regex := Seq (Opt (Lit "0")) (Between 8 10 digit).

Definition isValidPhone (phone : string) : bool :=
  let cleaned := Str.remove phone_noise phone in
  if Str.startsWith cleaned "+225" then test phone_plus225 cleaned
  else if Str.startsWith cleaned "225" then test phone_225 cleaned
  else test phone_local cleaned.

(** [[^\s@]], on a string in which white space is written SPACE. *)
Definition email_atom (a : ascii) : bool :=
  negb (Str.is_space a || Ascii.eqb a "@").

(** [/^[^\s@]+@[^\s@]+\.[^\s@]+$/] *)
Definition email_pattern : regex :=
  Seq (Plus (Class email_atom))
      (Seq (Lit "@")
           (Seq (Plus (Class email_atom))
                (Seq (Lit ".") (Plus (Class email_atom))))).

(** [pattern.test(email)].  The pattern asks of a character only whether
    it is white space, [@] or [.]: the matcher, which works on bytes, is
    given the white-space characters as SPACE and every other character
    as its bytes, none of which is white space, [@] or [.] unless the
    character is. *)
Definition isValidEmail (email : string) : bool :=
  test email_pattern (Str.fold email).

(* ===================================================================== *)
(** ** Numbers, JSON values and insertion-ordered objects *)
(* ===================================================================== *)

Inductive number : Type :=
| Num (q : Q)
| Infinity
| NegInfinity
| NaN.

Module Number.

(** [a < b] *)
Definition lt (a b : number) : bool :=
  match a, b with
  | NaN, _ | _, NaN => false
  | Num x, Num y => negb (Qle_bool y x)
  | NegInfinity, NegInfinity => false
  | NegInfinity, _ => true
  | Num _, Infinity => true
  | Num _, NegInfinity => false
  | Infinity, _ => false
  end.

(** [a > b] *)
Definition gt (a b : number) : bool := lt b a.

(** [a <= b] *)
Definition le (a b : number) : bool :=
  match a, b with
  | NaN, _ | _, NaN => false
  | Num x, Num y => Qle_bool x y
  | NegInfinity, _ => true
  | _, Infinity => true
  | Num _, NegInfinity => false
  | Infinity, _ => false
  end.

(** [isNaN(a)] *)
Definition isNaN (a : number) : bool :=
  match a with NaN => true | _ => false end.

Definition of_Z (z : Z) : number := Num (inject_Z z).

End Number.

Declare Scope number_scope.
Notation "0" := (Number.of_Z 0) : number_scope.
Notation "100" := (Number.of_Z 100) : number_scope.
Delimit Scope number_scope with num.

(** JSON values, as produced by [toArray] and by [JSON.parse]. *)
Inductive json : Type :=
| JNull
| JBool (b : bool)
| JNum (n : number)
| JStr (s : string)
| JArr (l : list json)
| JObj (fields : list (string * json)).

(** A JavaScript object used as a record: string keys in insertion order,
    each key once.  (None of the keys used by the SDK is an array index,
    so insertion order is the enumeration order.) *)
Module Obj.
Section Obj.
Context {V : Type}.

(** [o[k]] *)
Fixpoint get (k : string) (o : list (string * V)) : option V :=
  match o with
  | [] => None
  | (k', v) :: o' => if String.eqb k k' then Some v else get k o'
  end.

(** [o[k] = v]: overwrite in place, or append a new property. *)
Fixpoint set (k : string) (v : V) (o : list (string * V)) : list (string * V) :=
  match o with
  | [] => [(k, v)]
  | (k', v') :: o' =>
      if String.eqb k k' then (k', v) :: o' else (k', v') :: set k v o'
  end.

(** [Object.keys(o)] *)
Definition keys (o : list (string * V)) : list string := map fst o.

(** [k in o] *)
Definition has (k : string) (o : list (string * V)) : bool :=
  match get k o with Some _ => true | None => false end.
End Obj.
End Obj.

(** JavaScript truthiness of an optional string ([null], [undefined] and
    [''] are falsy). *)
Definition truthy (o : option string) : bool :=
  match o with
  | Some s => negb (String.eqb s "")
  | None => false
  end.

(* ===================================================================== *)
(** ** Errors ([exceptions/]) *)
(* ===================================================================== *)

(** [ValidationErrors = Record<string, string>] *)
Definition ValidationErrors : Type := list (string * string).

Inductive error : Type :=
| Error (message : string)
| ValidationError (message : string) (errors : ValidationErrors)
| AuthenticationError (message : string)
| ApiError (message : string) (statusCode : Z) (response : option json)
| NetworkError (message : string) (originalError : option error).

(** The result of a call that may throw. *)
Inductive result (A : Type) : Type :=
| Return (a : A)
| Throw (e : error).
Arguments Return {A} a.
Arguments Throw {A} e.

(* ===================================================================== *)
(** ** Models ([models/]) *)
(* ===================================================================== *)

Module CustomTax.

Record t : Type := mk { _name : string; _amount : number }.

(** [new CustomTax(name, amount)] validates eagerly. *)
Definition new (name : string) (amount : number) : result t :=
  if String.eqb name "" || (Str.length (Str.trim name) =? 0)%nat then
    Throw (Error "Le nom de la taxe est requis")
  else if Number.lt amount 0%num then
    Throw (Error "Le montant de la taxe doit être positif")
  else Return {| _name := Str.trim name; _amount := amount |}.

Definition getName (c : t) : string := _name c.
Definition getAmount (c : t) : number := _amount c.

Definition toArray (c : t) : json :=
  JObj [("name", JStr (_name c)); ("amount", JNum (_amount c))].

End CustomTax.

Module InvoiceItem.

Record t : Type := mk {
  _description : string;
  _quantity : number;
  _amount : number;
  _taxes : list string;
  _reference : option string;
  _discount : number;
  _measurementUnit : option string;
  _customTaxes : list CustomTax.t
}.

Definition getDescription (i : t) : string := _description i.
Definition getQuantity (i : t) : number := _quantity i.
Definition getAmount (i : t) : number := _amount i.
Definition getTaxes (i : t) : list string := _taxes i.
Definition getDiscount (i : t) : number := _discount i.
Definition getCustomTaxes (i : t) : list CustomTax.t := _customTaxes i.

(** [setDiscount] refuses a value outside [0, 100]. *)
Definition setDiscount (discount : number) (i : t) : result t :=
  if Number.lt discount 0%num || Number.gt discount 100%num then
    Throw (Error "La remise doit être entre 0 et 100")
  else
    Return (mk (_description i) (_quantity i) (_amount i) (_taxes i)
               (_reference i) discount (_measurementUnit i) (_customTaxes i)).

(** [addCustomTax]: [this._customTaxes.push(new CustomTax(name, amount))] *)
Definition addCustomTax (name : string) (amount : number) (i : t) : result t :=
  match CustomTax.new name amount with
  | Throw e => Throw e
  | Return c =>
      Return (mk (_description i) (_quantity i) (_amount i) (_taxes i)
                 (_reference i) (_discount i) (_measurementUnit i)
                 (_customTaxes i ++ [c]))
  end.

Definition toArray (i : t) : json :=
  let result :=
    [ ("description", JStr (_description i));
      ("quantity", JNum (_quantity i));
      ("amount", JNum (_amount i));
      ("taxes", JArr (map JStr (_taxes i))) ] in
  let result :=
    match _reference i with
    | Some r => if truthy (Some r) then Obj.set "reference" (JStr r) result else result
    | None => result
    end in
  let result :=
    if Number.gt (_discount i) 0%num
    then Obj.set "discount" (JNum (_discount i)) result else result in
  let result :=
    match _measurementUnit i with
    | Some u => if truthy (Some u) then Obj.set "measurementUnit" (JStr u) result else result
    | None => result
    end in
  let result :=
    if (0 <? length (_customTaxes i))%nat
    then Obj.set "customTaxes" (JArr (map CustomTax.toArray (_customTaxes i))) result
    else result in
  JObj result.

End InvoiceItem.

Module Invoice.

Record t : Type := mk {
  _invoiceType : string;
  _paymentMethod : string;
  _template : string;
  _pointOfSale : string;
  _establishment : string;
  _clientCompanyName : string;
  _clientPhone : string;
  _clientEmail : string;
  _clientNcc : option string;
  _clientSellerName : option string;
  _commercialMessage : option string;
  _footer : option string;
  _foreignCurrency : option string;
  _foreignCurrencyRate : number;
  _isRne : bool;
  _rne : option string;
  _discount : number;
  _items : list InvoiceItem.t;
  _customTaxes : list CustomTax.t
}.

Definition getInvoiceType (i : t) : string := _invoiceType i.
Definition getPaymentMethod (i : t) : string := _paymentMethod i.
Definition getTemplate (i : t) : string := _template i.
Definition getPointOfSale (i : t) : string := _pointOfSale i.
Definition getEstablishment (i : t) : string := _establishment i.
Definition getClientCompanyName (i : t) : string := _clientCompanyName i.
Definition getClientPhone (i : t) : string := _clientPhone i.
Definition getClientEmail (i : t) : string := _clientEmail i.
Definition getClientNcc (i : t) : option string := _clientNcc i.
Definition getForeignCurrency (i : t) : option string := _foreignCurrency i.
Definition getForeignCurrencyRate (i : t) : number := _foreignCurrencyRate i.
Definition getIsRne (i : t) : bool := _isRne i.
Definition getRne (i : t) : option string := _rne i.
Definition getDiscount (i : t) : number := _discount i.
Definition getItems (i : t) : list InvoiceItem.t := _items i.
Definition getCustomTaxes (i : t) : list CustomTax.t := _customTaxes i.

(** [addItem]: [this._items.push(item)] *)
Definition addItem (item : InvoiceItem.t) (i : t) : t :=
  mk (_invoiceType i) (_paymentMethod i) (_template i) (_pointOfSale i)
     (_establishment i) (_clientCompanyName i) (_clientPhone i) (_clientEmail i)
     (_clientNcc i) (_clientSellerName i) (_commercialMessage i) (_footer i)
     (_foreignCurrency i) (_foreignCurrencyRate i) (_isRne i) (_rne i)
     (_discount i) (_items i ++ [item]) (_customTaxes i).

(** [addCustomTax]: [this._customTaxes.push(new CustomTax(name, amount))] *)
Definition addCustomTax (name : string) (amount : number) (i : t) : result t :=
  match CustomTax.new name amount with
  | Throw e => Throw e
  | Return c =>
      Return
        (mk (_invoiceType i) (_paymentMethod i) (_template i) (_pointOfSale i)
            (_establishment i) (_clientCompanyName i) (_clientPhone i)
            (_clientEmail i) (_clientNcc i) (_clientSellerName i)
            (_commercialMessage i) (_footer i) (_foreignCurrency i)
            (_foreignCurrencyRate i) (_isRne i) (_rne i) (_discount i)
            (_items i) (_customTaxes i ++ [c]))
  end.

(** [result.key = value] when the optional string [value] is truthy. *)
Definition put_if_truthy (key : string) (value : option string)
    (result : list (string * json)) : list (string * json) :=
  match value with
  | Some s => if truthy (Some s) then Obj.set key (JStr s) result else result
  | None => result
  end.

Definition toArray (i : t) : json :=
  let result :=
    [ ("invoiceType", JStr (_invoiceType i));
      ("paymentMethod", JStr (_paymentMethod i));
      ("template", JStr (_template i));
      ("pointOfSale", JStr (_pointOfSale i));
      ("establishment", JStr (_establishment i));
      ("clientCompanyName", JStr (_clientCompanyName i));
      ("clientPhone", JStr (_clientPhone i));
      ("clientEmail", JStr (_clientEmail i));
      ("isRne", JBool (_isRne i));
      ("items", JArr (map InvoiceItem.toArray (_items i))) ] in
  let result := put_if_truthy "clientNcc" (_clientNcc i) result in
  let result := put_if_truthy "clientSellerName" (_clientSellerName i) result in
  let result := put_if_truthy "commercialMessage" (_commercialMessage i) result in
  let result := put_if_truthy "footer" (_footer i) result in
  let result :=
    match _foreignCurrency i with
    | Some c =>
        if truthy (Some c) then
          Obj.set "foreignCurrencyRate" (JNum (_foreignCurrencyRate i))
            (Obj.set "foreignCurrency" (JStr c) result)
        else
          Obj.set "foreignCurrencyRate" (JNum 0%num)
            (Obj.set "foreignCurrency" (JStr "") result)
    | None =>
        Obj.set "foreignCurrencyRate" (JNum 0%num)
          (Obj.set "foreignCurrency" (JStr "") result)
    end in
  let result := put_if_truthy "rne" (_rne i) result in
  let result :=
    if Number.gt (_discount i) 0%num
    then Obj.set "discount" (JNum (_discount i)) result else result in
  let result :=
    if (0 <? length (_customTaxes i))%nat
    then Obj.set "customTaxes" (JArr (map CustomTax.toArray (_customTaxes i))) result
    else result in
  JObj result.

End Invoice.

(* ===================================================================== *)
(** ** Constants ([utils/constants.ts]) *)
(* ===================================================================== *)

Definition INVOICE_TYPE_SALE : string := "sale".
Definition INVOICE_TYPE_PURCHASE : string := "purchase".
Definition ALLOWED_INVOICE_TYPES : list string :=
  [INVOICE_TYPE_SALE; INVOICE_TYPE_PURCHASE].

Definition ALLOWED_PAYMENT_METHODS : list string :=
  ["cash"; "card"; "check"; "mobile-money"; "transfer"; "deferred"].

Definition TEMPLATE_B2B : string := "B2B".
Definition TEMPLATE_B2C : string := "B2C".
Definition TEMPLATE_B2F : string := "B2F".
Definition TEMPLATE_B2G : string := "B2G".
Definition ALLOWED_TEMPLATES : list string :=
  [TEMPLATE_B2B; TEMPLATE_B2C; TEMPLATE_B2F; TEMPLATE_B2G].

Definition ALLOWED_TAX_TYPES : list string := ["TVA"; "TVAB"; "TVAC"; "TVAD"].

Definition ALLOWED_CURRENCIES : list string :=
  ["XOF"; "USD"; "EUR"; "GBP"; "JPY"; "CAD"; "AUD"; "CNH"; "CHF"; "HKD"; "NZD"].

Definition ENDPOINT_SIGN_INVOICE : string := "/external/invoices/sign".
Definition DEFAULT_TIMEOUT : Z := 30000.
Definition DEFAULT_RETRY_ATTEMPTS : Z := 3.
Definition MIN_API_KEY_LENGTH : nat := 20.
Definition SDK_USER_AGENT : string := "FNE-SDK-JS/1.0.0".

(* ===================================================================== *)
(** ** Validation engine ([BaseValidator], [InvoiceValidator]) *)
(* ===================================================================== *)

Module Validator.

(** The validator object.  [errors] is its only field in the source;
    [journal] is a ghost field, the [addError] calls of the current run
    in program order, which no operation reads. *)
Record state : Type := mkState {
  errors : ValidationErrors;
  journal : list (string * string)
}.

(** Methods of the validator: state transformers on [this]. *)
Definition M (A : Type) : Type := state -> A * state.

Definition ret {A} (a : A) : M A := fun st => (a, st).
Definition bind {A B} (m : M A) (k : A -> M B) : M B :=
  fun st => let (a, st') := m st in k a st'.

Declare Scope validator_scope.
Delimit Scope validator_scope with validator.
Notation "x <- m ;; k" := (bind m (fun x => k))
  (at level 100, m at next level, right associativity) : validator_scope.
Notation "m ;; k" := (bind m (fun _ => k))
  (at level 100, right associativity) : validator_scope.
Local Open Scope validator_scope.

(** [if (c) { m }] *)
Definition when (c : bool) (m : M unit) : M unit := if c then m else ret tt.

(** [xs.forEach((x, index) => f(x, index))], from position [index]. *)
Fixpoint forEach {A} (f : A -> nat -> M unit) (xs : list A) (index : nat) : M unit :=
  match xs with
  | [] => ret tt
  | x :: xs' => f x index ;; forEach f xs' (S index)
  end.

(** *** BaseValidator *)

Definition addError (field message : string) : M unit :=
  fun st => (tt, {| errors := Obj.set field message (errors st);
                    journal := journal st ++ [(field, message)] |}).

(** [this.errors = {}]: a new object, so that an error set handed to an
    earlier [ValidationError] is not touched by the next run. *)
Definition resetErrors : M unit :=
  fun _ => (tt, {| errors := []; journal := [] |}).

Definition getErrors : M ValidationErrors := fun st => (errors st, st).

Definition hasErrors : M bool :=
  fun st => ((0 <? length (Obj.keys (errors st)))%nat, st).

Definition validateRequired (field : string) (value : option string)
    (fieldName : option string) : M bool :=
  let displayName := default field fieldName in
  match value with
  | None =>
      addError field ("Le champ " +:+ displayName +:+ " est requis") ;;
      ret false
  | Some s =>
      if (Str.length (Str.trim s) =? 0)%nat then
        addError field ("Le champ " +:+ displayName +:+ " est requis") ;;
        ret false
      else ret true
  end.

Definition validateEmail (field email : string) : M bool :=
  if negb (isValidEmail email) then
    addError field "L'adresse email n'est pas valide" ;; ret false
  else ret true.

Definition validatePhone (field phone : string) : M bool :=
  if negb (isValidPhone phone) then
    addError field
      "Le numéro de téléphone n'est pas valide (format: 8-10 chiffres)" ;;
    ret false
  else ret true.

Definition validateNcc (field ncc : string) : M bool :=
  if negb (isValidNcc ncc) then
    addError field
      "Le NCC n'est pas valide (format: 7 chiffres + 1 lettre majuscule)" ;;
    ret false
  else ret true.

Definition validateInArray (field value : string) (allowedValues : list string)
    (fieldName : option string) : M bool :=
  let displayName := default field fieldName in
  if negb (Str.includes allowedValues value) then
    let allowed := Str.join ", " allowedValues in
    addError field
      ("La valeur de " +:+ displayName +:+ " doit être parmi: " +:+ allowed) ;;
    ret false
  else ret true.

Definition validatePositiveNumber (field : string) (value : number)
    (fieldName : option string) : M bool :=
  let displayName := default field fieldName in
  if Number.isNaN value || Number.le value 0%num then
    addError field ("Le champ " +:+ displayName +:+ " doit être un nombre positif") ;;
    ret false
  else ret true.

Definition validatePercentage (field : string) (value : number)
    (fieldName : option string) : M bool :=
  let displayName := default field fieldName in
  if Number.isNaN value || Number.lt value 0%num || Number.gt value 100%num then
    addError field ("Le champ " +:+ displayName +:+ " doit être entre 0 et 100") ;;
    ret false
  else ret true.

(** [throwIfErrors]; the message is that of [ValidationError.withErrors]. *)
Definition throwIfErrors : state -> result unit * state :=
  fun st =>
    if fst (hasErrors st) then
      let count := length (Obj.keys (errors st)) in
      (Throw (ValidationError
                ("Validation échouée: " +:+ pretty count +:+ " erreur(s) trouvée(s)")
                (errors st)), st)
    else (Return tt, st).

(** *** InvoiceValidator *)

Definition validateBaseFields (invoice : Invoice.t) : M unit :=
  validateRequired "invoiceType" (Some (Invoice.getInvoiceType invoice)) None ;;
  validateInArray "invoiceType" (Invoice.getInvoiceType invoice)
    ALLOWED_INVOICE_TYPES (Some "type de facture") ;;
  validateRequired "paymentMethod" (Some (Invoice.getPaymentMethod invoice)) None ;;
  validateInArray "paymentMethod" (Invoice.getPaymentMethod invoice)
    ALLOWED_PAYMENT_METHODS (Some "méthode de paiement") ;;
  validateRequired "template" (Some (Invoice.getTemplate invoice)) None ;;
  validateInArray "template" (Invoice.getTemplate invoice)
    ALLOWED_TEMPLATES (Some "template") ;;
  validateRequired "pointOfSale" (Some (Invoice.getPointOfSale invoice))
    (Some "point de vente") ;;
  validateRequired "establishment" (Some (Invoice.getEstablishment invoice))
    (Some "établissement") ;;
  ret tt.

Definition validateClientFields (invoice : Invoice.t) : M unit :=
  validateRequired "clientCompanyName"
    (Some (Invoice.getClientCompanyName invoice)) (Some "nom du client") ;;
  ok <- validateRequired "clientPhone" (Some (Invoice.getClientPhone invoice))
          (Some "téléphone") ;;
  (if ok : bool then
     validatePhone "clientPhone" (Invoice.getClientPhone invoice) ;; ret tt
   else ret tt) ;;
  ok <- validateRequired "clientEmail" (Some (Invoice.getClientEmail invoice))
          (Some "email") ;;
  (if ok : bool then
     validateEmail "clientEmail" (Invoice.getClientEmail invoice) ;; ret tt
   else ret tt).

Definition validateTemplateRules (invoice : Invoice.t) : M unit :=
  let template := Invoice.getTemplate invoice in
  when (String.eqb template "B2B")
    (let ncc := Invoice.getClientNcc invoice in
     match ncc with
     | Some n =>
         if negb (truthy ncc) || (Str.length (Str.trim n) =? 0)%nat then
           addError "clientNcc" "Le NCC client est requis pour les factures B2B"
         else validateNcc "clientNcc" n ;; ret tt
     | None =>
         addError "clientNcc" "Le NCC client est requis pour les factures B2B"
     end) ;;
  when (String.eqb template "B2F")
    (let currency := Invoice.getForeignCurrency invoice in
     let rate := Invoice.getForeignCurrencyRate invoice in
     (match currency with
      | Some c =>
          if negb (truthy currency) then
            addError "foreignCurrency"
              "La devise étrangère est requise pour les factures B2F"
          else
            validateInArray "foreignCurrency" c ALLOWED_CURRENCIES
              (Some "devise étrangère") ;; ret tt
      | None =>
          addError "foreignCurrency"
            "La devise étrangère est requise pour les factures B2F"
      end) ;;
     when (truthy currency && Number.le rate 0%num)
       (addError "foreignCurrencyRate"
          "Le taux de change doit être supérieur à 0 pour les factures B2F")).

(** The two checks made on a custom tax, under the key prefix [path]; the
    source writes them out twice, for the taxes of an item and for those of
    the document. *)
Definition validateCustomTax (path : string) (customTax : CustomTax.t)
    (taxIndex : nat) : M unit :=
  when (String.eqb (CustomTax.getName customTax) ""
        || (Str.length (Str.trim (CustomTax.getName customTax)) =? 0)%nat)
    (addError (path +:+ "customTaxes[" +:+ pretty taxIndex +:+ "].name")
       "Le nom de la taxe personnalisée est requis") ;;
  when (Number.lt (CustomTax.getAmount customTax) 0%num)
    (addError (path +:+ "customTaxes[" +:+ pretty taxIndex +:+ "].amount")
       "Le montant de la taxe personnalisée doit être positif").

Definition validateItem (item : InvoiceItem.t) (index : nat)
    (invoiceType : string) : M unit :=
  let prefix := "items[" +:+ pretty index +:+ "]" in
  when (String.eqb (InvoiceItem.getDescription item) ""
        || (Str.length (Str.trim (InvoiceItem.getDescription item)) =? 0)%nat)
    (addError (prefix +:+ ".description") "La description est requise") ;;
  when (Number.le (InvoiceItem.getQuantity item) 0%num)
    (addError (prefix +:+ ".quantity") "La quantité doit être supérieure à 0") ;;
  when (Number.le (InvoiceItem.getAmount item) 0%num)
    (addError (prefix +:+ ".amount") "Le montant doit être supérieur à 0") ;;
  when (String.eqb invoiceType INVOICE_TYPE_SALE)
    (let taxes := InvoiceItem.getTaxes item in
     if (length taxes =? 0)%nat then
       addError (prefix +:+ ".taxes")
         "Au moins un type de taxe est requis pour les factures de vente"
     else
       forEach
         (fun tax taxIndex =>
            when (negb (Str.includes ALLOWED_TAX_TYPES tax))
              (addError (prefix +:+ ".taxes[" +:+ pretty taxIndex +:+ "]")
                 ("Type de taxe invalide: " +:+ tax +:+ ". Valeurs acceptées: "
                  +:+ Str.join ", " ALLOWED_TAX_TYPES)))
         taxes 0%nat) ;;
  (let discount := InvoiceItem.getDiscount item in
   when (Number.lt discount 0%num || Number.gt discount 100%num)
     (addError (prefix +:+ ".discount") "La remise doit être entre 0 et 100")) ;;
  forEach (validateCustomTax (prefix +:+ ".")) (InvoiceItem.getCustomTaxes item) 0%nat.

Definition validateItems (invoice : Invoice.t) : M unit :=
  let items := Invoice.getItems invoice in
  if (length items =? 0)%nat then
    addError "items" "La facture doit contenir au moins un article"
  else
    forEach
      (fun item index => validateItem item index (Invoice.getInvoiceType invoice))
      items 0%nat.

Definition validateOptionalFields (invoice : Invoice.t) : M unit :=
  (let currency := Invoice.getForeignCurrency invoice in
   match currency with
   | Some c =>
       when (truthy currency && negb (Str.includes ALLOWED_CURRENCIES c))
         (addError "foreignCurrency"
            ("Devise invalide: " +:+ c +:+ ". Valeurs acceptées: "
             +:+ Str.join ", " ALLOWED_CURRENCIES))
   | None => ret tt
   end) ;;
  (let discount := Invoice.getDiscount invoice in
   when (Number.lt discount 0%num || Number.gt discount 100%num)
     (addError "discount" "La remise globale doit être entre 0 et 100")) ;;
  when (Invoice.getIsRne invoice && negb (truthy (Invoice.getRne invoice)))
    (addError "rne" "Le numéro RNE est requis si isRne est true") ;;
  forEach (validateCustomTax "") (Invoice.getCustomTaxes invoice) 0%nat.

(** The five phases of [validate], after [resetErrors]. *)
Definition phases (invoice : Invoice.t) : M unit :=
  validateBaseFields invoice ;;
  validateClientFields invoice ;;
  validateTemplateRules invoice ;;
  validateItems invoice ;;
  validateOptionalFields invoice.

(** [InvoiceValidator.validate]: returns normally or throws a
    [ValidationError] carrying [this.errors]. *)
Definition validate (invoice : Invoice.t) : state -> result unit * state :=
  fun st =>
    let (_, st1) := resetErrors st in
    let (_, st2) := phases invoice st1 in
    throwIfErrors st2.

(** A freshly constructed validator. *)
Definition fresh : state := {| errors := []; journal := [] |}.

(** The error set left in the validator by [validate]. *)
Definition errorsOf (invoice : Invoice.t) (st : state) : ValidationErrors :=
  errors (snd (validate invoice st)).

End Validator.

(* ===================================================================== *)
(** ** Credential and cache manager ([auth/TokenManager.ts]) *)
(* ===================================================================== *)

Module TokenManager.
Section TokenManager.
(** The type of the cached values ([unknown] in the source). *)
Context {T : Type}.

Record entry : Type := mkEntry { data : T; expiresAt : Z }.

Record t : Type := mk {
  apiKey : option string;
  cache : gmap string entry
}.

Definition new : t := {| apiKey := None; cache := ∅ |}.

Definition setApiKey (key : string) (m : t) : t :=
  {| apiKey := Some key; cache := cache m |}.

Definition getApiKey (m : t) : result string :=
  match apiKey m with
  | Some k =>
      if truthy (Some k) then Return k
      else Throw (AuthenticationError
        "Aucune clé API fournie. Veuillez configurer votre clé API avant d'effectuer des requêtes.")
  | None =>
      Throw (AuthenticationError
        "Aucune clé API fournie. Veuillez configurer votre clé API avant d'effectuer des requêtes.")
  end.

Definition hasApiKey (m : t) : bool :=
  match apiKey m with
  | Some k => truthy (Some k) && (0 <? Str.length k)%nat
  | None => false
  end.

Definition validateApiKey (m : t) : result unit :=
  match apiKey m with
  | Some k =>
      if negb (hasApiKey m) then
        Throw (AuthenticationError
          "Aucune clé API fournie. Veuillez configurer votre clé API avant d'effectuer des requêtes.")
      else if (Str.length k <? MIN_API_KEY_LENGTH)%nat then
        Throw (AuthenticationError
          ("La clé API doit contenir au moins " +:+ pretty MIN_API_KEY_LENGTH
           +:+ " caractères."))
      else Return tt
  | None =>
      Throw (AuthenticationError
        "Aucune clé API fournie. Veuillez configurer votre clé API avant d'effectuer des requêtes.")
  end.

(** [cacheResponse(key, data, ttlSeconds = 3600)], called when the clock
    ([Date.now()], in milliseconds) reads [now]. *)
Definition cacheResponse (now : Z) (key : string) (value : T)
    (ttlSeconds : option Z) (m : t) : t :=
  let ttlSeconds := default 3600%Z ttlSeconds in
  let expiresAt := (now + ttlSeconds * 1000)%Z in
  {| apiKey := apiKey m;
     cache := <[key := {| data := value; expiresAt := expiresAt |}]> (cache m) |}.

(** [getCachedResponse(key)], called when the clock reads [now]:
    the value or [null], and the manager afterwards. *)
Definition getCachedResponse (now : Z) (key : string) (m : t) : option T * t :=
  match cache m !! key with
  | None => (None, m)
  | Some cached =>
      if (expiresAt cached <? now)%Z then
        (None, {| apiKey := apiKey m; cache := delete key (cache m) |})
      else (Some (data cached), m)
  end.

Definition invalidateCache (m : t) : t := {| apiKey := apiKey m; cache := ∅ |}.

Definition clearCache (key : option string) (m : t) : t :=
  match key with
  | Some k =>
      if truthy (Some k)
      then {| apiKey := apiKey m; cache := delete k (cache m) |}
      else invalidateCache m
  | None => invalidateCache m
  end.

Definition cleanExpiredCache (now : Z) (m : t) : t :=
  {| apiKey := apiKey m;
     cache := filter (fun kv => (now <= expiresAt (snd kv))%Z) (cache m) |}.

Definition getCacheSize (m : t) : nat := size (cache m).

End TokenManager.
Arguments entry : clear implicits.
Arguments t : clear implicits.
End TokenManager.

(* ===================================================================== *)
(** ** The JavaScript runtime and the network *)
(* ===================================================================== *)

(** What the [ToString] conversion does with a value that is not a
    string: it yields a string, or it throws a [TypeError] (as for an
    object whose [toString] and [valueOf] give no primitive value, such as
    the parsed [{"toString": 1}]). *)
Inductive conversion : Type :=
| Converted (s : string)
| TypeError (message : string).

(** Two built-ins of the runtime that the pipeline calls: [JSON.parse]
    ([None] when it throws) and the [ToString] conversion that the [Error]
    constructor applies to a message that is not a string. *)
Class Runtime : Type := {
  JSON_parse : string -> option json;
  ToString : json -> conversion
}.

(** What one call of [fetch] (followed by [text()]) does: it resolves to a
    status, headers and a body, or it rejects with an exception that has a
    [name] and a [message]. *)
Inductive fetch_outcome : Type :=
| Resolved (status : Z) (headers : list (string * string)) (body : string)
| Rejected (name message : string).

(** The observable effects of the pipeline, in order. *)
Inductive event : Type :=
| Fetch (url method : string) (headers : list (string * string)) (body : option json)
| Sleep (ms : Z).

(** The world: the trace of effects so far. *)
Definition world : Type := list event.

Definition is_fetch (e : event) : bool :=
  match e with Fetch _ _ _ _ => true | Sleep _ => false end.

(** Number of network requests made so far. *)
Definition fetches (w : world) : nat := length (List.filter is_fetch w).

(** The backoff waits made so far. *)
Definition sleeps (w : world) : list Z :=
  flat_map (fun e => match e with Sleep ms => [ms] | Fetch _ _ _ _ => [] end) w.

(** The network: the outcome of the [n]-th request made. *)
Definition network : Type := nat -> fetch_outcome.

(** Asynchronous methods: they act on the world and return or throw. *)
Definition IO (A : Type) : Type := world -> result A * world.

(** [sleep(ms)] *)
Definition sleep (ms : Z) : IO unit := fun w => (Return tt, w ++ [Sleep ms]).

(* ===================================================================== *)
(** ** Response envelope ([http/Response.ts]) *)
(* ===================================================================== *)

Module Response.

Record t : Type := mk {
  _statusCode : Z;
  _headers : list (string * string);
  _body : string
}.

Definition getStatusCode (r : t) : Z := _statusCode r.

(** [json()]: the parsed body, [null] when parsing fails.  The source
    memoises the result; [JSON_parse] being a function, that is not
    observable. *)
Definition json `{Runtime} (r : t) : json :=
  match JSON_parse (_body r) with
  | Some v => v
  | None => JNull
  end.

Definition isSuccess (r : t) : bool :=
  (200 <=? _statusCode r)%Z && (_statusCode r <? 300)%Z.
Definition isClientError (r : t) : bool :=
  (400 <=? _statusCode r)%Z && (_statusCode r <? 500)%Z.
Definition isServerError (r : t) : bool := (500 <=? _statusCode r)%Z.
Definition isRedirect (r : t) : bool :=
  (300 <=? _statusCode r)%Z && (_statusCode r <? 400)%Z.

End Response.

(* ===================================================================== *)
(** ** Error factories ([exceptions/]) *)
(* ===================================================================== *)

(** Truthiness of a JSON value. *)
Definition json_truthy (j : json) : bool :=
  match j with
  | JNull => false
  | JBool b => b
  | JNum (Num q) => negb (Qeq_bool q (inject_Z 0))
  | JNum NaN => false
  | JNum _ => true
  | JStr s => negb (String.eqb s "")
  | JArr _ | JObj _ => true
  end.

(** [j?.[k]] for a key that is not an index nor [length]. *)
Definition json_prop (k : string) (j : option json) : option json :=
  match j with
  | Some (JObj fields) => Obj.get k fields
  | _ => None
  end.

(** [a ?? b] *)
Definition nullish (a : option json) (b : json) : json :=
  match a with
  | Some JNull | None => b
  | Some v => v
  end.

Definition error_message (e : error) : string :=
  match e with
  | Error m | ValidationError m _ | AuthenticationError m
  | ApiError m _ _ | NetworkError m _ => m
  end.

Module AuthenticationErrors.
Definition unauthorized : error :=
  AuthenticationError
    "Authentification échouée. Vous n'êtes pas autorisé à accéder à cette ressource.".
End AuthenticationErrors.

Module ApiErrors.

(** [ApiError.fromResponse(statusCode, response)].  The message found in
    the response is cast to a string without a check and handed to the
    constructor, where [Error] converts it: when the conversion throws,
    the [TypeError] leaves the factory in place of the [ApiError]. *)
Definition fromResponse `{Runtime} (statusCode : Z) (response : option json)
    : result error :=
  let message :=
    match json_prop "message" response with
    | Some v =>
        if json_truthy v then Some v
        else match json_prop "error" response with
             | Some v' => if json_truthy v' then Some v' else None
             | None => None
             end
    | None =>
        match json_prop "error" response with
        | Some v' => if json_truthy v' then Some v' else None
        | None => None
        end
    end in
  match message with
  | Some (JStr s) => Return (ApiError s statusCode response)
  | Some v =>
      match ToString v with
      | Converted s => Return (ApiError s statusCode response)
      | TypeError m => Throw (Error m)
      end
  | None =>
      Return (ApiError ("Erreur API: " +:+ pretty statusCode) statusCode response)
  end.

(** [e instanceof ApiError && e.isClientError()] *)
Definition isClientError (e : error) : bool :=
  match e with
  | ApiError _ statusCode _ => (400 <=? statusCode)%Z && (statusCode <? 500)%Z
  | _ => false
  end.

Definition isServerError (e : error) : bool :=
  match e with
  | ApiError _ statusCode _ => (500 <=? statusCode)%Z
  | _ => false
  end.

End ApiErrors.

Module NetworkErrors.

Definition connectionFailed (originalError : option error) : error :=
  NetworkError
    "Impossible de se connecter au serveur FNE. Veuillez vérifier votre connexion internet."
    originalError.

Definition timeout (timeoutMs : option Z) : error :=
  match timeoutMs with
  | Some ms =>
      if (ms =? 0)%Z
      then NetworkError "La requête a expiré. Le serveur ne répond pas." None
      else NetworkError
             ("La requête a expiré après " +:+ pretty ms
              +:+ "ms. Le serveur ne répond pas.") None
  | None => NetworkError "La requête a expiré. Le serveur ne répond pas." None
  end.

Definition dnsResolution : error :=
  NetworkError "Impossible de résoudre l'adresse du serveur." None.

Definition connectionRefused : error :=
  NetworkError "Connexion refusée par le serveur." None.

Definition connectionReset : error :=
  NetworkError "La connexion a été réinitialisée par le serveur." None.

Definition sslError (originalError : option error) : error :=
  NetworkError "Erreur de certificat SSL/TLS. La connexion sécurisée a échoué."
    originalError.

(** [NetworkError.fromError(error)] *)
Definition fromError (e : error) : error :=
  let message := Str.toLowerCase (error_message e) in
  if Str.contains message "timeout" || Str.contains message "timed out" then
    timeout None
  else if Str.contains message "enotfound" || Str.contains message "dns" then
    dnsResolution
  else if Str.contains message "econnrefused" then connectionRefused
  else if Str.contains message "econnreset" then connectionReset
  else if Str.contains message "ssl" || Str.contains message "certificate"
          || Str.contains message "tls" then
    sslError (Some e)
  else connectionFailed (Some e).

End NetworkErrors.

Definition isAuthenticationError (e : error) : bool :=
  match e with AuthenticationError _ => true | _ => false end.
Definition isApiError (e : error) : bool :=
  match e with ApiError _ _ _ => true | _ => false end.
Definition isNetworkError (e : error) : bool :=
  match e with NetworkError _ _ => true | _ => false end.

(* ===================================================================== *)
(** ** Request pipeline ([http/HttpClient.ts]) *)
(* ===================================================================== *)

Module HttpClient.

(** The attempt budget [retryAttempts] is a whole number (3 by default).
    The source types it [number]: a budget with a fractional part, after
    whose last attempt the loop would wait once more, is outside this
    model, and so are NaN and the infinities. *)
Record t : Type := mk {
  baseUrl : string;
  apiKey : option string;
  timeout : Z;
  retryAttempts : Z
}.

Record config : Type := mkConfig {
  cfg_baseUrl : string;
  cfg_apiKey : option string;
  cfg_timeout : option Z;
  cfg_retryAttempts : option Z
}.

Definition new (c : config) : t :=
  {| baseUrl := Str.dropFinalSlash (cfg_baseUrl c);
     apiKey := cfg_apiKey c;
     timeout := default DEFAULT_TIMEOUT (cfg_timeout c);
     retryAttempts := default DEFAULT_RETRY_ATTEMPTS (cfg_retryAttempts c) |}.

Definition buildHeaders (c : t) : list (string * string) :=
  let headers :=
    [ ("Content-Type", "application/json");
      ("Accept", "application/json");
      ("User-Agent", SDK_USER_AGENT) ] in
  match apiKey c with
  | Some k =>
      if truthy (Some k) then Obj.set "Authorization" ("Bearer " +:+ k) headers
      else headers
  | None => headers
  end.

Section Pipeline.
Context {R : Runtime}.
Variable net : network.

(** [executeRequest]: one call of [fetch] under the timeout guard. *)
Definition executeRequest (c : t) (url method : string)
    (headers : list (string * string)) (data : option json) : IO Response.t :=
  fun w =>
    let body :=
      match data with
      | Some d =>
          if String.eqb method "POST" || String.eqb method "PUT"
          then Some d else None
      | None => None
      end in
    let w' := w ++ [Fetch url method headers body] in
    match net (fetches w) with
    | Resolved status hs text => (Return (Response.mk status hs text), w')
    | Rejected name message =>
        if String.eqb name "AbortError"
        then (Throw (NetworkErrors.timeout (Some (timeout c))), w')
        else (Throw (NetworkErrors.fromError (Error message)), w')
    end.

(** [handleResponse] *)
Definition handleResponse (response : Response.t) : result Response.t :=
  if Response.isSuccess response then Return response
  else if (Response.getStatusCode response =? 401)%Z then
    Throw AuthenticationErrors.unauthorized
  else
    let jsonBody := Response.json response in
    match ApiErrors.fromResponse (Response.getStatusCode response)
            (match jsonBody with JNull => None | v => Some v end) with
    | Return e => Throw e
    | Throw e => Throw e
    end.

(** The code after the retry loop. *)
Definition exhausted (lastError : option error) : result Response.t :=
  match lastError with
  | Some e =>
      if isNetworkError e || isApiError e then Throw e
      else Throw (NetworkErrors.connectionFailed lastError)
  | None => Throw (NetworkErrors.connectionFailed lastError)
  end.

(** The retry loop, [for (attempt = 1; attempt <= retryAttempts; attempt++)],
    over the values [attempts] that the counter still has to take;
    [action] is the body of the [try]. *)
Fixpoint retry (c : t) (action : IO Response.t) (attempts : list Z)
    (lastError : option error) : IO Response.t :=
  fun w =>
    match attempts with
    | [] => (exhausted lastError, w)
    | attempt :: rest =>
        match action w with
        | (Return response, w1) => (Return response, w1)
        | (Throw e, w1) =>
            if isAuthenticationError e
               || (isApiError e && ApiErrors.isClientError e)
            then (Throw e, w1)
            else
              let w2 :=
                if (attempt <? retryAttempts c)%Z
                then snd (sleep (2 ^ (attempt - 1) * 1000)%Z w1)
                else w1 in
              retry c action rest (Some e) w2
        end
    end.

(** The body of the [try]: [executeRequest], then [handleResponse]. *)
Definition tryRequest (c : t) (url method : string)
    (headers : list (string * string)) (data : option json) : IO Response.t :=
  fun w =>
    match executeRequest c url method headers data w with
    | (Return response, w') => (handleResponse response, w')
    | (Throw e, w') => (Throw e, w')
    end.

(** [HttpClient.request] *)
Definition request (c : t) (method endpoint : string) (data : option json)
    : IO Response.t :=
  let url := baseUrl c +:+ endpoint in
  let headers := buildHeaders c in
  retry c (tryRequest c url method headers data)
    (seqZ 1 (retryAttempts c)) None.

(** [HttpClient.post(endpoint, data = {})] *)
Definition post (c : t) (endpoint : string) (data : json) : IO Response.t :=
  request c "POST" endpoint (Some data).

End Pipeline.
End HttpClient.

(* ===================================================================== *)
(** ** Invoice service ([services/InvoiceService.ts]) *)
(* ===================================================================== *)

Module ApiResponse.

Record t : Type := mk {
  _ncc : json;
  _reference : json;
  _token : json;
  _warning : json;
  _balanceSticker : json;
  _invoice : json;
  _statusCode : json
}.

(** [ApiResponse.fromJSON(json)] *)
Definition fromJSON (fields : list (string * json)) : t :=
  {| _ncc := nullish (Obj.get "ncc" fields) (JStr "");
     _reference := nullish (Obj.get "reference" fields) (JStr "");
     _token := nullish (Obj.get "token" fields) (JStr "");
     _warning := nullish (Obj.get "warning" fields) (JBool false);
     _balanceSticker := nullish (Obj.get "balance_sticker" fields) (JNum 0%num);
     _invoice := nullish (Obj.get "invoice" fields) (JObj []);
     _statusCode := nullish (Obj.get "statusCode" fields) (JNum (Number.of_Z 200)) |}.

End ApiResponse.

(** [{...j}]: the own enumerable properties of a JSON value. *)
Definition spread (j : json) : list (string * json) :=
  match j with
  | JObj fields => fields
  | JArr l => imap (fun i v => (pretty i, v)) l
  | JStr s => imap (fun i c => (pretty i, JStr (String c ""))) (Str.chars s)
  | _ => []
  end.

Module InvoiceService.

Record t : Type := mk {
  httpClient : HttpClient.t;
  validator : Validator.state
}.

Definition new (httpClient : HttpClient.t) : t :=
  {| httpClient := httpClient; validator := Validator.fresh |}.

Section Service.
Context {R : Runtime}.
Variable net : network.

(** [signInvoice(invoice)]: the result, the service afterwards (its
    validator is mutated) and the world afterwards. *)
Definition signInvoice (svc : t) (invoice : Invoice.t)
    : world -> result ApiResponse.t * t * world :=
  fun w =>
    match Validator.validate invoice (validator svc) with
    | (Throw e, v') => (Throw e, mk (httpClient svc) v', w)
    | (Return _, v') =>
        let svc' := mk (httpClient svc) v' in
        match HttpClient.post net (httpClient svc) ENDPOINT_SIGN_INVOICE
                (Invoice.toArray invoice) w with
        | (Throw e, w') => (Throw e, svc', w')
        | (Return response, w') =>
            let json := Response.json response in
            if negb (json_truthy json) then
              (Throw (Error "Réponse API invalide"), svc', w')
            else
              (Return (ApiResponse.fromJSON
                         (Obj.set "statusCode"
                            (JNum (Number.of_Z (Response.getStatusCode response)))
                            (spread json))),
               svc', w')
        end
    end.

End Service.
End InvoiceService.

(* ===================================================================== *)
(** ** Statements of the specification, in its own words *)
(* ===================================================================== *)

Module Spec.

(** "digits only" *)
Definition digits (s : string) : bool := Str.forallb Str.is_digit s.

(** "after stripping spaces, dots and dashes", spaces being read as
    white space. *)
Definition strip (phone : string) : string :=
  Str.remove
    (fun t =>
       match t with
       | Str.Space _ _ => true
       | Str.Byte a => Ascii.eqb a "." || Ascii.eqb a "-"
       end)
    phone.

(** "[+225] followed by exactly 10 digits, or [225] followed by exactly
    10 digits, or a bare local number of 8 to 10 digits" *)
Definition phone_format (c : string) : bool :=
  match c with
  | String "+" (String "2" (String "2" (String "5" d))) =>
      digits d && (String.length d =? 10)%nat
  | _ => false
  end
  || match c with
     | String "2" (String "2" (String "5" d)) =>
         digits d && (String.length d =? 10)%nat
     | _ => false
     end
  || (digits c && (8 <=? String.length c)%nat && (String.length c <=? 10)%nat).

Definition isValidPhone (phone : string) : bool := phone_format (strip phone).

End Spec.

(** The string that [isValidPhone] examines. *)
Definition cleaned (phone : string) : string := Str.remove phone_noise phone.

(* ===================================================================== *)
(** ** Vocabulary for the statements about the validator *)
(* ===================================================================== *)

Module ValidatorSpec.
Import Validator.

(** Replaying a list of [addError] calls on a validator. *)
Definition replay (ws : list (string * string)) (st : state) : state :=
  fold_left (fun s w => snd (addError (fst w) (snd w) s)) ws st.

(** A method that acts on the validator only by calling [addError], on
    keys that satisfy [Q]. *)
Definition writes {A} (Q : string -> Prop) (m : M A) : Prop :=
  forall st, exists ws,
    Forall (fun w => Q (fst w)) ws /\ snd (m st) = replay ws st.

(** A method whose effect is exactly the calls [ws0] followed by calls
    on keys that satisfy [Q]. *)
Definition writes_after {A} (ws0 : list (string * string))
    (Q : string -> Prop) (m : M A) : Prop :=
  forall st, exists ws,
    Forall (fun w => Q (fst w)) ws /\ snd (m st) = replay (ws0 ++ ws) st.

(** [validate] raises a [ValidationError] that carries [errs]. *)
Definition raises (invoice : Invoice.t) (st : state) (errs : ValidationErrors) : Prop :=
  exists message, fst (validate invoice st) = Throw (ValidationError message errs).

(** The last message recorded for the key [k] in a list of calls. *)
Fixpoint last_write (k : string) (ws : list (string * string)) : option string :=
  match ws with
  | [] => None
  | (k', m) :: ws' =>
      match last_write k ws' with
      | Some m' => Some m'
      | None => if String.eqb k k' then Some m else None
      end
  end.

(** The journal of a validator accounts for its error set. *)
Definition consistent (st : state) : Prop :=
  errors st = errors (replay (journal st) fresh).

(** The keys that each phase other than the items phase may write
    (the optional phase also writes under [customTaxes[i]]). *)
Definition base_keys : list string :=
  ["invoiceType"; "paymentMethod"; "template"; "pointOfSale"; "establishment"].
Definition client_keys : list string :=
  ["clientCompanyName"; "clientPhone"; "clientEmail"].
Definition template_keys : list string :=
  ["clientNcc"; "foreignCurrency"; "foreignCurrencyRate"].
Definition optional_keys : list string := ["foreignCurrency"; "discount"; "rne"].

(** The two messages that a blank invoice type receives, in order. *)
Definition required_message : string := "Le champ invoiceType est requis".
Definition allowed_message : string :=
  "La valeur de type de facture doit être parmi: sale, purchase".

(** A key that concerns the line items: [items] itself or a key under
    [items[i]]. *)
Definition items_related (k : string) : bool := Str.startsWith k "items".

(** A key of one line item, [items[i]...]. *)
Definition item_level (k : string) : bool := Str.startsWith k "items[".

End ValidatorSpec.

(* ===================================================================== *)
(** ** Vocabulary for the statements about the request pipeline *)
(* ===================================================================== *)

Module PipelineSpec.
Import HttpClient.

(** An error after which the loop goes on: neither an authentication
    error nor a client error of the remote service. *)
Definition retryable (e : error) : bool :=
  negb (isAuthenticationError e || (isApiError e && ApiErrors.isClientError e)).

(** A transport or remote failure. *)
Definition classified (e : error) : bool := isNetworkError e || isApiError e.

(** The world after the backoff that follows the failed attempt number
    [attempt]. *)
Definition backoff (c : t) (attempt : Z) (w : world) : world :=
  if (attempt <? retryAttempts c)%Z
  then w ++ [Sleep (2 ^ (attempt - 1) * 1000)%Z] else w.

(** The body that [executeRequest] sends, and the request it makes. *)
Definition sent_body (method : string) (data : option json) : option json :=
  match data with
  | Some d =>
      if String.eqb method "POST" || String.eqb method "PUT" then Some d else None
  | None => None
  end.

Definition sent (c : t) (method endpoint : string) (data : option json) : event :=
  Fetch (baseUrl c +:+ endpoint) method (buildHeaders c) (sent_body method data).

(** The error that [executeRequest] throws when [fetch] rejects. *)
Definition transport_error (c : t) (name message : string) : error :=
  if String.eqb name "AbortError"
  then NetworkErrors.timeout (Some (timeout c))
  else NetworkErrors.fromError (Error message).

(** What [ApiError.fromResponse] is given for a response. *)
Definition parsed `{Runtime} (status : Z) (hs : list (string * string))
    (body : string) : option json :=
  match Response.json (Response.mk status hs body) with
  | JNull => None
  | v => Some v
  end.

(** The error that [handleResponse] throws for a response that is
    neither a success nor a 401: the [ApiError] of the response, or the
    [TypeError] met while building it. *)
Definition remote_error `{Runtime} (status : Z) (hs : list (string * string))
    (body : string) : error :=
  match ApiErrors.fromResponse status (parsed status hs body) with
  | Return e => e
  | Throw e => e
  end.

(** What the loop throws once the attempts are exhausted, [last] being
    the last error recorded: that error if it is a transport or remote
    failure, else a connection failure that wraps it. *)
Definition raised_at_exhaustion (last : option error) : error :=
  match last with
  | Some e => if classified e then e else NetworkErrors.connectionFailed (Some e)
  | None => NetworkErrors.connectionFailed None
  end.

(** [exhausts c action attempts last w last' w']: started in the world [w]
    with [last] as last recorded error, every one of the attempts fails
    with a retryable error; [last'] is the last error recorded and [w']
    the world at the end. *)
Inductive exhausts (c : t) (action : IO Response.t)
    : list Z -> option error -> world -> option error -> world -> Prop :=
| exhausts_done last w : exhausts c action [] last w last w
| exhausts_fail attempt rest last w e w1 last' w' :
    action w = (Throw e, w1) ->
    retryable e = true ->
    exhausts c action rest (Some e) (backoff c attempt w1) last' w' ->
    exhausts c action (attempt :: rest) last w last' w'.

(** An action that fails with the error [e] whenever it is called. *)
Definition failing (e : error) : IO Response.t := fun w => (Throw e, w).

(** A network that answers every request with the same status, and one
    that follows a script, then refuses connections. *)
Definition always (status : Z) : network := fun _ => Resolved status [] "".
Definition scripted (outcomes : list fetch_outcome) : network :=
  fun n => nth n outcomes (Rejected "TypeError" "fetch failed").

(** A client with three attempts. *)
Definition client3 : t :=
  {| baseUrl := "http://54.247.95.108/ws"; apiKey := None;
     timeout := DEFAULT_TIMEOUT; retryAttempts := 3 |}.

(** A runtime whose [JSON.parse] fails on every body. *)
Definition no_json : Runtime :=
  {| JSON_parse := fun _ => None;
     ToString := fun _ => Converted "[object Object]" |}.

(** The body [{"message":{"toString":1}}], and a runtime that parses it
    and cannot convert its message to a string. *)
Definition toxic_body : string :=
  "{" +:+ String "034" "message" +:+ String "034" ":{"
  +:+ String "034" "toString" +:+ String "034" ":1}}".

Definition toxic_message : json := JObj [("toString", JNum (Number.of_Z 1))].

Definition toxic : Runtime :=
  {| JSON_parse := fun body =>
       if String.eqb body toxic_body
       then Some (JObj [("message", toxic_message)]) else None;
     ToString := fun v =>
       match v with
       | JObj fields =>
           if Obj.has "toString" fields
           then TypeError "Cannot convert object to primitive value"
           else Converted "[object Object]"
       | _ => Converted "[object Object]"
       end |}.

End PipelineSpec.

(* ===================================================================== *)
(** ** Sample documents *)
(* ===================================================================== *)

Module Samples.

(** The line item of the concrete scenario of the specification. *)
Definition item_X : InvoiceItem.t :=
  {| InvoiceItem._description := "X";
     InvoiceItem._quantity := Number.of_Z 1;
     InvoiceItem._amount := Number.of_Z 10000;
     InvoiceItem._taxes := ["TVA"];
     InvoiceItem._reference := None;
     InvoiceItem._discount := 0%num;
     InvoiceItem._measurementUnit := None;
     InvoiceItem._customTaxes := [] |}.

(** A document of the given regime, with the given items, currency and
    rate; the other fields are those of the unit tests. *)
Definition document (invoiceType template : string)
    (currency : option string) (rate : number)
    (items : list InvoiceItem.t) : Invoice.t :=
  {| Invoice._invoiceType := invoiceType;
     Invoice._paymentMethod := "cash";
     Invoice._template := template;
     Invoice._pointOfSale := "Caisse 1";
     Invoice._establishment := "Magasin Principal";
     Invoice._clientCompanyName := "Jean Dupont";
     Invoice._clientPhone := "0709123456";
     Invoice._clientEmail := "jean@email.com";
     Invoice._clientNcc := None;
     Invoice._clientSellerName := None;
     Invoice._commercialMessage := None;
     Invoice._footer := None;
     Invoice._foreignCurrency := currency;
     Invoice._foreignCurrencyRate := rate;
     Invoice._isRne := false;
     Invoice._rne := None;
     Invoice._discount := 0%num;
     Invoice._items := items;
     Invoice._customTaxes := [] |}.

(** The same line item with a discount of 10. *)
Definition item_discounted : InvoiceItem.t :=
  {| InvoiceItem._description := "X";
     InvoiceItem._quantity := Number.of_Z 1;
     InvoiceItem._amount := Number.of_Z 10000;
     InvoiceItem._taxes := ["TVA"];
     InvoiceItem._reference := None;
     InvoiceItem._discount := Number.of_Z 10;
     InvoiceItem._measurementUnit := None;
     InvoiceItem._customTaxes := [] |}.

(** The valid B2C sale of the specification. *)
Definition b2c_sale : Invoice.t := document "sale" "B2C" None 0%num [item_X].

(** A B2C sale without line items. *)
Definition no_items : Invoice.t := document "sale" "B2C" None 0%num [].

(** Export documents: no currency; a currency and a zero rate; a
    currency outside the allowed set and a zero rate. *)
Definition b2f_no_currency : Invoice.t :=
  document "sale" "B2F" None 0%num [item_X].
Definition b2f_zero_rate : Invoice.t :=
  document "sale" "B2F" (Some "EUR") 0%num [item_X].
Definition b2f_unknown_currency : Invoice.t :=
  document "sale" "B2F" (Some "XXX") 0%num [item_X].

(** A document whose invoice type is blank. *)
Definition blank_type : Invoice.t := document " " "B2C" None 0%num [item_X].

End Samples.

(* ===================================================================== *)
(** ** Further helpers ([utils/helpers.ts]) *)
(* ===================================================================== *)

(** [cleanPhoneNumber]: [phone.replace(/[\s.-]/g, '')] *)
Definition cleanPhoneNumber (phone : string) : string :=
  Str.remove phone_noise phone.

(** [[^\s@]], on a character of the string. *)
Definition email_char (t : Str.token) : bool :=
  match t with
  | Str.Space _ _ => false
  | Str.Byte a => negb (Ascii.eqb a "@")
  end.

(** A string made of characters that [[^\s@]] accepts, at least one:
    it holds no white space and no [@]. *)
Definition email_part (s : string) : Prop :=
  s <> "" /\ List.forallb email_char (Str.tokens s) = true.

(** A string of ASCII characters. *)
Definition ascii_only (s : string) : bool :=
  Str.forallb (fun a => (nat_of_ascii a <? 128)%nat) s.

(** A name that the checks of the SDK call blank: [!name ||
    name.trim().length === 0]. *)
Definition blank (s : string) : bool :=
  String.eqb s "" || (Str.length (Str.trim s) =? 0)%nat.

(** The key under which a rule on the item at position [index] is
    reported: [`items[${index}]` + suffix]. *)
Definition item_key (index : nat) (suffix : string) : string :=
  ("items[" +:+ pretty index +:+ "]") +:+ suffix.

(** The item [i] with other tax codes, and the document [d] with other
    items. *)
Definition withTaxes (taxes : list string) (i : InvoiceItem.t) : InvoiceItem.t :=
  InvoiceItem.mk (InvoiceItem._description i) (InvoiceItem._quantity i)
    (InvoiceItem._amount i) taxes (InvoiceItem._reference i)
    (InvoiceItem._discount i) (InvoiceItem._measurementUnit i)
    (InvoiceItem._customTaxes i).

Definition withItems (items : list InvoiceItem.t) (d : Invoice.t) : Invoice.t :=
  Invoice.mk (Invoice._invoiceType d) (Invoice._paymentMethod d)
    (Invoice._template d) (Invoice._pointOfSale d) (Invoice._establishment d)
    (Invoice._clientCompanyName d) (Invoice._clientPhone d) (Invoice._clientEmail d)
    (Invoice._clientNcc d) (Invoice._clientSellerName d)
    (Invoice._commercialMessage d) (Invoice._footer d) (Invoice._foreignCurrency d)
    (Invoice._foreignCurrencyRate d) (Invoice._isRne d) (Invoice._rne d)
    (Invoice._discount d) items (Invoice._customTaxes d).

(** The keys that a validation run can record. *)
Definition known_key (k : string) : Prop :=
  In k (ValidatorSpec.base_keys ++ ValidatorSpec.client_keys
        ++ ValidatorSpec.template_keys ++ ValidatorSpec.optional_keys)
  \/ ValidatorSpec.items_related k = true
  \/ Str.startsWith k "customTaxes[" = true.

Module Samples2.

(** A line item that breaks the rules on quantity and discount and has a
    tax code that does not exist. *)
Definition bad_item : InvoiceItem.t :=
  {| InvoiceItem._description := "Y";
     InvoiceItem._quantity := 0%num;
     InvoiceItem._amount := Number.of_Z 500;
     InvoiceItem._taxes := ["TVA"; "TVX"];
     InvoiceItem._reference := None;
     InvoiceItem._discount := Number.of_Z 150;
     InvoiceItem._measurementUnit := None;
     InvoiceItem._customTaxes := [] |}.

(** A sale with a valid item and the item above, and a purchase with the
    same items. *)
Definition sale_with_bad_item : Invoice.t :=
  Samples.document "sale" "B2C" None 0%num [Samples.item_X; bad_item].
Definition purchase_with_bad_item : Invoice.t :=
  Samples.document "purchase" "B2C" None 0%num [Samples.item_X; bad_item].

End Samples2.

(** How an optional text field shows in the serialised form: with its
    value when it is neither [null] nor empty, not at all otherwise. *)
Definition emitted (value : option string) : option json :=
  match value with
  | Some s => if String.eqb s "" then None else Some (JStr s)
  | None => None
  end.

(** The keys of a serialised JSON object. *)
Definition json_keys (j : json) : list string :=
  match j with
  | JObj fields => Obj.keys fields
  | _ => []
  end.

(** The keys that every serialised document, and every serialised item,
    starts with. *)
Definition invoice_required_keys : list string :=
  ["invoiceType"; "paymentMethod"; "template"; "pointOfSale"; "establishment";
   "clientCompanyName"; "clientPhone"; "clientEmail"; "isRne"; "items"].
Definition item_required_keys : list string :=
  ["description"; "quantity"; "amount"; "taxes"].

(** A key that is listed under a condition. *)
Definition key_if (b : bool) (k : string) : list string :=
  if b then [k] else [].

(** The requests and waits of attempts that are all followed by another
    one: each sends the request [f], then waits 1000 ms doubled once per
    earlier attempt. *)
Definition schedule (f : event) (attempts : list Z) : list event :=
  flat_map (fun attempt => [f; Sleep (2 ^ (attempt - 1) * 1000)%Z]) attempts.

(** An outcome of [fetch] after which the loop of [request] stops: a
    response with a status from 200 to 299, a 401, or a response with
    another status from 400 to 499 whose [ApiError] can be built. *)
Definition final `{Runtime} (o : fetch_outcome) : bool :=
  match o with
  | Resolved status hs body =>
      (200 <=? status)%Z && (status <? 300)%Z
      || (status =? 401)%Z
      || (400 <=? status)%Z && (status <? 500)%Z
         && match ApiErrors.fromResponse status
                    (PipelineSpec.parsed status hs body) with
            | Return _ => true
            | Throw _ => false
            end
  | Rejected _ _ => false
  end.

(** The number of status classes of [Response] that a response falls
    in. *)
Definition status_classes (r : Response.t) : nat :=
  length (List.filter (fun b : bool => b)
    [Response.isSuccess r; Response.isRedirect r;
     Response.isClientError r; Response.isServerError r]).

(* ===================================================================== *)
(** ** The other services and the client ([services/], [FneClient.ts]) *)
(* ===================================================================== *)

Definition PAYMENT_CASH : string := "cash".
Definition PAYMENT_MOBILE_MONEY : string := "mobile-money".
Definition TEST_BASE_URL : string := "http://54.247.95.108/ws".
Definition ENDPOINT_REFUND_INVOICE : string := "/external/invoices/{id}/refund".

(** [ValidationError.withErrors(errors)] and
    [ValidationError.forField(field, message)] *)
Definition ValidationError_withErrors (errors : ValidationErrors) : error :=
  ValidationError
    ("Validation échouée: " +:+ pretty (length (Obj.keys errors))
     +:+ " erreur(s) trouvée(s)")
    errors.

Definition ValidationError_forField (field message : string) : error :=
  ValidationError ("Validation échouée pour " +:+ field +:+ ": " +:+ message)
    [(field, message)].

(** [invoice.isPurchase()] *)
Definition isPurchase (invoice : Invoice.t) : bool :=
  String.eqb (Invoice._invoiceType invoice) "purchase".

(** [httpClient.setApiKey(apiKey)] *)
Definition HttpClient_setApiKey (apiKey : string) (c : HttpClient.t) : HttpClient.t :=
  {| HttpClient.baseUrl := HttpClient.baseUrl c;
     HttpClient.apiKey := Some apiKey;
     HttpClient.timeout := HttpClient.timeout c;
     HttpClient.retryAttempts := HttpClient.retryAttempts c |}.

(** [new Invoice({...})] with the eight mandatory fields and those of the
    optional fields that the factory methods of the services pass: the
    other fields take their defaults. *)
Definition newInvoice (invoiceType paymentMethod template pointOfSale
    establishment clientCompanyName clientPhone clientEmail : string)
    (clientNcc foreignCurrency : option string) (foreignCurrencyRate : number)
    (isRne : bool) (rne : option string) : Invoice.t :=
  {| Invoice._invoiceType := invoiceType;
     Invoice._paymentMethod := paymentMethod;
     Invoice._template := template;
     Invoice._pointOfSale := pointOfSale;
     Invoice._establishment := establishment;
     Invoice._clientCompanyName := clientCompanyName;
     Invoice._clientPhone := clientPhone;
     Invoice._clientEmail := clientEmail;
     Invoice._clientNcc := clientNcc;
     Invoice._clientSellerName := None;
     Invoice._commercialMessage := None;
     Invoice._footer := None;
     Invoice._foreignCurrency := foreignCurrency;
     Invoice._foreignCurrencyRate := foreignCurrencyRate;
     Invoice._isRne := isRne;
     Invoice._rne := rne;
     Invoice._discount := 0%num;
     Invoice._items := [];
     Invoice._customTaxes := [] |}.

(** The factory methods of [InvoiceService]. *)
Definition PAYMENT_TRANSFER : string := "transfer".
Definition TAX_TVA : string := "TVA".

Definition createSaleInvoice (pointOfSale establishment clientName
    clientPhone clientEmail : string)
    (paymentMethod template : option string) : Invoice.t :=
  newInvoice INVOICE_TYPE_SALE (default PAYMENT_CASH paymentMethod)
    (default TEMPLATE_B2C template) pointOfSale establishment
    clientName clientPhone clientEmail None None 0%num false None.

Definition createB2BInvoice (pointOfSale establishment clientName
    clientPhone clientEmail clientNcc : string)
    (paymentMethod : option string) : Invoice.t :=
  newInvoice INVOICE_TYPE_SALE (default PAYMENT_TRANSFER paymentMethod)
    TEMPLATE_B2B pointOfSale establishment
    clientName clientPhone clientEmail (Some clientNcc) None 0%num false None.

Definition createB2FInvoice (pointOfSale establishment clientName
    clientPhone clientEmail foreignCurrency : string) (exchangeRate : number)
    (paymentMethod : option string) : Invoice.t :=
  newInvoice INVOICE_TYPE_SALE (default PAYMENT_TRANSFER paymentMethod)
    TEMPLATE_B2F pointOfSale establishment
    clientName clientPhone clientEmail None (Some foreignCurrency) exchangeRate
    false None.

Definition createFromRne (rneNumber pointOfSale establishment clientName
    clientPhone clientEmail : string)
    (paymentMethod : option string) : Invoice.t :=
  newInvoice INVOICE_TYPE_SALE (default PAYMENT_CASH paymentMethod)
    TEMPLATE_B2C pointOfSale establishment
    clientName clientPhone clientEmail None None 0%num true (Some rneNumber).

Definition createItem (description : string) (quantity amount : number)
    (taxes : option (list string)) : InvoiceItem.t :=
  {| InvoiceItem._description := description;
     InvoiceItem._quantity := quantity;
     InvoiceItem._amount := amount;
     InvoiceItem._taxes := default [TAX_TVA] taxes;
     InvoiceItem._reference := None;
     InvoiceItem._discount := 0%num;
     InvoiceItem._measurementUnit := None;
     InvoiceItem._customTaxes := [] |}.

Module PurchaseService.

Record t : Type := mk {
  httpClient : HttpClient.t;
  validator : Validator.state
}.

Definition new (httpClient : HttpClient.t) : t :=
  {| httpClient := httpClient; validator := Validator.fresh |}.

Section Service.
Context {R : Runtime}.
Variable net : network.

(** [signPurchaseInvoice(invoice)]: the result, the service afterwards and
    the world afterwards. *)
Definition signPurchaseInvoice (svc : t) (invoice : Invoice.t)
    : world -> result ApiResponse.t * t * world :=
  fun w =>
    if negb (isPurchase invoice) then
      (Throw (ValidationError_forField "invoiceType"
                "Cette méthode est réservée aux factures d'achat (type: purchase)"),
       svc, w)
    else
      match Validator.validate invoice (validator svc) with
      | (Throw e, v') => (Throw e, mk (httpClient svc) v', w)
      | (Return _, v') =>
          let svc' := mk (httpClient svc) v' in
          match HttpClient.post net (httpClient svc) ENDPOINT_SIGN_INVOICE
                  (Invoice.toArray invoice) w with
          | (Throw e, w') => (Throw e, svc', w')
          | (Return response, w') =>
              let json := Response.json response in
              if negb (json_truthy json) then
                (Throw (Error "Réponse API invalide"), svc', w')
              else
                (Return (ApiResponse.fromJSON
                           (Obj.set "statusCode"
                              (JNum (Number.of_Z (Response.getStatusCode response)))
                              (spread json))),
                 svc', w')
          end
      end.

End Service.

Definition createPurchaseInvoice (pointOfSale establishment supplierName
    supplierPhone supplierEmail : string)
    (paymentMethod template : option string) : Invoice.t :=
  newInvoice INVOICE_TYPE_PURCHASE (default PAYMENT_CASH paymentMethod)
    (default TEMPLATE_B2C template) pointOfSale establishment
    supplierName supplierPhone supplierEmail None None 0%num false None.

Definition createB2BPurchaseInvoice (pointOfSale establishment supplierName
    supplierPhone supplierEmail supplierNcc : string)
    (paymentMethod : option string) : Invoice.t :=
  newInvoice INVOICE_TYPE_PURCHASE (default PAYMENT_CASH paymentMethod)
    TEMPLATE_B2B pointOfSale establishment
    supplierName supplierPhone supplierEmail (Some supplierNcc) None 0%num
    false None.

Definition createCooperativePurchase (pointOfSale establishment cooperativeName
    cooperativePhone cooperativeEmail : string)
    (paymentMethod : option string) : Invoice.t :=
  newInvoice INVOICE_TYPE_PURCHASE (default PAYMENT_MOBILE_MONEY paymentMethod)
    TEMPLATE_B2C pointOfSale establishment
    cooperativeName cooperativePhone cooperativeEmail None None 0%num false None.

Definition createPurchaseItem (description : string) (quantity amount : number)
    (measurementUnit : option string) : InvoiceItem.t :=
  {| InvoiceItem._description := description;
     InvoiceItem._quantity := quantity;
     InvoiceItem._amount := amount;
     InvoiceItem._taxes := [];
     InvoiceItem._reference := None;
     InvoiceItem._discount := 0%num;
     InvoiceItem._measurementUnit :=
       if truthy measurementUnit then measurementUnit else None;
     InvoiceItem._customTaxes := [] |}.

End PurchaseService.

Module RefundRequest.

(** [RefundItemData] *)
Record item : Type := mkItem { id : string; quantity : number }.

Record t : Type := mk { _items : list item }.

Definition new : t := {| _items := [] |}.

Definition addItem (itemId : string) (quantity : number) (r : t) : result t :=
  if String.eqb itemId "" || (Str.length (Str.trim itemId) =? 0)%nat then
    Throw (Error "L'ID de l'article est requis")
  else if Number.le quantity 0%num then
    Throw (Error "La quantité doit être supérieure à 0")
  else
    Return {| _items := _items r ++ [{| id := Str.trim itemId; quantity := quantity |}] |}.

Definition getItems (r : t) : list item := _items r.
Definition hasItems (r : t) : bool := (0 <? length (_items r))%nat.
Definition getItemCount (r : t) : nat := length (_items r).

Definition toArray (r : t) : json :=
  JObj [("items",
         JArr (map (fun i => JObj [("id", JStr (id i)); ("quantity", JNum (quantity i))])
                 (_items r)))].

End RefundRequest.

Module Replace.

(** The text before and the text after the first occurrence of [pattern]
    in [s]. *)
Fixpoint skip (n : nat) (s : string) : string :=
  match n, s with
  | S n', String _ s' => skip n' s'
  | _, _ => s
  end.

Fixpoint find (pattern s : string) : option (string * string) :=
  if Str.startsWith s pattern then Some ("", skip (String.length pattern) s)
  else
    match s with
    | EmptyString => None
    | String c s' =>
        match find pattern s' with
        | Some (before, after) => Some (String c before, after)
        | None => None
        end
    end.

(** The text that stands for the replacement string: [$$] is a dollar
    sign, [$&] the matched text, [$`] the text before it and [$'] the text
    after it.  The pattern being a string, there is no capture: [$1] to
    [$99] and [$<] stand for themselves. *)
Fixpoint substitution (matched before after replacement : string) : string :=
  match replacement with
  | EmptyString => EmptyString
  | String "$" (String "$" r) => String "$" (substitution matched before after r)
  | String "$" (String "&" r) => matched +:+ substitution matched before after r
  | String "$" (String "`" r) => before +:+ substitution matched before after r
  | String "$" (String "'" r) => after +:+ substitution matched before after r
  | String c r => String c (substitution matched before after r)
  end.

(** [s.replace(pattern, replacement)], for a pattern that is a string. *)
Definition replace (pattern replacement s : string) : string :=
  match find pattern s with
  | Some (before, after) =>
      before +:+ substitution pattern before after replacement +:+ after
  | None => s
  end.

End Replace.

Module RefundService.

Record t : Type := mk { httpClient : HttpClient.t }.

Definition new (httpClient : HttpClient.t) : t := {| httpClient := httpClient |}.

(** [OriginalInvoiceItem] *)
Record OriginalInvoiceItem : Type := mkOriginal { id : string; quantity : number }.

(** The [forEach] of [validateRefundRequest] on the items from position
    [index], [errors] being the object that it fills. *)
Fixpoint collect (items : list RefundRequest.item) (index : nat)
    (errors : ValidationErrors) : ValidationErrors :=
  match items with
  | [] => errors
  | item :: rest =>
      let errors :=
        if String.eqb (RefundRequest.id item) ""
           || (Str.length (Str.trim (RefundRequest.id item)) =? 0)%nat
        then Obj.set ("items[" +:+ pretty index +:+ "].id")
               "L'ID de l'article est requis" errors
        else errors in
      let errors :=
        if Number.le (RefundRequest.quantity item) 0%num
        then Obj.set ("items[" +:+ pretty index +:+ "].quantity")
               "La quantité doit être supérieure à 0" errors
        else errors in
      collect rest (S index) errors
  end.

Definition validateRefundRequest (refundRequest : RefundRequest.t) : result unit :=
  if negb (RefundRequest.hasItems refundRequest) then
    Throw (ValidationError_forField "items"
             "La demande de remboursement doit contenir au moins un article")
  else
    let items := RefundRequest.getItems refundRequest in
    let errors := collect items 0 [] in
    if (0 <? length (Obj.keys errors))%nat
    then Throw (ValidationError_withErrors errors)
    else Return tt.

(** The loop of [createFullRefund] and [createPartialRefund]. *)
Fixpoint addItems (items : list OriginalInvoiceItem) (r : RefundRequest.t)
    : result RefundRequest.t :=
  match items with
  | [] => Return r
  | item :: rest =>
      match RefundRequest.addItem (id item) (quantity item) r with
      | Throw e => Throw e
      | Return r' => addItems rest r'
      end
  end.

Section Service.
Context {R : Runtime}.
Variable net : network.

Definition createRefund (svc : t) (originalInvoiceId : string)
    (refundRequest : RefundRequest.t) : IO ApiResponse.t :=
  fun w =>
    match validateRefundRequest refundRequest with
    | Throw e => (Throw e, w)
    | Return _ =>
        let endpoint :=
          Replace.replace "{id}" originalInvoiceId ENDPOINT_REFUND_INVOICE in
        match HttpClient.post net (httpClient svc) endpoint
                (RefundRequest.toArray refundRequest) w with
        | (Throw e, w') => (Throw e, w')
        | (Return response, w') =>
            let json := Response.json response in
            if negb (json_truthy json) then
              (Throw (Error "Réponse API invalide"), w')
            else
              (Return (ApiResponse.fromJSON
                         (Obj.set "statusCode"
                            (JNum (Number.of_Z (Response.getStatusCode response)))
                            (spread json))),
               w')
        end
    end.

Definition createFullRefund (svc : t) (originalInvoiceId : string)
    (originalInvoiceItems : list OriginalInvoiceItem) : IO ApiResponse.t :=
  fun w =>
    match addItems originalInvoiceItems RefundRequest.new with
    | Throw e => (Throw e, w)
    | Return refundRequest => createRefund svc originalInvoiceId refundRequest w
    end.

Definition createPartialRefund (svc : t) (originalInvoiceId : string)
    (itemsToRefund : list OriginalInvoiceItem) : IO ApiResponse.t :=
  fun w =>
    match addItems itemsToRefund RefundRequest.new with
    | Throw e => (Throw e, w)
    | Return refundRequest => createRefund svc originalInvoiceId refundRequest w
    end.

End Service.
End RefundService.

Module FneClient.

(** [FneClientConfig] *)
Record config : Type := mkConfig {
  cfg_apiKey : string;
  cfg_baseUrl : string;
  cfg_testMode : option bool;
  cfg_timeout : option Z;
  cfg_retryAttempts : option Z
}.

(** The client.  The three services that it hands out hold its
    [httpClient] by reference; a service slot holds what the service owns
    besides: the validator of the invoice and purchase services, nothing
    for the refund service. *)
Record t : Type := mk {
  httpClient : HttpClient.t;
  tokenManager : TokenManager.t json;
  _testMode : bool;
  _baseUrl : string;
  _timeout : Z;
  _retryAttempts : Z;
  _invoiceService : option Validator.state;
  _refundService : option unit;
  _purchaseService : option Validator.state
}.

(** The private constructor. *)
Definition new (c : config) : t :=
  let baseUrl := cfg_baseUrl c in
  let timeout := default DEFAULT_TIMEOUT (cfg_timeout c) in
  let retryAttempts := default DEFAULT_RETRY_ATTEMPTS (cfg_retryAttempts c) in
  {| httpClient :=
       HttpClient.new
         {| HttpClient.cfg_baseUrl := baseUrl;
            HttpClient.cfg_apiKey := Some (cfg_apiKey c);
            HttpClient.cfg_timeout := Some timeout;
            HttpClient.cfg_retryAttempts := Some retryAttempts |};
     tokenManager := TokenManager.setApiKey (cfg_apiKey c) TokenManager.new;
     _testMode := default true (cfg_testMode c);
     _baseUrl := baseUrl;
     _timeout := timeout;
     _retryAttempts := retryAttempts;
     _invoiceService := None;
     _refundService := None;
     _purchaseService := None |}.

(** [FneClient.test(apiKey)] *)
Definition test (apiKey : string) : t :=
  new {| cfg_apiKey := apiKey; cfg_baseUrl := TEST_BASE_URL;
         cfg_testMode := Some true; cfg_timeout := None;
         cfg_retryAttempts := None |}.

(** [FneClient.production(apiKey, baseUrl)] *)
Definition production (apiKey baseUrl : string) : result t :=
  if String.eqb baseUrl "" || (Str.length (Str.trim baseUrl) =? 0)%nat then
    Throw (Error "L'URL de production est requise")
  else
    Return (new {| cfg_apiKey := apiKey; cfg_baseUrl := baseUrl;
                   cfg_testMode := Some false; cfg_timeout := None;
                   cfg_retryAttempts := None |}).

Definition setApiKey (apiKey : string) (c : t) : t :=
  {| httpClient := HttpClient_setApiKey apiKey (httpClient c);
     tokenManager := TokenManager.setApiKey apiKey (tokenManager c);
     _testMode := _testMode c;
     _baseUrl := _baseUrl c;
     _timeout := _timeout c;
     _retryAttempts := _retryAttempts c;
     _invoiceService := _invoiceService c;
     _refundService := _refundService c;
     _purchaseService := _purchaseService c |}.

(** [rebuildHttpClient]: the outcome and the client afterwards. *)
Definition rebuildHttpClient (c : t) : result unit * t :=
  match TokenManager.getApiKey (tokenManager c) with
  | Throw e => (Throw e, c)
  | Return key =>
      (Return tt,
       {| httpClient := HttpClient_setApiKey key (httpClient c);
          tokenManager := tokenManager c;
          _testMode := _testMode c;
          _baseUrl := _baseUrl c;
          _timeout := _timeout c;
          _retryAttempts := _retryAttempts c;
          _invoiceService := None;
          _refundService := None;
          _purchaseService := None |})
  end.

(** The assignments [this._testMode = testMode; this._baseUrl = baseUrl]. *)
Definition setMode (testMode : bool) (baseUrl : string) (c : t) : t :=
  {| httpClient := httpClient c;
     tokenManager := tokenManager c;
     _testMode := testMode;
     _baseUrl := baseUrl;
     _timeout := _timeout c;
     _retryAttempts := _retryAttempts c;
     _invoiceService := _invoiceService c;
     _refundService := _refundService c;
     _purchaseService := _purchaseService c |}.

Definition enableTestMode (c : t) : result unit * t :=
  rebuildHttpClient (setMode true TEST_BASE_URL c).

Definition enableProductionMode (productionUrl : string) (c : t) : result unit * t :=
  if String.eqb productionUrl ""
     || (Str.length (Str.trim productionUrl) =? 0)%nat then
    (Throw (Error "L'URL de production est requise"), c)
  else rebuildHttpClient (setMode false productionUrl c).

Definition isTestMode (c : t) : bool := _testMode c.

Definition getConfig (c : t) : result config :=
  match
    (if TokenManager.hasApiKey (tokenManager c)
     then TokenManager.getApiKey (tokenManager c) else Return "")
  with
  | Throw e => Throw e
  | Return apiKey =>
      Return {| cfg_apiKey := apiKey;
                cfg_baseUrl := _baseUrl c;
                cfg_testMode := Some (_testMode c);
                cfg_timeout := Some (_timeout c);
                cfg_retryAttempts := Some (_retryAttempts c) |}
  end.

Definition validateConfiguration (c : t) : result unit :=
  TokenManager.validateApiKey (tokenManager c).

Definition clearCache (c : t) : t :=
  {| httpClient := httpClient c;
     tokenManager := TokenManager.clearCache None (tokenManager c);
     _testMode := _testMode c;
     _baseUrl := _baseUrl c;
     _timeout := _timeout c;
     _retryAttempts := _retryAttempts c;
     _invoiceService := _invoiceService c;
     _refundService := _refundService c;
     _purchaseService := _purchaseService c |}.

(** [invoices()], [refunds()] and [purchases()]: the service and the client
    afterwards. *)
Definition invoices (c : t) : InvoiceService.t * t :=
  match _invoiceService c with
  | Some validator => (InvoiceService.mk (httpClient c) validator, c)
  | None =>
      (InvoiceService.new (httpClient c),
       {| httpClient := httpClient c;
          tokenManager := tokenManager c;
          _testMode := _testMode c;
          _baseUrl := _baseUrl c;
          _timeout := _timeout c;
          _retryAttempts := _retryAttempts c;
          _invoiceService := Some Validator.fresh;
          _refundService := _refundService c;
          _purchaseService := _purchaseService c |})
  end.

Definition refunds (c : t) : RefundService.t * t :=
  match _refundService c with
  | Some _ => (RefundService.new (httpClient c), c)
  | None =>
      (RefundService.new (httpClient c),
       {| httpClient := httpClient c;
          tokenManager := tokenManager c;
          _testMode := _testMode c;
          _baseUrl := _baseUrl c;
          _timeout := _timeout c;
          _retryAttempts := _retryAttempts c;
          _invoiceService := _invoiceService c;
          _refundService := Some tt;
          _purchaseService := _purchaseService c |})
  end.

Definition purchases (c : t) : PurchaseService.t * t :=
  match _purchaseService c with
  | Some validator => (PurchaseService.mk (httpClient c) validator, c)
  | None =>
      (PurchaseService.new (httpClient c),
       {| httpClient := httpClient c;
          tokenManager := tokenManager c;
          _testMode := _testMode c;
          _baseUrl := _baseUrl c;
          _timeout := _timeout c;
          _retryAttempts := _retryAttempts c;
          _invoiceService := _invoiceService c;
          _refundService := _refundService c;
          _purchaseService := Some Validator.fresh |})
  end.

End FneClient.

(** An entry that [addItem] accepts, and the item that it stores. *)
Definition accepted (entry : RefundService.OriginalInvoiceItem) : bool :=
  negb (blank (RefundService.id entry))
  && negb (Number.le (RefundService.quantity entry) 0%num).

Definition stored (entry : RefundService.OriginalInvoiceItem) : RefundRequest.item :=
  {| RefundRequest.id := Str.trim (RefundService.id entry);
     RefundRequest.quantity := RefundService.quantity entry |}.

(** A string without dollar sign. *)
Fixpoint dollar_free (s : string) : bool :=
  match s with
  | EmptyString => true
  | String c s' => negb (Ascii.eqb c "$") && dollar_free s'
  end.

(* ===================================================================== *)
(** ** The documents that [validate] accepts *)
(* ===================================================================== *)

(** A method of the validator that records nothing when [b] holds and
    records at least one error otherwise. *)
Definition decides {A} (b : bool) (m : Validator.M A) : Prop :=
  forall st, exists ws,
    snd (m st) = ValidatorSpec.replay ws st /\ (b = true <-> ws = []).

(** A percentage: not below 0 and not above 100 ([NaN] passes, as in the
    source). *)
Definition in_range (discount : number) : bool :=
  negb (Number.lt discount 0%num || Number.gt discount 100%num).

Definition tax_ok (tax : CustomTax.t) : bool :=
  negb (blank (CustomTax.getName tax))
  && negb (Number.lt (CustomTax.getAmount tax) 0%num).

Definition item_ok (invoiceType : string) (item : InvoiceItem.t) : bool :=
  negb (blank (InvoiceItem.getDescription item))
  && negb (Number.le (InvoiceItem.getQuantity item) 0%num)
  && negb (Number.le (InvoiceItem.getAmount item) 0%num)
  && (negb (String.eqb invoiceType "sale")
      || negb (length (InvoiceItem.getTaxes item) =? 0)%nat
         && forallb (Str.includes ALLOWED_TAX_TYPES) (InvoiceItem.getTaxes item))
  && in_range (InvoiceItem.getDiscount item)
  && forallb tax_ok (InvoiceItem.getCustomTaxes item).

Definition base_ok (invoice : Invoice.t) : bool :=
  negb (blank (Invoice.getInvoiceType invoice))
  && Str.includes ALLOWED_INVOICE_TYPES (Invoice.getInvoiceType invoice)
  && negb (blank (Invoice.getPaymentMethod invoice))
  && Str.includes ALLOWED_PAYMENT_METHODS (Invoice.getPaymentMethod invoice)
  && negb (blank (Invoice.getTemplate invoice))
  && Str.includes ALLOWED_TEMPLATES (Invoice.getTemplate invoice)
  && negb (blank (Invoice.getPointOfSale invoice))
  && negb (blank (Invoice.getEstablishment invoice)).

Definition client_ok (invoice : Invoice.t) : bool :=
  negb (blank (Invoice.getClientCompanyName invoice))
  && negb (blank (Invoice.getClientPhone invoice))
  && isValidPhone (Invoice.getClientPhone invoice)
  && negb (blank (Invoice.getClientEmail invoice))
  && isValidEmail (Invoice.getClientEmail invoice).

Definition template_ok (invoice : Invoice.t) : bool :=
  (negb (String.eqb (Invoice.getTemplate invoice) "B2B")
   || match Invoice.getClientNcc invoice with
      | Some ncc => negb (blank ncc) && isValidNcc ncc
      | None => false
      end)
  && (negb (String.eqb (Invoice.getTemplate invoice) "B2F")
      || match Invoice.getForeignCurrency invoice with
         | Some currency =>
             negb (String.eqb currency "")
             && Str.includes ALLOWED_CURRENCIES currency
             && negb (Number.le (Invoice.getForeignCurrencyRate invoice) 0%num)
         | None => false
         end).

Definition items_ok (invoice : Invoice.t) : bool :=
  negb (length (Invoice.getItems invoice) =? 0)%nat
  && forallb (item_ok (Invoice.getInvoiceType invoice)) (Invoice.getItems invoice).

Definition optional_ok (invoice : Invoice.t) : bool :=
  match Invoice.getForeignCurrency invoice with
  | Some currency =>
      String.eqb currency "" || Str.includes ALLOWED_CURRENCIES currency
  | None => true
  end
  && in_range (Invoice.getDiscount invoice)
  && (negb (Invoice.getIsRne invoice) || truthy (Invoice.getRne invoice))
  && forallb tax_ok (Invoice.getCustomTaxes invoice).

Definition acceptable (invoice : Invoice.t) : bool :=
  base_ok invoice && client_ok invoice && template_ok invoice
  && items_ok invoice && optional_ok invoice.

(** The conditions on the arguments of the factory methods. *)
Definition contact_ok (pointOfSale establishment name phone email : string) : bool :=
  negb (blank pointOfSale) && negb (blank establishment) && negb (blank name)
  && negb (blank phone) && isValidPhone phone
  && negb (blank email) && isValidEmail email.

Definition goods_ok (description : string) (quantity amount : number) : bool :=
  negb (blank description) && negb (Number.le quantity 0%num)
  && negb (Number.le amount 0%num).

(* ===================================================================== *)
(** * Properties *)
(* ===================================================================== *)

(** ** The matcher decides the language *)

Module RegexFacts.
Import Regex.

Lemma nullable_lang (r : regex) : nullable r = true <-> lang r [].
Proof.
  induction r as [| | p | r1 IH1 r2 IH2 | r1 IH1 r2 IH2 | r IH]; simpl.
  - split; [discriminate | inversion 1].
  - split; [constructor | reflexivity].
  - split; [discriminate | inversion 1].
  - rewrite andb_true_iff, IH1, IH2. split.
    + intros [H1 H2]. change (@nil ascii) with (@nil ascii ++ []). now constructor.
    + inversion 1 as [| |? ? w1 w2 H1 H2 E1 E2| | | |]; subst.
      apply app_eq_nil in E2 as [-> ->]. now split.
  - rewrite orb_true_iff, IH1, IH2. split.
    + intros [H1 | H2]; [now apply L_AltL | now apply L_AltR].
    + inversion 1; subst; [now left | now right].
  - split; [constructor | reflexivity].
Qed.

(** A non-empty word of [r*] starts with a non-empty word of [r]. *)
Lemma star_cons (r : regex) (c : ascii) (w : list ascii) :
  lang (Star r) (c :: w) ->
  exists w1 w2, w = w1 ++ w2 /\ lang r (c :: w1) /\ lang (Star r) w2.
Proof.
  intros Hl. remember (Star r) as r' eqn:Er. remember (c :: w) as cw eqn:Ew.
  revert w Ew.
  induction Hl as [| | | | | |r0 w1 w2 H1 _ H2 IH2]; try discriminate.
  injection Er as ->. intros w Ew.
  destruct w1 as [|c1 w1'].
  - simpl in Ew. now apply IH2.
  - simpl in Ew. injection Ew as -> <-. now exists w1', w2.
Qed.

Lemma deriv_lang (c : ascii) (r : regex) (w : list ascii) :
  lang (deriv c r) w <-> lang r (c :: w).
Proof.
  revert w.
  induction r as [| | p | r1 IH1 r2 IH2 | r1 IH1 r2 IH2 | r IH]; intros w; simpl.
  - split; inversion 1.
  - split; inversion 1.
  - destruct (p c) eqn:Ep; split.
    + inversion 1; subst. now constructor.
    + inversion 1; subst. constructor.
    + inversion 1.
    + inversion 1; subst. congruence.
  - destruct (nullable r1) eqn:En.
    + split.
      * inversion 1 as [| | | ? ? ? Hs | ? ? ? Hd | |]; subst.
        -- inversion Hs as [| |? ? w1 w2 H1 H2| | | |]; subst.
           apply IH1 in H1. change (c :: w1 ++ w2) with ((c :: w1) ++ w2).
           now constructor.
        -- apply IH2 in Hd. apply nullable_lang in En.
           change (c :: w) with ([] ++ c :: w). now constructor.
      * inversion 1 as [| |? ? w1 w2 H1 H2 E1 E2| | | |]; subst.
        destruct w1 as [|c1 w1']; simpl in E2.
        -- subst w2. apply L_AltR. now apply IH2.
        -- injection E2 as -> <-. apply L_AltL. constructor; [now apply IH1 | assumption].
    + split.
      * inversion 1 as [| |? ? w1 w2 H1 H2| | | |]; subst.
        apply IH1 in H1. change (c :: w1 ++ w2) with ((c :: w1) ++ w2).
        now constructor.
      * inversion 1 as [| |? ? w1 w2 H1 H2 E1 E2| | | |]; subst.
        destruct w1 as [|c1 w1']; simpl in E2.
        -- apply nullable_lang in H1. congruence.
        -- injection E2 as -> <-. constructor; [now apply IH1 | assumption].
  - split.
    + inversion 1; subst; [apply L_AltL | apply L_AltR]; [now apply IH1 | now apply IH2].
    + inversion 1; subst; [apply L_AltL | apply L_AltR]; [now apply IH1 | now apply IH2].
  - split.
    + inversion 1 as [| |? ? w1 w2 H1 H2| | | |]; subst.
      apply IH in H1. change (c :: w1 ++ w2) with ((c :: w1) ++ w2).
      now constructor.
    + intros Hl. apply star_cons in Hl as (w1 & w2 & -> & H1 & H2).
      constructor; [now apply IH | assumption].
Qed.

Theorem matches_lang (r : regex) (w : list ascii) :
  matches r w = true <-> lang r w.
Proof.
  revert r. induction w as [|c w IH]; intros r; simpl.
  - apply nullable_lang.
  - rewrite IH. apply deriv_lang.
Qed.

(** Inversion principles for the derived forms. *)

Lemma lang_Seq (r1 r2 : regex) (w : list ascii) :
  lang (Seq r1 r2) w <-> exists w1 w2, w = w1 ++ w2 /\ lang r1 w1 /\ lang r2 w2.
Proof.
  split.
  - inversion 1; subst. eauto.
  - intros (w1 & w2 & -> & H1 & H2). now constructor.
Qed.

Lemma lang_Class (p : ascii -> bool) (w : list ascii) :
  lang (Class p) w <-> exists c, w = [c] /\ p c = true.
Proof.
  split.
  - inversion 1; subst. eauto.
  - intros (c & -> & Hp). now constructor.
Qed.

Lemma lang_Eps (w : list ascii) : lang Eps w <-> w = [].
Proof. split; [now inversion 1 | intros ->; constructor]. Qed.

Lemma lang_Lit (c : ascii) (w : list ascii) : lang (Lit c) w <-> w = [c].
Proof.
  unfold Lit. rewrite lang_Class. split.
  - intros (c' & -> & Hc). apply Ascii.eqb_eq in Hc. now subst.
  - intros ->. exists c. split; [reflexivity | apply Ascii.eqb_refl].
Qed.

Lemma lang_Word (s : string) (w : list ascii) :
  lang (Word s) w <-> w = Str.chars s.
Proof.
  revert w. induction s as [|c s IH]; intros w; simpl.
  - apply lang_Eps.
  - rewrite lang_Seq. split.
    + intros (w1 & w2 & -> & H1 & H2). apply lang_Lit in H1 as ->.
      apply IH in H2 as ->. reflexivity.
    + intros ->. exists [c], (Str.chars s). repeat split.
      * now apply lang_Lit.
      * now apply IH.
Qed.

Lemma lang_Times_Class (p : ascii -> bool) (n : nat) (w : list ascii) :
  lang (Times n (Class p)) w <-> length w = n /\ forallb p w = true.
Proof.
  revert w. induction n as [|n IH]; intros w; simpl.
  - rewrite lang_Eps. split.
    + intros ->. now split.
    + intros [Hl _]. now destruct w.
  - rewrite lang_Seq. split.
    + intros (w1 & w2 & -> & H1 & H2).
      apply lang_Class in H1 as (c & -> & Hc). apply IH in H2 as [Hl Hf].
      simpl. rewrite Hc, Hf, Hl. now split.
    + intros [Hl Hf]. destruct w as [|c w]; [discriminate |].
      simpl in *. apply andb_true_iff in Hf as [Hc Hf].
      exists [c], w. repeat split.
      * now constructor.
      * apply IH. split; [lia | assumption].
Qed.

Lemma lang_Times_Opt_Class (p : ascii -> bool) (n : nat) (w : list ascii) :
  lang (Times n (Opt (Class p))) w <-> (length w <= n)%nat /\ forallb p w = true.
Proof.
  revert w. induction n as [|n IH]; intros w; simpl.
  - rewrite lang_Eps. split.
    + intros ->. split; [simpl; lia | reflexivity].
    + intros [Hl _]. destruct w; [reflexivity | simpl in Hl; lia].
  - rewrite lang_Seq. split.
    + intros (w1 & w2 & -> & H1 & H2). apply IH in H2 as [Hl Hf].
      inversion H1 as [| | | ? ? ? He | ? ? ? Hc | |]; subst.
      * apply lang_Eps in He as ->. simpl. split; [lia | assumption].
      * apply lang_Class in Hc as (c & -> & Hc). simpl. rewrite Hc, Hf.
        split; [lia | reflexivity].
    + intros [Hl Hf]. destruct w as [|c w].
      * exists [], []. repeat split.
        -- apply L_AltL. constructor.
        -- apply IH. split; [simpl; lia | reflexivity].
      * simpl in *. apply andb_true_iff in Hf as [Hc Hf].
        exists [c], w. repeat split.
        -- apply L_AltR. now constructor.
        -- apply IH. split; [lia | assumption].
Qed.

Lemma lang_Between_Class (p : ascii -> bool) (m n : nat) (w : list ascii) :
  (m <= n)%nat ->
  lang (Between m n (Class p)) w <->
  (m <= length w <= n)%nat /\ forallb p w = true.
Proof.
  intros Hmn. unfold Between. rewrite lang_Seq. split.
  - intros (w1 & w2 & -> & H1 & H2).
    apply lang_Times_Class in H1 as [Hl1 Hf1].
    apply lang_Times_Opt_Class in H2 as [Hl2 Hf2].
    rewrite length_app, forallb_app, Hf1, Hf2. split; [lia | reflexivity].
  - intros [Hl Hf]. exists (firstn m w), (skipn m w).
    rewrite <- (firstn_skipn m w) in Hf. rewrite forallb_app in Hf.
    apply andb_true_iff in Hf as [Hf1 Hf2]. repeat split.
    + symmetry. apply firstn_skipn.
    + apply lang_Times_Class. split; [| assumption].
      rewrite length_firstn. lia.
    + apply lang_Times_Opt_Class. split; [| assumption].
      rewrite length_skipn. lia.
Qed.

End RegexFacts.
(** ** Strings read character by character *)

Module TokenFacts.

#[local] Arguments append !_ _ / : simpl nomatch.

Lemma tokens_unfold (a : ascii) (s1 : string) :
  Str.tokens (String a s1) =
  match Str.lead (String a s1) with
  | Some (t, r) => t :: Str.tokens r
  | None => Str.Byte a :: Str.tokens s1
  end.
Proof.
  destruct s1 as [|b [|c s3]]; simpl.
  - now destruct (Str.is_space a).
  - destruct (Str.is_space a); [reflexivity |]. now destruct (Str.space2 a b).
  - destruct (Str.is_space a); [reflexivity |].
    destruct (Str.space2 a b); [reflexivity |]. now destruct (Str.space3 a b c).
Qed.

(** What [lead] finds is a white-space character at the head of the
    string, whatever follows it. *)
Lemma lead_Some (s : string) (t : Str.token) (r : string) :
  Str.lead s = Some (t, r) ->
  exists a more,
    t = Str.Space a more /\ s = String a (more +:+ r) /\
    (String.length r < String.length s)%nat /\
    forall r', Str.lead (String a (more +:+ r')) = Some (t, r').
Proof.
  destruct s as [|a [|b [|c s3]]]; simpl; [discriminate | | |].
  - destruct (Str.is_space a) eqn:Ea; [| discriminate].
    intros E. injection E as <- <-. exists a, "". simpl. rewrite Ea.
    repeat split; lia || reflexivity.
  - destruct (Str.is_space a) eqn:Ea.
    + intros E. injection E as <- <-. exists a, "". simpl. rewrite Ea.
      repeat split; lia || reflexivity.
    + destruct (Str.space2 a b) eqn:Eb; [| discriminate].
      intros E. injection E as <- <-. exists a, (String b "").
      simpl. rewrite Ea, Eb. repeat split; lia || reflexivity.
  - destruct (Str.is_space a) eqn:Ea.
    + intros E. injection E as <- <-. exists a, "". simpl. rewrite Ea.
      repeat split; lia || reflexivity.
    + destruct (Str.space2 a b) eqn:Eb.
      * intros E. injection E as <- <-. exists a, (String b "").
        simpl. rewrite Ea, Eb. repeat split; lia || reflexivity.
      * destruct (Str.space3 a b c) eqn:Ec; [| discriminate].
        intros E. injection E as <- <-. exists a, (String b (String c "")).
        simpl. rewrite Ea, Eb, Ec. repeat split; lia || reflexivity.
Qed.

(** No white-space character appears at the head of a string by cutting
    its end off. *)
Lemma lead_prefix (x y : string) :
  Str.lead (x +:+ y) = None -> Str.lead x = None.
Proof.
  destruct x as [|a [|b [|c x3]]]; simpl; [reflexivity | | |].
  - destruct (Str.is_space a); [discriminate | reflexivity].
  - destruct (Str.is_space a); [discriminate |].
    destruct (Str.space2 a b); [discriminate | reflexivity].
  - destruct (Str.is_space a); [discriminate |].
    destruct (Str.space2 a b); [discriminate |].
    destruct (Str.space3 a b c); [discriminate | reflexivity].
Qed.

(** The bytes of a white-space character of several bytes are all above
    the ASCII range. *)
Lemma space2_high (a b : ascii) :
  Str.space2 a b = true -> (128 <= nat_of_ascii b)%nat.
Proof.
  unfold Str.space2. intros H. apply andb_true_iff in H as [_ H].
  apply Nat.eqb_eq in H. lia.
Qed.

Lemma space3_high (a b c : ascii) :
  Str.space3 a b c = true ->
  (128 <= nat_of_ascii b)%nat /\ (128 <= nat_of_ascii c)%nat.
Proof.
  unfold Str.space3. cbv zeta. intros H.
  repeat match type of H with
         | (_ || _ = true) => apply orb_true_iff in H as [H | H]
         end;
    repeat match goal with
           | H : (_ && _ = true) |- _ => apply andb_true_iff in H as [? ?]
           | H : (_ || _ = true) |- _ => apply orb_true_iff in H as [? | ?]
           | H : ((_ =? _)%nat = true) |- _ => apply Nat.eqb_eq in H
           | H : ((_ <=? _)%nat = true) |- _ => apply Nat.leb_le in H
           end; lia.
Qed.

(** An ASCII byte ends the character before it: what stands at the head
    of a string does not depend on what follows such a byte. *)
Lemma lead_ascii (x : string) (a : ascii) (y : string) :
  (nat_of_ascii a < 128)%nat -> x <> "" ->
  Str.lead (x +:+ String a y) =
  match Str.lead x with
  | Some (t, r) => Some (t, r +:+ String a y)
  | None => None
  end.
Proof.
  intros Ha Hx. destruct x as [|x0 [|x1 [|x2 x3]]]; [congruence | | |]; simpl.
  - destruct (Str.is_space x0); [reflexivity |].
    destruct (Str.space2 x0 a) eqn:E2.
    + apply space2_high in E2. lia.
    + destruct y as [|c y]; [reflexivity |].
      destruct (Str.space3 x0 a c) eqn:E3; [| reflexivity].
      apply space3_high in E3. lia.
  - destruct (Str.is_space x0); [reflexivity |].
    destruct (Str.space2 x0 x1); [reflexivity |].
    destruct (Str.space3 x0 x1 a) eqn:E3; [| reflexivity].
    apply space3_high in E3. lia.
  - destruct (Str.is_space x0); [reflexivity |].
    destruct (Str.space2 x0 x1); [reflexivity |].
    now destruct (Str.space3 x0 x1 x2).
Qed.

Lemma app_assoc_string (a b c : string) : (a +:+ b) +:+ c = a +:+ (b +:+ c).
Proof. induction a as [|x a IH]; simpl; [reflexivity | now rewrite IH]. Qed.

Lemma app_empty_r (a : string) : a +:+ "" = a.
Proof. induction a as [|x a IH]; simpl; [reflexivity | now rewrite IH]. Qed.

Lemma length_app_string (a b : string) :
  String.length (a +:+ b) = (String.length a + String.length b)%nat.
Proof. induction a as [|x a IH]; simpl; [reflexivity | now rewrite IH]. Qed.

Lemma untokens_app (p q : list Str.token) :
  Str.untokens (p ++ q) = Str.untokens p +:+ Str.untokens q.
Proof.
  induction p as [|[a more | a] p IH]; simpl; [reflexivity | |].
  - now rewrite IH, app_assoc_string.
  - now rewrite IH.
Qed.

Lemma untokens_empty (ts : list Str.token) : Str.untokens ts = "" -> ts = [].
Proof. destruct ts as [|[a more | a] ts]; [reflexivity | discriminate | discriminate]. Qed.

(** Induction on a string along its characters. *)
Lemma string_token_ind (P : string -> Prop) :
  P "" ->
  (forall a s1,
     (forall r, (String.length r <= String.length s1)%nat -> P r) ->
     P (String a s1)) ->
  forall s, P s.
Proof.
  intros H0 HS s.
  assert (H : forall n r, (String.length r <= n)%nat -> P r).
  { induction n as [|n IH]; intros r Hr.
    - destruct r; [exact H0 | simpl in Hr; lia].
    - destruct r as [|a r]; [exact H0 |]. apply HS. intros r' Hr'.
      apply IH. simpl in Hr. lia. }
  now apply (H (String.length s)).
Qed.

(** Reading a string loses nothing. *)
Lemma untokens_tokens (s : string) : Str.untokens (Str.tokens s) = s.
Proof.
  induction s as [| a s1 IH] using string_token_ind; [reflexivity |].
  rewrite tokens_unfold. destruct (Str.lead (String a s1)) as [[t r] |] eqn:El.
  - apply lead_Some in El as (a' & more & -> & E & Hl & _).
    simpl. rewrite IH by (simpl in Hl; lia). now rewrite E.
  - simpl. now rewrite IH.
Qed.

Lemma tokens_empty (s : string) : Str.tokens s = [] -> s = "".
Proof. intros E. rewrite <- (untokens_tokens s), E. reflexivity. Qed.

(** Every part of a reading is the reading of its own bytes. *)
Lemma tokens_prefix (p : list Str.token) :
  forall s q, Str.tokens s = p ++ q -> Str.tokens (Str.untokens p) = p.
Proof.
  induction p as [|t p IH]; intros s q E; [reflexivity |].
  destruct s as [|a s1]; [discriminate |].
  pose proof (untokens_tokens (String a s1)) as Hs.
  rewrite tokens_unfold in E.
  destruct (Str.lead (String a s1)) as [[t' r] |] eqn:El.
  - simpl in E. injection E as -> E.
    apply lead_Some in El as (a' & more & -> & _ & _ & Hl).
    cbn [Str.untokens]. rewrite tokens_unfold, Hl. f_equal. now apply (IH r q).
  - simpl in E. injection E as <- E. cbn [Str.untokens].
    rewrite tokens_unfold.
    assert (Hn : Str.lead (String a (Str.untokens p)) = None).
    { apply (lead_prefix _ (Str.untokens q)). simpl.
      rewrite <- untokens_app, <- E, untokens_tokens. exact El. }
    rewrite Hn. f_equal. now apply (IH s1 q).
Qed.

Lemma tokens_suffix (p : list Str.token) :
  forall s q, Str.tokens s = p ++ q -> Str.tokens (Str.untokens q) = q.
Proof.
  induction p as [|t p IH]; intros s q E.
  - simpl in E. now rewrite <- E, untokens_tokens.
  - destruct s as [|a s1]; [discriminate |].
    rewrite tokens_unfold in E.
    destruct (Str.lead (String a s1)) as [[t' r] |];
      simpl in E; injection E as _ E; exact (IH _ q E).
Qed.

Lemma tokens_middle (p m q : list Str.token) (s : string) :
  Str.tokens s = p ++ m ++ q -> Str.tokens (Str.untokens m) = m.
Proof.
  intros E. apply tokens_suffix in E. now apply tokens_prefix in E.
Qed.

(** An ASCII byte is read on its own. *)
Lemma tokens_ascii (a : ascii) (y : string) :
  (nat_of_ascii a < 128)%nat ->
  Str.tokens (String a y) =
  (if Str.is_space a then Str.Space a "" else Str.Byte a) :: Str.tokens y.
Proof.
  intros Ha. destruct y as [|b [|c y3]]; simpl.
  - now destruct (Str.is_space a).
  - destruct (Str.is_space a); [reflexivity |].
    destruct (Str.space2 a b) eqn:E2; [| reflexivity].
    unfold Str.space2 in E2. apply andb_true_iff in E2 as [E2 _].
    apply Nat.eqb_eq in E2. lia.
  - destruct (Str.is_space a); [reflexivity |].
    destruct (Str.space2 a b) eqn:E2.
    + unfold Str.space2 in E2. apply andb_true_iff in E2 as [E2 _].
      apply Nat.eqb_eq in E2. lia.
    + destruct (Str.space3 a b c) eqn:E3; [| reflexivity].
      unfold Str.space3 in E3. cbv zeta in E3.
      repeat match type of E3 with
             | (_ || _ = true) => apply orb_true_iff in E3 as [E3 | E3]
             end;
        repeat match goal with
               | H : (_ && _ = true) |- _ => apply andb_true_iff in H as [? ?]
               | H : (_ || _ = true) |- _ => apply orb_true_iff in H as [? | ?]
               | H : ((_ =? _)%nat = true) |- _ => apply Nat.eqb_eq in H
               | H : ((_ <=? _)%nat = true) |- _ => apply Nat.leb_le in H
               end; lia.
Qed.

(** The reading of a string splits at an ASCII byte. *)
Lemma tokens_app_ascii (x : string) (a : ascii) (y : string) :
  (nat_of_ascii a < 128)%nat ->
  Str.tokens (x +:+ String a y) = Str.tokens x ++ Str.tokens (String a y).
Proof.
  intros Ha. induction x as [| b x1 IH] using string_token_ind; [reflexivity |].
  change (String b x1 +:+ String a y) with (String b (x1 +:+ String a y)).
  rewrite (tokens_unfold b (x1 +:+ String a y)), (tokens_unfold b x1).
  change (String b (x1 +:+ String a y)) with (String b x1 +:+ String a y).
  rewrite (lead_ascii _ _ _ Ha) by discriminate.
  destruct (Str.lead (String b x1)) as [[t r] |] eqn:El.
  - apply lead_Some in El as (_ & _ & _ & _ & Hl & _).
    simpl. f_equal. apply IH. simpl in Hl. lia.
  - simpl. f_equal. now apply IH.
Qed.

(** A string of ASCII bytes that are not white space is read byte by
    byte. *)
Lemma tokens_plain (s : string) :
  Str.forallb (fun a => (nat_of_ascii a <? 128)%nat && negb (Str.is_space a)) s = true ->
  Str.tokens s = List.map Str.Byte (list_ascii_of_string s).
Proof.
  induction s as [|a s IH]; [reflexivity |]. simpl Str.forallb. intros H.
  apply andb_true_iff in H as [Ha H]. apply andb_true_iff in Ha as [Ha Hs].
  apply Nat.ltb_lt in Ha. apply negb_true_iff in Hs.
  rewrite (tokens_ascii _ _ Ha), Hs. simpl. f_equal. now apply IH.
Qed.

Lemma untokens_bytes (w : list ascii) :
  Str.untokens (List.map Str.Byte w) = string_of_list_ascii w.
Proof. induction w as [|a w IH]; simpl; [reflexivity | now rewrite IH]. Qed.

(** A byte that is read on its own is not white space. *)
Lemma lead_None (a : ascii) (s1 : string) :
  Str.lead (String a s1) = None -> Str.is_space a = false.
Proof. simpl. now destruct (Str.is_space a). Qed.

Lemma tokens_Byte (s : string) (x : ascii) :
  In (Str.Byte x) (Str.tokens s) -> Str.is_space x = false.
Proof.
  induction s as [| a s1 IH] using string_token_ind; [intros [] |].
  rewrite tokens_unfold. destruct (Str.lead (String a s1)) as [[t r] |] eqn:El.
  - pose proof El as El'.
    apply lead_Some in El' as (a' & more & -> & _ & Hl & _).
    intros [E | Hin]; [discriminate |]. apply IH in Hin; [assumption |].
    simpl in Hl. lia.
  - intros [E | Hin].
    + injection E as <-. now apply lead_None in El.
    + now apply IH in Hin.
Qed.

(** An ASCII string is read byte by byte. *)
Lemma tokens_ascii_only (s : string) :
  Str.forallb (fun a => (nat_of_ascii a <? 128)%nat) s = true ->
  Str.tokens s =
  List.map (fun a => if Str.is_space a then Str.Space a "" else Str.Byte a)
    (list_ascii_of_string s).
Proof.
  induction s as [|a s IH]; [reflexivity |]. simpl Str.forallb. intros H.
  apply andb_true_iff in H as [Ha H]. apply Nat.ltb_lt in Ha.
  rewrite (tokens_ascii _ _ Ha). simpl. f_equal. now apply IH.
Qed.

(** [length] is zero on the empty string only. *)
Lemma length_zero (s : string) : Str.length s = 0%nat <-> s = "".
Proof.
  split; [| now intros ->]. destruct s as [|a s]; [reflexivity |].
  unfold Str.length. simpl.
  repeat match goal with |- context [if ?b then _ else _] => destruct b end;
    discriminate.
Qed.

Lemma length_eqb_zero (s : string) :
  (Str.length s =? 0)%nat = String.eqb s "".
Proof.
  destruct (String.eqb_spec s "") as [-> | Hne]; [reflexivity |].
  apply Nat.eqb_neq. intros E. now apply length_zero in E.
Qed.

End TokenFacts.

(** ** Strings as lists of characters *)

Module StrFacts.

Lemma chars_app (a b : string) : Str.chars (a +:+ b) = Str.chars a ++ Str.chars b.
Proof. induction a as [|c a IH]; simpl; [reflexivity | now rewrite <- IH]. Qed.

Lemma chars_inj (a b : string) : Str.chars a = Str.chars b -> a = b.
Proof.
  intros E. rewrite <- (string_of_list_ascii_of_string a),
    <- (string_of_list_ascii_of_string b). unfold Str.chars in E. now rewrite E.
Qed.

Lemma chars_of_list (w : list ascii) : Str.chars (string_of_list_ascii w) = w.
Proof. apply list_ascii_of_string_of_list_ascii. Qed.

Lemma length_chars (s : string) : length (Str.chars s) = String.length s.
Proof. induction s as [|c s IH]; simpl; [reflexivity | now rewrite <- IH]. Qed.

Lemma forallb_chars (p : ascii -> bool) (s : string) :
  forallb p (Str.chars s) = Str.forallb p s.
Proof. induction s as [|c s IH]; simpl; [reflexivity | now rewrite <- IH]. Qed.

Lemma startsWith_app (p d : string) : Str.startsWith (p +:+ d) p = true.
Proof.
  induction p as [|c p IH]; simpl; [reflexivity |].
  now rewrite Ascii.eqb_refl.
Qed.

Lemma startsWith_inv (s p : string) :
  Str.startsWith s p = true -> exists d, s = p +:+ d.
Proof.
  revert s. induction p as [|c p IH]; intros s Hp.
  - now exists s.
  - destruct s as [|c' s]; simpl in Hp; [discriminate |].
    apply andb_true_iff in Hp as [Hc Hp]. apply Ascii.eqb_eq in Hc as ->.
    apply IH in Hp as [d ->]. now exists d.
Qed.

End StrFacts.

(** ** Phone numbers *)

Section Phone.
Import Regex RegexFacts StrFacts.

(** [/^pre\d{n}$/] accepts exactly [pre] followed by [n] digits. *)
Lemma test_prefix_digits (pre : string) (n : nat) (s : string) :
  test (Seq (Word pre) (Times n digit)) s = true <->
  exists d, s = pre +:+ d /\ String.length d = n /\ Spec.digits d = true.
Proof.
  unfold test. rewrite matches_lang, lang_Seq. split.
  - intros (w1 & w2 & E & H1 & H2). apply lang_Word in H1 as ->.
    apply lang_Times_Class in H2 as [Hl Hf].
    exists (string_of_list_ascii w2). repeat split.
    + apply chars_inj. now rewrite chars_app, chars_of_list.
    + now rewrite <- length_chars, chars_of_list.
    + unfold Spec.digits. now rewrite <- forallb_chars, chars_of_list.
  - intros (d & -> & Hl & Hf). exists (Str.chars pre), (Str.chars d).
    repeat split.
    + apply chars_app.
    + now apply lang_Word.
    + apply lang_Times_Class. rewrite length_chars, forallb_chars. now split.
Qed.

(** [/^0?\d{8,10}$/] accepts 8 to 10 digits, and also a [0] followed
    by 10 digits. *)
Lemma test_phone_local (s : string) :
  test phone_local s = true <->
  Spec.digits s = true /\
  ((8 <= String.length s <= 10)%nat \/
   (String.length s = 11%nat /\ Str.startsWith s "0" = true)).
Proof.
  unfold test, phone_local. rewrite matches_lang, lang_Seq. split.
  - intros (w1 & w2 & E & H1 & H2).
    apply lang_Between_Class in H2 as [Hl Hf]; [| lia].
    unfold Spec.digits. rewrite <- forallb_chars, <- length_chars, E.
    inversion H1 as [| | | ? ? ? He | ? ? ? Hc | |]; subst.
    + apply lang_Eps in He as ->. simpl. split; [assumption | left; lia].
    + apply lang_Lit in Hc as ->. simpl. split; [assumption |].
      assert (Hs : Str.startsWith s "0" = true).
      { destruct s as [|c s]; [discriminate |]. simpl in E.
        injection E as -> _. reflexivity. }
      destruct (Nat.eq_dec (length w2) 10) as [E10 | N10].
      * right. split; [lia | assumption].
      * left. lia.
  - unfold Spec.digits. rewrite <- forallb_chars, <- length_chars.
    intros [Hf [Hl | [Hl Hs]]].
    + exists [], (Str.chars s). repeat split.
      * apply L_AltL. constructor.
      * apply lang_Between_Class; [lia | now split].
    + apply startsWith_inv in Hs as [d ->].
      change ("0" +:+ d) with (String "0" d) in *. simpl in *.
      exists ["0"%char], (Str.chars d). repeat split.
      * apply L_AltR. now apply lang_Lit.
      * apply lang_Between_Class; [lia | split; [lia | assumption]].
Qed.

Lemma isValidPhone_unfold (phone : string) :
  isValidPhone phone =
  if Str.startsWith (cleaned phone) "+225" then test phone_plus225 (cleaned phone)
  else if Str.startsWith (cleaned phone) "225" then test phone_225 (cleaned phone)
  else test phone_local (cleaned phone).
Proof. reflexivity. Qed.

End Phone.

(** The cases of the unit tests of [helpers.ts]. *)
Example isValidPhone_samples :
  isValidPhone "0709123456" = true /\
  isValidPhone "07 09 12 34 56" = true /\
  isValidPhone ("+225" +:+ String "194" (String "160" "0709123456")) = true /\
  isValidPhone "+2250709123456" = true /\
  isValidPhone "2250709123456" = true /\
  isValidPhone "123" = false /\
  isValidPhone "abcdefghij" = false.
Proof. repeat split; reflexivity. Qed.

Example isValidEmail_samples :
  isValidEmail "user@example.com" = true /\
  isValidEmail ("user" +:+ String "194" (String "160" "@example.com")) = false /\
  isValidEmail "user.name@example.co.ci" = true /\
  isValidEmail "invalid" = false /\
  isValidEmail "user@" = false.
Proof. repeat split; vm_compute; reflexivity. Qed.

Example isValidNcc_samples :
  isValidNcc "9500015F" = true /\ isValidNcc "9500015f" = false /\
  isValidNcc "950015F" = false.
Proof. repeat split; reflexivity. Qed.

(** C5, as the specification states it, fails on the code in both
    directions: eight digits that start with [225] are a bare number of 8
    to 10 digits, but they are sent to the [225] branch and rejected; and
    eleven digits with a leading [0] are accepted. *)
Lemma C5_isValidPhone_differs_from_spec :
  (isValidPhone "22512345" = false /\ Spec.isValidPhone "22512345" = true) /\
  (isValidPhone "01234567890" = true /\ Spec.isValidPhone "01234567890" = false).
Proof. repeat split; vm_compute; reflexivity. Qed.

(** C5 (amended).  Let [c] be the phone string without its white space,
    dots and dashes.  If [c] starts with [+225] it is accepted exactly when
    it is [+225] followed by 10 digits; otherwise, if it starts with [225],
    exactly when it is [225] followed by 10 digits; otherwise every [c]
    made of 8 to 10 digits is accepted, and nothing is accepted that is not
    made of digits only, or is shorter than 8 or longer than 11 characters,
    or has 11 characters and no leading [0] (nothing is said here of 11
    digits with a leading [0]). *)
Theorem C5_isValidPhone_format (phone : string) :
  (Str.startsWith (cleaned phone) "+225" = true ->
   (isValidPhone phone = true <->
    exists d, cleaned phone = "+225" +:+ d /\
              String.length d = 10%nat /\ Spec.digits d = true)) /\
  (Str.startsWith (cleaned phone) "+225" = false ->
   Str.startsWith (cleaned phone) "225" = true ->
   (isValidPhone phone = true <->
    exists d, cleaned phone = "225" +:+ d /\
              String.length d = 10%nat /\ Spec.digits d = true)) /\
  (Str.startsWith (cleaned phone) "+225" = false ->
   Str.startsWith (cleaned phone) "225" = false ->
   (Spec.digits (cleaned phone) = true /\
    (8 <= String.length (cleaned phone) <= 10)%nat ->
    isValidPhone phone = true) /\
   (isValidPhone phone = true ->
    Spec.digits (cleaned phone) = true /\
    ((8 <= String.length (cleaned phone) <= 10)%nat \/
     (String.length (cleaned phone) = 11%nat /\
      Str.startsWith (cleaned phone) "0" = true)))).
Proof.
  rewrite isValidPhone_unfold. split; [| split].
  - intros Hp. rewrite Hp. apply test_prefix_digits.
  - intros Hp Hq. rewrite Hp, Hq. apply test_prefix_digits.
  - intros Hp Hq. rewrite Hp, Hq. split.
    + intros [Hd Hl]. apply test_phone_local. split; [assumption | now left].
    + intros Ht. now apply test_phone_local in Ht.
Qed.

Lemma C5_isValidPhone_format_witness :
  isValidPhone "+225 07 09 12 34 56" = true /\
  isValidPhone "225-07-09-12-34-56" = true /\
  isValidPhone "07.09.12.34" = true /\
  isValidPhone "12345678901" = false.
Proof.
  split; [| split; [| split]].
  - destruct (C5_isValidPhone_format "+225 07 09 12 34 56") as (H1 & _ & _).
    apply (H1 eq_refl). exists "0709123456". repeat split.
  - destruct (C5_isValidPhone_format "225-07-09-12-34-56") as (_ & H2 & _).
    apply (H2 eq_refl eq_refl). exists "0709123456". repeat split.
  - destruct (C5_isValidPhone_format "07.09.12.34") as (_ & _ & H3).
    destruct (H3 eq_refl eq_refl) as [Ha _]. apply Ha.
    split; [reflexivity | simpl; lia].
  - destruct (C5_isValidPhone_format "12345678901") as (_ & _ & H3).
    destruct (H3 eq_refl eq_refl) as [_ Hr].
    destruct (isValidPhone "12345678901"); [| reflexivity].
    destruct (Hr eq_refl) as [_ [Hl | [_ H0]]]; [simpl in Hl; lia | discriminate H0].
Defined.

(** ** Insertion-ordered objects *)

Module ObjFacts.
Section ObjFacts.
Context {V : Type}.
Implicit Types (o : list (string * V)) (k : string) (v : V).

Lemma get_set_eq k v o : Obj.get k (Obj.set k v o) = Some v.
Proof.
  induction o as [|[k' v'] o IH]; simpl.
  - now rewrite String.eqb_refl.
  - destruct (String.eqb k k') eqn:E; simpl; rewrite E; [reflexivity | assumption].
Qed.

Lemma get_set_ne k k' v o : k <> k' -> Obj.get k' (Obj.set k v o) = Obj.get k' o.
Proof.
  intros Hne. induction o as [|[k0 v0] o IH]; simpl.
  - destruct (String.eqb k' k) eqn:E; [| reflexivity].
    apply String.eqb_eq in E. congruence.
  - destruct (String.eqb k k0) eqn:E; simpl.
    + apply String.eqb_eq in E. subst k0.
      destruct (String.eqb k' k) eqn:E'; [| reflexivity].
      apply String.eqb_eq in E'. congruence.
    + now rewrite IH.
Qed.

Lemma has_In k o : Obj.has k o = true <-> In k (Obj.keys o).
Proof.
  unfold Obj.has. induction o as [|[k' v'] o IH]; simpl.
  - split; [discriminate | tauto].
  - destruct (String.eqb k k') eqn:E.
    + apply String.eqb_eq in E. subst. split; [now left | reflexivity].
    + apply String.eqb_neq in E. rewrite IH. split; [now right |].
      intros [E' | Hin]; [congruence | assumption].
Qed.

Lemma has_set_eq k v o : Obj.has k (Obj.set k v o) = true.
Proof. unfold Obj.has. now rewrite get_set_eq. Qed.

Lemma has_set_ne k k' v o : k <> k' -> Obj.has k' (Obj.set k v o) = Obj.has k' o.
Proof. intros Hne. unfold Obj.has. now rewrite get_set_ne. Qed.

(** Setting a key keeps it in place when present, appends it otherwise. *)
Lemma keys_set k v o :
  Obj.keys (Obj.set k v o) =
  if Obj.has k o then Obj.keys o else Obj.keys o ++ [k].
Proof.
  unfold Obj.has. induction o as [|[k' v'] o IH]; simpl; [reflexivity |].
  destruct (String.eqb k k') eqn:E; simpl; [reflexivity |].
  rewrite IH. now destruct (Obj.get k o).
Qed.

Lemma NoDup_keys_set k v o :
  NoDup (Obj.keys o) -> NoDup (Obj.keys (Obj.set k v o)).
Proof.
  intros Hnd. rewrite keys_set. destruct (Obj.has k o) eqn:E; [assumption |].
  apply NoDup_app. repeat split.
  - assumption.
  - intros x Hx Hk. apply list_elem_of_In in Hx.
    apply list_elem_of_In in Hk. simpl in Hk. destruct Hk as [<- | []].
    apply has_In in Hx. congruence.
  - apply NoDup_singleton.
Qed.

End ObjFacts.
End ObjFacts.

(** ** The validator acts through [addError] only *)

Module ValidatorFacts.
Import Validator ValidatorSpec ObjFacts.
Local Open Scope validator_scope.

Lemma replay_app ws1 ws2 st : replay (ws1 ++ ws2) st = replay ws2 (replay ws1 st).
Proof. apply fold_left_app. Qed.

Lemma replay_cons k m ws st :
  replay ((k, m) :: ws) st = replay ws (snd (addError k m st)).
Proof. reflexivity. Qed.

Lemma journal_replay ws st : journal (replay ws st) = journal st ++ ws.
Proof.
  revert st. induction ws as [|[k m] ws IH]; intros st.
  - simpl. now rewrite app_nil_r.
  - rewrite replay_cons, IH. simpl. now rewrite <- app_assoc.
Qed.

Lemma errors_replay ws st :
  errors (replay ws st) =
  fold_left (fun o w => Obj.set (fst w) (snd w) o) ws (errors st).
Proof.
  revert st. induction ws as [|[k m] ws IH]; intros st; [reflexivity |].
  rewrite replay_cons, IH. reflexivity.
Qed.

(** The error set after a list of calls: the last message of each key
    written, the former content for the others. *)
Lemma get_replay k ws st :
  Obj.get k (errors (replay ws st)) =
  match last_write k ws with
  | Some m => Some m
  | None => Obj.get k (errors st)
  end.
Proof.
  revert st. induction ws as [|[k' m] ws IH]; intros st; [reflexivity |].
  rewrite replay_cons, IH. simpl.
  destruct (last_write k ws) as [m' |]; [reflexivity |].
  destruct (String.eqb k k') eqn:E.
  - apply String.eqb_eq in E. subst. apply get_set_eq.
  - apply String.eqb_neq in E. apply get_set_ne. congruence.
Qed.

Lemma last_write_app k ws1 ws2 :
  last_write k (ws1 ++ ws2) =
  match last_write k ws2 with
  | Some m => Some m
  | None => last_write k ws1
  end.
Proof.
  induction ws1 as [|[k' m] ws1 IH]; simpl.
  - now destruct (last_write k ws2).
  - rewrite IH. now destruct (last_write k ws2).
Qed.

Lemma last_write_none k ws :
  Forall (fun w => fst w <> k) ws -> last_write k ws = None.
Proof.
  induction 1 as [|[k' m] ws Hk _ IH]; simpl; [reflexivity |].
  rewrite IH. destruct (String.eqb k k') eqn:E; [| reflexivity].
  apply String.eqb_eq in E. simpl in Hk. congruence.
Qed.

Lemma NoDup_replay ws st :
  NoDup (Obj.keys (errors st)) -> NoDup (Obj.keys (errors (replay ws st))).
Proof.
  revert st. induction ws as [|[k m] ws IH]; intros st Hnd; [assumption |].
  rewrite replay_cons. apply IH. simpl. now apply NoDup_keys_set.
Qed.

Lemma has_replay k ws st :
  Obj.has k (errors st) = true -> Obj.has k (errors (replay ws st)) = true.
Proof.
  unfold Obj.has. rewrite get_replay.
  destruct (last_write k ws); [reflexivity | trivial].
Qed.

(** Calls on keys outside a class leave the keys of the class as they are. *)
Lemma filter_keys_replay (P : string -> bool) ws st :
  Forall (fun w => P (fst w) = false) ws ->
  List.filter P (Obj.keys (errors (replay ws st))) =
  List.filter P (Obj.keys (errors st)).
Proof.
  intros Hws. revert st. induction Hws as [|[k m] ws Hk _ IH]; intros st.
  - reflexivity.
  - rewrite replay_cons, IH. simpl in *. rewrite keys_set.
    destruct (Obj.has k (errors st)); [reflexivity |].
    rewrite List.filter_app. simpl. rewrite Hk. apply app_nil_r.
Qed.

Lemma consistent_replay ws st : consistent st -> consistent (replay ws st).
Proof.
  unfold consistent. intros Hc.
  rewrite journal_replay, replay_app.
  rewrite (errors_replay ws st), (errors_replay ws (replay (journal st) fresh)).
  now rewrite <- Hc.
Qed.

(** *** Rules for [writes] *)

Lemma writes_ret {A} Q (a : A) : writes Q (ret a).
Proof. intros st. exists []. split; [constructor | reflexivity]. Qed.

Lemma writes_addError (Q : string -> Prop) k m : Q k -> writes Q (addError k m).
Proof.
  intros Hk st. exists [(k, m)]. split; [| reflexivity].
  constructor; [assumption | constructor].
Qed.

Lemma writes_bind {A B} Q (m : M A) (f : A -> M B) :
  writes Q m -> (forall a, writes Q (f a)) -> writes Q (bind m f).
Proof.
  intros Hm Hf st. unfold bind. destruct (Hm st) as (ws1 & H1 & E1).
  destruct (m st) as [a st1]. simpl in E1. subst st1.
  destruct (Hf a (replay ws1 st)) as (ws2 & H2 & E2).
  exists (ws1 ++ ws2). split.
  - apply Forall_app. now split.
  - now rewrite replay_app.
Qed.

Lemma writes_when Q (c : bool) (m : M unit) :
  (c = true -> writes Q m) -> writes Q (when c m).
Proof. destruct c; simpl; intros Hm; [now apply Hm | apply writes_ret]. Qed.

Lemma writes_if {A} Q (c : bool) (m1 m2 : M A) :
  writes Q m1 -> writes Q m2 -> writes Q (if c then m1 else m2).
Proof. now destruct c. Qed.

Lemma writes_forEach {A} Q (f : A -> nat -> M unit) xs i :
  (forall x j, writes Q (f x j)) -> writes Q (forEach f xs i).
Proof.
  intros Hf. revert i. induction xs as [|x xs IH]; intros i; simpl.
  - apply writes_ret.
  - apply writes_bind; [apply Hf | intros _; apply IH].
Qed.

Lemma writes_weaken {A} (Q Q' : string -> Prop) (m : M A) :
  (forall k, Q k -> Q' k) -> writes Q m -> writes Q' m.
Proof.
  intros HQ Hm st. destruct (Hm st) as (ws & Hws & E). exists ws.
  split; [| assumption]. eapply List.Forall_impl; [| exact Hws].
  intros w. apply HQ.
Qed.

(** Whatever a method that [writes] starts from, these are kept. *)
Lemma writes_NoDup {A} Q (m : M A) st :
  writes Q m -> NoDup (Obj.keys (errors st)) ->
  NoDup (Obj.keys (errors (snd (m st)))).
Proof.
  intros Hm Hnd. destruct (Hm st) as (ws & _ & ->). now apply NoDup_replay.
Qed.

Lemma writes_has {A} Q (m : M A) st k :
  writes Q m -> Obj.has k (errors st) = true ->
  Obj.has k (errors (snd (m st))) = true.
Proof.
  intros Hm Hk. destruct (Hm st) as (ws & _ & ->). now apply has_replay.
Qed.

Lemma writes_consistent {A} Q (m : M A) st :
  writes Q m -> consistent st -> consistent (snd (m st)).
Proof.
  intros Hm Hc. destruct (Hm st) as (ws & _ & ->). now apply consistent_replay.
Qed.

Lemma writes_filter_keys {A} (P : string -> bool) (m : M A) st :
  writes (fun k => P k = false) m ->
  List.filter P (Obj.keys (errors (snd (m st)))) =
  List.filter P (Obj.keys (errors st)).
Proof.
  intros Hm. destruct (Hm st) as (ws & Hws & ->). now apply filter_keys_replay.
Qed.

Lemma writes_get {A} (m : M A) st k :
  writes (fun k' => k' <> k) m ->
  Obj.get k (errors (snd (m st))) = Obj.get k (errors st).
Proof.
  intros Hm. destruct (Hm st) as (ws & Hws & ->).
  rewrite get_replay, last_write_none; [reflexivity | assumption].
Qed.

(** Discharges [writes Q m] by following the structure of [m]; the side
    conditions on the keys are left to [tac]. *)
Ltac writes_step tac :=
  lazymatch goal with
  | |- writes _ (bind _ _) => apply writes_bind; [| intros ?]
  | |- writes _ (ret _) => apply writes_ret
  | |- writes _ (addError _ _) => apply writes_addError; tac
  | |- writes _ (when _ _) => apply writes_when; intros ?
  | |- writes _ (forEach _ _ _) => apply writes_forEach; intros ? ?
  | |- writes _ (if _ then _ else _) => apply writes_if
  | |- writes _ (match ?x with Some _ => _ | None => _ end) => destruct x
  | |- writes _ (let _ := _ in _) => cbv zeta
  end.
Ltac writes_auto tac := repeat (writes_step tac).

(** *** The keys written by the methods of [BaseValidator] *)

Lemma writes_validateRequired (Q : string -> Prop) field value fieldName :
  Q field -> writes Q (validateRequired field value fieldName).
Proof. intros HQ. unfold validateRequired. writes_auto ltac:(assumption). Qed.

Lemma writes_validateInArray (Q : string -> Prop) field value allowed fieldName :
  Q field -> writes Q (validateInArray field value allowed fieldName).
Proof. intros HQ. unfold validateInArray. writes_auto ltac:(assumption). Qed.

Lemma writes_validatePhone (Q : string -> Prop) field phone :
  Q field -> writes Q (validatePhone field phone).
Proof. intros HQ. unfold validatePhone. writes_auto ltac:(assumption). Qed.

Lemma writes_validateEmail (Q : string -> Prop) field email :
  Q field -> writes Q (validateEmail field email).
Proof. intros HQ. unfold validateEmail. writes_auto ltac:(assumption). Qed.

Lemma writes_validateNcc (Q : string -> Prop) field ncc :
  Q field -> writes Q (validateNcc field ncc).
Proof. intros HQ. unfold validateNcc. writes_auto ltac:(assumption). Qed.

(** *** The keys written by each phase of [InvoiceValidator] *)

Lemma writes_validateCustomTax (Q : string -> Prop) path customTax taxIndex :
  (forall s, Q (path +:+ "customTaxes[" +:+ s)) ->
  writes Q (validateCustomTax path customTax taxIndex).
Proof. intros HQ. unfold validateCustomTax. writes_auto ltac:(apply HQ). Qed.

Lemma writes_validateBaseFields invoice :
  writes (fun k => In k base_keys) (validateBaseFields invoice).
Proof.
  unfold validateBaseFields.
  repeat (apply writes_bind; [| intros ?]);
    try apply writes_validateRequired; try apply writes_validateInArray;
    try apply writes_ret; simpl; tauto.
Qed.

Lemma writes_validateClientFields invoice :
  writes (fun k => In k client_keys) (validateClientFields invoice).
Proof.
  unfold validateClientFields.
  repeat first
    [ apply writes_validateRequired | apply writes_validatePhone
    | apply writes_validateEmail | writes_step ltac:(idtac) ];
    simpl; tauto.
Qed.

Lemma writes_validateTemplateRules invoice :
  writes (fun k => In k template_keys) (validateTemplateRules invoice).
Proof.
  unfold validateTemplateRules.
  repeat first
    [ apply writes_validateNcc | apply writes_validateInArray
    | writes_step ltac:(simpl; tauto) ];
    simpl; tauto.
Qed.

Lemma writes_validateItem item index invoiceType :
  writes (fun k => items_related k = true) (validateItem item index invoiceType).
Proof.
  unfold validateItem.
  repeat first
    [ apply writes_validateCustomTax; intros ?; reflexivity
    | writes_step ltac:(reflexivity) ]. 
Qed.

Lemma writes_validateItems invoice :
  writes (fun k => items_related k = true) (validateItems invoice).
Proof.
  unfold validateItems.
  repeat first [ apply writes_validateItem | writes_step ltac:(reflexivity) ].
Qed.

Lemma writes_validateOptionalFields invoice :
  writes (fun k => In k optional_keys \/ Str.startsWith k "customTaxes[" = true)
    (validateOptionalFields invoice).
Proof.
  unfold validateOptionalFields.
  repeat first
    [ apply writes_validateCustomTax; intros ?; right; reflexivity
    | writes_step ltac:(left; simpl; tauto) ].
Qed.

(** The state after the five phases. *)
Lemma phases_unfold invoice st :
  snd (phases invoice st) =
  snd (validateOptionalFields invoice
    (snd (validateItems invoice
      (snd (validateTemplateRules invoice
        (snd (validateClientFields invoice
          (snd (validateBaseFields invoice st))))))))).
Proof.
  unfold phases, bind.
  destruct (validateBaseFields invoice st) as [[] s1]; cbn [snd].
  destruct (validateClientFields invoice s1) as [[] s2]; cbn [snd].
  destruct (validateTemplateRules invoice s2) as [[] s3]; cbn [snd].
  destruct (validateItems invoice s3) as [[] s4]; cbn [snd].
  reflexivity.
Qed.

Lemma writes_phases invoice : writes (fun _ => True) (phases invoice).
Proof.
  pose proof (writes_validateBaseFields invoice) as H1.
  pose proof (writes_validateClientFields invoice) as H2.
  pose proof (writes_validateTemplateRules invoice) as H3.
  pose proof (writes_validateItems invoice) as H4.
  pose proof (writes_validateOptionalFields invoice) as H5.
  apply (writes_weaken _ (fun _ => True)) in H1, H2, H3, H4, H5; try easy.
  unfold phases.
  apply writes_bind; [exact H1 | intros _].
  apply writes_bind; [exact H2 | intros _].
  apply writes_bind; [exact H3 | intros _].
  apply writes_bind; [exact H4 | intros _].
  exact H5.
Qed.

(** [validate] does not depend on what the validator held before. *)
Lemma validate_fresh invoice st :
  validate invoice st = validate invoice fresh.
Proof. reflexivity. Qed.

Lemma validate_state invoice st :
  snd (validate invoice st) = snd (phases invoice fresh).
Proof.
  unfold validate, resetErrors, throwIfErrors. fold fresh.
  destruct (phases invoice fresh) as [[] st2]. simpl.
  now destruct (0 <? length (Obj.keys (errors st2)))%nat.
Qed.

Lemma validate_result invoice st :
  fst (validate invoice st) =
  if (0 <? length (Obj.keys (errors (snd (validate invoice st)))))%nat
  then Throw (ValidationError
                ("Validation échouée: "
                 +:+ pretty (length (Obj.keys (errors (snd (validate invoice st)))))
                 +:+ " erreur(s) trouvée(s)")
                (errors (snd (validate invoice st))))
  else Return tt.
Proof.
  rewrite validate_state.
  unfold validate, resetErrors, throwIfErrors. fold fresh.
  destruct (phases invoice fresh) as [[] st2]. simpl.
  now destruct (0 <? length (Obj.keys (errors st2)))%nat.
Qed.

End ValidatorFacts.

(** ** Claims about the validation engine *)

Section ValidationClaims.
Import Validator ValidatorSpec ValidatorFacts ObjFacts StrFacts.

Lemma errorsOf_phases invoice st :
  errorsOf invoice st = errors (snd (phases invoice fresh)).
Proof. unfold errorsOf. now rewrite validate_state. Qed.

(** A non-empty error set is raised. *)
Lemma has_raises invoice st k :
  Obj.has k (errorsOf invoice st) = true ->
  raises invoice st (errorsOf invoice st).
Proof.
  intros Hk. unfold raises. rewrite validate_result. fold (errorsOf invoice st).
  apply has_In in Hk. destruct (Obj.keys (errorsOf invoice st)); [destruct Hk |].
  simpl. eauto.
Qed.

(** Keys of the phases other than the items phase do not concern items. *)
Lemma customTaxes_not_items k :
  Str.startsWith k "customTaxes[" = true -> items_related k = false.
Proof. intros Hk. apply startsWith_inv in Hk as [d ->]. reflexivity. Qed.

Lemma items_related_item_level k : item_level k = true -> items_related k = true.
Proof. intros Hk. apply startsWith_inv in Hk as [d ->]. reflexivity. Qed.

Lemma writes_no_items_base invoice :
  writes (fun k => items_related k = false) (validateBaseFields invoice).
Proof.
  eapply writes_weaken; [| apply writes_validateBaseFields].
  intros k Hk. simpl in Hk. intuition (subst; reflexivity).
Qed.

Lemma writes_no_items_client invoice :
  writes (fun k => items_related k = false) (validateClientFields invoice).
Proof.
  eapply writes_weaken; [| apply writes_validateClientFields].
  intros k Hk. simpl in Hk. intuition (subst; reflexivity).
Qed.

Lemma writes_no_items_template invoice :
  writes (fun k => items_related k = false) (validateTemplateRules invoice).
Proof.
  eapply writes_weaken; [| apply writes_validateTemplateRules].
  intros k Hk. simpl in Hk. intuition (subst; reflexivity).
Qed.

Lemma writes_no_items_optional invoice :
  writes (fun k => items_related k = false) (validateOptionalFields invoice).
Proof.
  eapply writes_weaken; [| apply writes_validateOptionalFields].
  intros k [Hk | Hk]; [| now apply customTaxes_not_items].
  simpl in Hk. intuition (subst; reflexivity).
Qed.

(** With no line item, the items phase records the key [items] and stops. *)
Lemma validateItems_empty invoice st :
  Invoice.getItems invoice = [] ->
  snd (validateItems invoice st) =
  snd (addError "items" "La facture doit contenir au moins un article" st).
Proof. intros Hi. unfold validateItems. now rewrite Hi. Qed.

Lemma filter_nil_not_has (P : string -> bool) (k : string) (o : ValidationErrors) :
  List.filter P (Obj.keys o) = [] -> P k = true -> Obj.has k o = false.
Proof.
  intros Hf Hk. destruct (Obj.has k o) eqn:E; [| reflexivity].
  apply has_In in E. assert (Hin : In k (List.filter P (Obj.keys o))).
  { apply List.filter_In. now split. }
  rewrite Hf in Hin. destruct Hin.
Qed.

Lemma empty_items_keys invoice st :
  Invoice.getItems invoice = [] ->
  List.filter items_related (Obj.keys (errorsOf invoice st)) = ["items"].
Proof.
  intros Hi. rewrite errorsOf_phases, phases_unfold.
  rewrite (writes_filter_keys items_related _ _ (writes_no_items_optional invoice)).
  rewrite validateItems_empty by assumption.
  set (s3 := snd (validateTemplateRules invoice _)).
  assert (H3 : List.filter items_related (Obj.keys (errors s3)) = []).
  { subst s3.
    rewrite (writes_filter_keys items_related _ _ (writes_no_items_template invoice)).
    rewrite (writes_filter_keys items_related _ _ (writes_no_items_client invoice)).
    rewrite (writes_filter_keys items_related _ _ (writes_no_items_base invoice)).
    reflexivity. }
  simpl. rewrite keys_set.
  rewrite (filter_nil_not_has items_related "items" _ H3 eq_refl).
  rewrite List.filter_app, H3. reflexivity.
Qed.

Lemma filter_implied (P Q : string -> bool) (l : list string) (x : string) :
  (forall k, Q k = true -> P k = true) ->
  List.filter P l = [x] -> Q x = false -> List.filter Q l = [].
Proof.
  intros HQP. induction l as [|k l IH]; intros HP Hx; [reflexivity |].
  simpl in *. destruct (P k) eqn:Ek.
  - injection HP as -> HP. rewrite Hx.
    clear IH. induction l as [|k' l IH]; [reflexivity |].
    simpl in *. destruct (P k') eqn:Ek'; [discriminate |].
    destruct (Q k') eqn:Eq; [| now apply IH].
    apply HQP in Eq. congruence.
  - destruct (Q k) eqn:Eq; [| now apply IH].
    apply HQP in Eq. congruence.
Qed.

End ValidationClaims.

(** The concrete scenario of the specification: a B2C cash sale with one
    item passes validation, and the error set is empty. *)
Example b2c_sale_is_valid :
  Validator.validate Samples.b2c_sale Validator.fresh
  = (Return tt, Validator.fresh).
Proof. vm_compute. reflexivity. Qed.

(** C4.  For every document without line items, [validate] raises a
    [ValidationError]; the only key of its error set that concerns items is
    [items], and no key of the form [items[i]...] is present, whatever
    the other fields are. *)
Theorem C4_empty_items_single_key (invoice : Invoice.t) (st : Validator.state) :
  Invoice.getItems invoice = [] ->
  ValidatorSpec.raises invoice st (Validator.errorsOf invoice st) /\
  List.filter ValidatorSpec.items_related (Obj.keys (Validator.errorsOf invoice st))
    = ["items"] /\
  List.filter ValidatorSpec.item_level (Obj.keys (Validator.errorsOf invoice st))
    = [].
Proof.
  intros Hi. pose proof (empty_items_keys invoice st Hi) as Hk.
  split; [| split].
  - apply (has_raises invoice st "items"). apply ObjFacts.has_In.
    assert (Hin : In "items"
              (List.filter ValidatorSpec.items_related
                 (Obj.keys (Validator.errorsOf invoice st)))).
    { rewrite Hk. now left. }
    now apply List.filter_In in Hin.
  - exact Hk.
  - eapply filter_implied; [apply items_related_item_level | exact Hk | reflexivity].
Qed.

Lemma C4_empty_items_single_key_witness :
  Invoice.getItems Samples.no_items = [] /\
  List.filter ValidatorSpec.items_related
    (Obj.keys (Validator.errorsOf Samples.no_items Validator.fresh)) = ["items"].
Proof.
  split; [reflexivity |].
  exact (proj1 (proj2 (C4_empty_items_single_key Samples.no_items Validator.fresh eq_refl))).
Defined.

(** C7.  Validation is idempotent: a second [validate] of the same document
    by the same validator raises the same error and leaves the same error
    set as the first; and what the validator held before a run, from an
    earlier document, does not show in the result. *)
Theorem C7_validate_idempotent (invoice : Invoice.t) (st : Validator.state) :
  let first := Validator.validate invoice st in
  let second := Validator.validate invoice (snd first) in
  fst second = fst first /\
  Validator.errors (snd second) = Validator.errors (snd first) /\
  forall earlier : Invoice.t,
    Validator.validate invoice (snd (Validator.validate earlier st))
    = Validator.validate invoice st.
Proof.
  cbv zeta. rewrite (ValidatorFacts.validate_fresh invoice (snd _)).
  rewrite (ValidatorFacts.validate_fresh invoice st).
  split; [reflexivity | split; [reflexivity |]].
  intros earlier. now rewrite (ValidatorFacts.validate_fresh invoice (snd _)).
Qed.

Section ExportRegime.
Import Validator ValidatorSpec ValidatorFacts ObjFacts.

(** What the regime phase leaves is kept by the two phases after it. *)
Lemma template_phase_kept invoice st k :
  (forall s, Obj.has k (errors (snd (validateTemplateRules invoice s))) = true) ->
  Obj.has k (errorsOf invoice st) = true.
Proof.
  intros Hk. rewrite errorsOf_phases, phases_unfold.
  eapply writes_has; [apply writes_validateOptionalFields |].
  eapply writes_has; [apply writes_validateItems |].
  apply Hk.
Qed.

Lemma B2F_missing_currency invoice s :
  Invoice.getTemplate invoice = "B2F" ->
  truthy (Invoice.getForeignCurrency invoice) = false ->
  Obj.has "foreignCurrency"
    (errors (snd (validateTemplateRules invoice s))) = true.
Proof.
  intros Ht Hc. unfold validateTemplateRules. rewrite Ht. simpl.
  unfold bind. simpl. rewrite Hc. simpl.
  destruct (Invoice.getForeignCurrency invoice) as [c |]; simpl;
    apply has_set_eq.
Qed.

Lemma B2F_bad_rate invoice s :
  Invoice.getTemplate invoice = "B2F" ->
  truthy (Invoice.getForeignCurrency invoice) = true ->
  Number.le (Invoice.getForeignCurrencyRate invoice) 0%num = true ->
  Obj.has "foreignCurrencyRate"
    (errors (snd (validateTemplateRules invoice s))) = true.
Proof.
  intros Ht Hc Hr. unfold validateTemplateRules. rewrite Ht. simpl.
  unfold bind. simpl. rewrite Hc, Hr. simpl.
  destruct (Invoice.getForeignCurrency invoice) as [c |]; [| discriminate].
  simpl.
  destruct (validateInArray "foreignCurrency" c ALLOWED_CURRENCIES
              (Some "devise étrangère") s) as [b s']. simpl.
  apply has_set_eq.
Qed.

(** Without a currency the rate is not examined: no phase records the key
[foreignCurrencyRate]. *)
Lemma B2F_missing_currency_no_rate_error invoice st :
  truthy (Invoice.getForeignCurrency invoice) = false ->
  Obj.has "foreignCurrencyRate" (errorsOf invoice st) = false.
Proof.
  intros Hc. unfold Obj.has. rewrite errorsOf_phases, phases_unfold.
  assert (Ht : writes (fun k => k <> "foreignCurrencyRate")
                 (validateTemplateRules invoice)).
  { unfold validateTemplateRules. cbv zeta. rewrite Hc. cbn [andb].
    repeat first
      [ apply writes_validateNcc | apply writes_validateInArray
      | writes_step ltac:(discriminate) ]; discriminate. }
  rewrite (writes_get (validateOptionalFields invoice)).
  2:{ eapply writes_weaken; [| apply writes_validateOptionalFields].
      intros k Hk ->. simpl in Hk. intuition discriminate. }
  rewrite (writes_get (validateItems invoice)).
  2:{ eapply writes_weaken; [| apply writes_validateItems].
      intros k Hk ->. discriminate. }
  rewrite (writes_get (validateTemplateRules invoice)) by exact Ht.
  rewrite (writes_get (validateClientFields invoice)).
  2:{ eapply writes_weaken; [| apply writes_validateClientFields].
      intros k Hk ->. simpl in Hk. intuition discriminate. }
  rewrite (writes_get (validateBaseFields invoice)).
  2:{ eapply writes_weaken; [| apply writes_validateBaseFields].
      intros k Hk ->. simpl in Hk. intuition discriminate. }
  reflexivity.
Qed.

End ExportRegime.

(** C2.  For every export-regime (B2F) document: when the foreign currency
    is missing, validation raises an error set with the key
    [foreignCurrency]; when a currency is present and the exchange rate is
    not positive, it raises an error set with the key
    [foreignCurrencyRate]; and some B2F document has both keys in one error
    set. *)
Theorem C2_export_currency_and_rate :
  (forall (invoice : Invoice.t) (st : Validator.state),
     Invoice.getTemplate invoice = "B2F" ->
     truthy (Invoice.getForeignCurrency invoice) = false ->
     ValidatorSpec.raises invoice st (Validator.errorsOf invoice st) /\
     Obj.has "foreignCurrency" (Validator.errorsOf invoice st) = true) /\
  (forall (invoice : Invoice.t) (st : Validator.state),
     Invoice.getTemplate invoice = "B2F" ->
     truthy (Invoice.getForeignCurrency invoice) = true ->
     Number.le (Invoice.getForeignCurrencyRate invoice) 0%num = true ->
     ValidatorSpec.raises invoice st (Validator.errorsOf invoice st) /\
     Obj.has "foreignCurrencyRate" (Validator.errorsOf invoice st) = true) /\
  (exists invoice : Invoice.t,
     Invoice.getTemplate invoice = "B2F" /\
     forall st : Validator.state,
       ValidatorSpec.raises invoice st (Validator.errorsOf invoice st) /\
       Obj.has "foreignCurrency" (Validator.errorsOf invoice st) = true /\
       Obj.has "foreignCurrencyRate" (Validator.errorsOf invoice st) = true).
Proof.
  split; [| split].
  - intros invoice st Ht Hc.
    assert (Hk : Obj.has "foreignCurrency" (Validator.errorsOf invoice st) = true).
    { apply template_phase_kept. intros s. now apply B2F_missing_currency. }
    split; [now apply (has_raises invoice st "foreignCurrency") | exact Hk].
  - intros invoice st Ht Hc Hr.
    assert (Hk : Obj.has "foreignCurrencyRate" (Validator.errorsOf invoice st) = true).
    { apply template_phase_kept. intros s. now apply B2F_bad_rate. }
    split; [now apply (has_raises invoice st "foreignCurrencyRate") | exact Hk].
  - exists Samples.b2f_unknown_currency. split; [reflexivity |]. intros st.
    assert (Hk : Obj.has "foreignCurrency"
                   (Validator.errorsOf Samples.b2f_unknown_currency st) = true)
      by reflexivity.
    split; [now apply (has_raises _ st "foreignCurrency") | split; reflexivity].
Qed.

Lemma C2_export_currency_and_rate_witness :
  Obj.has "foreignCurrency"
    (Validator.errorsOf Samples.b2f_no_currency Validator.fresh) = true /\
  Obj.has "foreignCurrencyRate"
    (Validator.errorsOf Samples.b2f_zero_rate Validator.fresh) = true.
Proof.
  destruct C2_export_currency_and_rate as (Hmissing & Hrate & _). split.
  - apply (Hmissing Samples.b2f_no_currency Validator.fresh); reflexivity.
  - apply (Hrate Samples.b2f_zero_rate Validator.fresh); reflexivity.
Defined.

Section LastMessageWins.
Import Validator ValidatorSpec ValidatorFacts ObjFacts.
Local Open Scope validator_scope.

Lemma writes_after_nil {A} Q (m : M A) : writes Q m -> writes_after [] Q m.
Proof. intros Hm st. exact (Hm st). Qed.

Lemma writes_after_step {A B} ws1 ws0 Q (m : M A) (f : A -> M B) :
  (forall st, snd (m st) = replay ws1 st) ->
  (forall a, writes_after ws0 Q (f a)) ->
  writes_after (ws1 ++ ws0) Q (bind m f).
Proof.
  intros Hm Hf st. unfold bind. specialize (Hm st).
  destruct (m st) as [a st1]. simpl in Hm. subst st1.
  destruct (Hf a (replay ws1 st)) as (ws & Hws & E). exists ws.
  split; [assumption |]. now rewrite E, <- app_assoc, !replay_app.
Qed.

Lemma writes_after_bind {A B} ws0 Q (m : M A) (f : A -> M B) :
  writes_after ws0 Q m -> (forall a, writes Q (f a)) ->
  writes_after ws0 Q (bind m f).
Proof.
  intros Hm Hf st. unfold bind. destruct (Hm st) as (ws1 & H1 & E1).
  destruct (m st) as [a st1]. simpl in E1. subst st1.
  destruct (Hf a (replay (ws0 ++ ws1) st)) as (ws2 & H2 & E2).
  exists (ws1 ++ ws2). split.
  - apply Forall_app. now split.
  - now rewrite E2, app_assoc, (replay_app (ws0 ++ ws1)).
Qed.

(** A blank invoice type is none of the allowed values. *)
Lemma blank_not_allowed (s : string) :
  String.length (Str.trim s) = 0%nat ->
  Str.includes ALLOWED_INVOICE_TYPES s = false.
Proof.
  intros Hb. destruct (Str.includes ALLOWED_INVOICE_TYPES s) eqn:E; [| reflexivity].
  unfold Str.includes in E. simpl in E. rewrite orb_false_r in E.
  apply orb_true_iff in E as [E | E]; apply String.eqb_eq in E; subst s;
    vm_compute in Hb; discriminate.
Qed.

Lemma validateBaseFields_blank_type invoice :
  String.length (Str.trim (Invoice.getInvoiceType invoice)) = 0%nat ->
  writes_after
    [("invoiceType", required_message); ("invoiceType", allowed_message)]
    (fun k => k <> "invoiceType") (validateBaseFields invoice).
Proof.
  intros Hb. unfold validateBaseFields.
  assert (Ht : Str.trim (Invoice.getInvoiceType invoice) = "")
    by (destruct (Str.trim _); [reflexivity | discriminate]).
  apply (writes_after_step [("invoiceType", required_message)]
           [("invoiceType", allowed_message)]).
  { intros st. unfold validateRequired. rewrite Ht.
    change (Str.length "" =? 0)%nat with true.
    now destruct (String.eqb (Invoice.getInvoiceType invoice) ""). }
  intros _.
  apply (writes_after_step [("invoiceType", allowed_message)] []).
  { intros st. unfold validateInArray. now rewrite (blank_not_allowed _ Hb). }
  intros _. apply writes_after_nil.
  repeat (apply writes_bind; [| intros ?]);
    try apply writes_validateRequired; try apply writes_validateInArray;
    try apply writes_ret; discriminate.
Qed.

Lemma writes_other_phases invoice :
  writes (fun k => k <> "invoiceType")
    (validateClientFields invoice ;; validateTemplateRules invoice ;;
     validateItems invoice ;; validateOptionalFields invoice).
Proof.
  apply writes_bind; [| intros _].
  { eapply writes_weaken; [| apply writes_validateClientFields].
    intros k Hk ->. simpl in Hk. intuition discriminate. }
  apply writes_bind; [| intros _].
  { eapply writes_weaken; [| apply writes_validateTemplateRules].
    intros k Hk ->. simpl in Hk. intuition discriminate. }
  apply writes_bind; [| intros _].
  { eapply writes_weaken; [| apply writes_validateItems].
    intros k Hk ->. discriminate. }
  eapply writes_weaken; [| apply writes_validateOptionalFields].
  intros k Hk ->. simpl in Hk. intuition discriminate.
Qed.

Lemma validate_consistent invoice st : consistent (snd (validate invoice st)).
Proof.
  rewrite validate_state.
  eapply writes_consistent; [apply writes_phases | reflexivity].
Qed.

Lemma validate_NoDup invoice st :
  NoDup (Obj.keys (errors (snd (validate invoice st)))).
Proof.
  rewrite validate_state.
  eapply writes_NoDup; [apply writes_phases | constructor].
Qed.

End LastMessageWins.

(** C10.  In the error set that [validate] leaves, every field path
    occurs once, and its message is the last one that the run recorded for
    it: a later failure on a path overwrites the earlier one.  So for a
    document whose invoice type is blank, the run records the "required"
    message and then the "allowed values" message under [invoiceType], and
    the error set keeps the second. *)
Theorem C10_last_message_wins (invoice : Invoice.t) (st : Validator.state) :
  let st' := snd (Validator.validate invoice st) in
  NoDup (Obj.keys (Validator.errors st')) /\
  (forall k : string,
     Obj.get k (Validator.errors st')
     = ValidatorSpec.last_write k (Validator.journal st')) /\
  (String.length (Str.trim (Invoice.getInvoiceType invoice)) = 0%nat ->
   (exists ws,
      Validator.journal st'
      = ("invoiceType", ValidatorSpec.required_message)
        :: ("invoiceType", ValidatorSpec.allowed_message) :: ws) /\
   Obj.get "invoiceType" (Validator.errors st')
   = Some ValidatorSpec.allowed_message).
Proof.
  cbv zeta. split; [apply validate_NoDup | split].
  - intros k. rewrite (validate_consistent invoice st).
    rewrite ValidatorFacts.get_replay.
    now destruct (ValidatorSpec.last_write k _).
  - intros Hb.
    assert (Hj : exists ws,
               Forall (fun w => fst w <> "invoiceType") ws /\
               Validator.journal (snd (Validator.validate invoice st))
               = ("invoiceType", ValidatorSpec.required_message)
                 :: ("invoiceType", ValidatorSpec.allowed_message) :: ws).
    { rewrite ValidatorFacts.validate_state.
      destruct (writes_after_bind _ _ _ _
                  (validateBaseFields_blank_type invoice Hb)
                  (fun _ => writes_other_phases invoice) Validator.fresh)
        as (ws & Hws & E).
      exists ws. split; [assumption |].
      unfold Validator.phases. rewrite E, ValidatorFacts.journal_replay.
      reflexivity. }
    destruct Hj as (ws & Hws & Hj). split; [now exists ws |].
    rewrite (validate_consistent invoice st), ValidatorFacts.get_replay, Hj.
    simpl. now rewrite (ValidatorFacts.last_write_none _ _ Hws).
Qed.

Lemma C10_last_message_wins_witness :
  Obj.get "invoiceType"
    (Validator.errors (snd (Validator.validate Samples.blank_type Validator.fresh)))
  = Some ValidatorSpec.allowed_message.
Proof.
  apply (C10_last_message_wins Samples.blank_type Validator.fresh).
  reflexivity.
Defined.

(** ** The response cache *)

Section Cache.
Import TokenManager.
Context {T : Type}.
Implicit Types (m : TokenManager.t T) (key : string) (value : T) (now : Z).

Lemma cacheResponse_lookup now key value ttl m :
  cache (cacheResponse now key value ttl m) !! key
  = Some {| data := value; expiresAt := (now + default 3600 ttl * 1000)%Z |}.
Proof. unfold cacheResponse. simpl. apply lookup_insert_eq. Qed.

(** A stored value is served as long as the clock has not passed its
    expiry, and the manager is left as it is. *)
Lemma getCachedResponse_live now later key value ttl m :
  (later <= now + default 3600 ttl * 1000)%Z ->
  getCachedResponse later key (cacheResponse now key value ttl m)
  = (Some value, cacheResponse now key value ttl m).
Proof.
  intros Hl. unfold getCachedResponse. rewrite cacheResponse_lookup. simpl.
  destruct (Z.ltb_spec (now + default 3600 ttl * 1000)%Z later); [lia | reflexivity].
Qed.

(** Once the clock has passed the expiry, [null] is returned and the
    entry is removed; the other entries are as before the store. *)
Lemma getCachedResponse_expired now later key value ttl m :
  (now + default 3600 ttl * 1000 < later)%Z ->
  getCachedResponse later key (cacheResponse now key value ttl m)
  = (None, {| apiKey := apiKey m; cache := delete key (cache m) |}).
Proof.
  intros Hl. unfold getCachedResponse. rewrite cacheResponse_lookup. simpl.
  destruct (Z.ltb_spec (now + default 3600 ttl * 1000)%Z later); [| lia].
  unfold cacheResponse. simpl. now rewrite delete_insert_eq.
Qed.

End Cache.

(** C3 as stated fails: a value stored with [ttlSeconds = 0] is still
    served by a [get] made at the same clock reading, since an entry expires
    only when the clock is strictly past [expiresAt]. *)
Lemma C3_zero_ttl_served_in_same_millisecond :
  fst (TokenManager.getCachedResponse 1000 "k"
         (TokenManager.cacheResponse 1000 "k" "v" (Some 0%Z) TokenManager.new))
  = Some "v".
Proof.
  rewrite getCachedResponse_live; [reflexivity | simpl; lia].
Qed.

(** C3 (amended).  A value stored with [ttlSeconds = 0] is still returned
    by a [get] made at the same clock reading, and is expired for every
    [get] made at a strictly later one: [get] returns [null] and removes
    the entry.  A value stored with [ttlSeconds = 3600] (the
    default) is returned unchanged, and kept, while the clock is not past
    its expiry, 3 600 000 ms after the store; once the clock is past it,
    [get] returns [null] and removes the entry. *)
Theorem C3_cache_ttl {T : Type} (m : TokenManager.t T) (key : string) (value : T)
    (now later : Z) :
  fst (TokenManager.getCachedResponse now key
         (TokenManager.cacheResponse now key value (Some 0%Z) m)) = Some value /\
  ((now < later)%Z ->
   TokenManager.getCachedResponse later key
     (TokenManager.cacheResponse now key value (Some 0%Z) m)
   = (None, {| TokenManager.apiKey := TokenManager.apiKey m;
               TokenManager.cache := delete key (TokenManager.cache m) |})) /\
  ((later <= now + 3600000)%Z ->
   TokenManager.getCachedResponse later key
     (TokenManager.cacheResponse now key value (Some 3600%Z) m)
   = (Some value, TokenManager.cacheResponse now key value (Some 3600%Z) m)) /\
  ((now + 3600000 < later)%Z ->
   TokenManager.getCachedResponse later key
     (TokenManager.cacheResponse now key value (Some 3600%Z) m)
   = (None, {| TokenManager.apiKey := TokenManager.apiKey m;
               TokenManager.cache := delete key (TokenManager.cache m) |})) /\
  TokenManager.cacheResponse now key value None m
  = TokenManager.cacheResponse now key value (Some 3600%Z) m.
Proof.
  split; [| split; [| split; [| split]]].
  - rewrite getCachedResponse_live; [reflexivity | simpl; lia].
  - intros Hl. apply getCachedResponse_expired. simpl. lia.
  - intros Hl. apply getCachedResponse_live. simpl. lia.
  - intros Hl. apply getCachedResponse_expired. simpl. lia.
  - reflexivity.
Qed.

Lemma C3_cache_ttl_witness :
  fst (TokenManager.getCachedResponse 1001 "k"
         (TokenManager.cacheResponse 1000 "k" "v" (Some 0%Z) TokenManager.new)) = None /\
  fst (TokenManager.getCachedResponse 3601000 "k"
         (TokenManager.cacheResponse 1000 "k" "v" (Some 3600%Z) TokenManager.new))
  = Some "v" /\
  fst (TokenManager.getCachedResponse 3601001 "k"
         (TokenManager.cacheResponse 1000 "k" "v" (Some 3600%Z) TokenManager.new))
  = None.
Proof.
  destruct (C3_cache_ttl (TokenManager.new (T:=string)) "k" "v" 1000 1001)
    as (_ & H0 & _ & _ & _).
  destruct (C3_cache_ttl (TokenManager.new (T:=string)) "k" "v" 1000 3601000)
    as (_ & _ & Hlive & _ & _).
  destruct (C3_cache_ttl (TokenManager.new (T:=string)) "k" "v" 1000 3601001)
    as (_ & _ & _ & Hdead & _).
  rewrite H0, Hlive, Hdead by lia. repeat split.
Defined.

(** ** Serialisation *)

Section Serialisation.
Import ObjFacts.

Lemma get_put_if_truthy_ne k key value (o : list (string * json)) :
  key <> k -> Obj.get k (Invoice.put_if_truthy key value o) = Obj.get k o.
Proof.
  intros Hne. unfold Invoice.put_if_truthy.
  destruct value as [s |]; [| reflexivity].
  destruct (truthy (Some s)); [now apply get_set_ne | reflexivity].
Qed.

Lemma get_if_set_ne k key (b : bool) (v : json) (o : list (string * json)) :
  key <> k -> Obj.get k (if b then Obj.set key v o else o) = Obj.get k o.
Proof. intros Hne. destruct b; [now apply get_set_ne | reflexivity]. Qed.

Lemma get_if_set_eq k (b : bool) (v : json) (o : list (string * json)) :
  Obj.get k (if b then Obj.set k v o else o)
  = if b then Some v else Obj.get k o.
Proof. destruct b; [apply get_set_eq | reflexivity]. Qed.

Lemma get_opt_set_ne k key (value : option string) (o : list (string * json)) :
  key <> k ->
  Obj.get k
    (match value with
     | Some s => if truthy (Some s) then Obj.set key (JStr s) o else o
     | None => o
     end) = Obj.get k o.
Proof.
  intros Hne. destruct value as [s |]; [| reflexivity].
  now apply get_if_set_ne.
Qed.

(** The [discount] key of a serialised line item. *)
Lemma item_discount (item : InvoiceItem.t) :
  json_prop "discount" (Some (InvoiceItem.toArray item))
  = if Number.gt (InvoiceItem._discount item) 0%num
    then Some (JNum (InvoiceItem._discount item)) else None.
Proof.
  unfold InvoiceItem.toArray. cbv zeta. unfold json_prop.
  rewrite get_if_set_ne by discriminate.
  rewrite get_opt_set_ne by discriminate.
  rewrite get_if_set_eq.
  rewrite get_opt_set_ne by discriminate.
  reflexivity.
Qed.

(** The [customTaxes] key of a serialised line item. *)
Lemma item_customTaxes (item : InvoiceItem.t) :
  json_prop "customTaxes" (Some (InvoiceItem.toArray item))
  = match InvoiceItem._customTaxes item with
    | [] => None
    | taxes => Some (JArr (map CustomTax.toArray taxes))
    end.
Proof.
  unfold InvoiceItem.toArray. cbv zeta. unfold json_prop.
  destruct (InvoiceItem._customTaxes item) as [|c taxes]; simpl length.
  - change (0 <? 0)%nat with false. cbv iota.
    rewrite get_opt_set_ne by discriminate.
    rewrite get_if_set_ne by discriminate.
    rewrite get_opt_set_ne by discriminate. reflexivity.
  - change (0 <? S (length taxes))%nat with true. cbv iota.
    apply get_set_eq.
Qed.

(** The keys of a serialised document that the claims mention. *)
Lemma invoice_discount (invoice : Invoice.t) :
  json_prop "discount" (Some (Invoice.toArray invoice))
  = if Number.gt (Invoice._discount invoice) 0%num
    then Some (JNum (Invoice._discount invoice)) else None.
Proof.
  unfold Invoice.toArray. cbv zeta. unfold json_prop.
  rewrite get_if_set_ne by discriminate.
  rewrite get_if_set_eq.
  rewrite get_put_if_truthy_ne by discriminate.
  destruct (Number.gt (Invoice._discount invoice) 0%num); [reflexivity |].
  destruct (Invoice._foreignCurrency invoice) as [c |];
    [destruct (truthy (Some c)) |];
    rewrite !get_set_ne by discriminate;
    rewrite !get_put_if_truthy_ne by discriminate; reflexivity.
Qed.

Lemma invoice_customTaxes (invoice : Invoice.t) :
  json_prop "customTaxes" (Some (Invoice.toArray invoice))
  = match Invoice._customTaxes invoice with
    | [] => None
    | taxes => Some (JArr (map CustomTax.toArray taxes))
    end.
Proof.
  unfold Invoice.toArray. cbv zeta. unfold json_prop.
  destruct (Invoice._customTaxes invoice) as [|c taxes]; simpl length.
  - change (0 <? 0)%nat with false. cbv iota.
    rewrite get_if_set_ne by discriminate.
    rewrite get_put_if_truthy_ne by discriminate.
    destruct (Invoice._foreignCurrency invoice) as [cur |];
      [destruct (truthy (Some cur)) |];
      rewrite !get_set_ne by discriminate;
      rewrite !get_put_if_truthy_ne by discriminate; reflexivity.
  - change (0 <? S (length taxes))%nat with true. cbv iota.
    apply get_set_eq.
Qed.

Lemma invoice_items (invoice : Invoice.t) :
  json_prop "items" (Some (Invoice.toArray invoice))
  = Some (JArr (map InvoiceItem.toArray (Invoice._items invoice))).
Proof.
  unfold Invoice.toArray. cbv zeta. unfold json_prop.
  rewrite !get_if_set_ne by discriminate.
  rewrite get_put_if_truthy_ne by discriminate.
  destruct (Invoice._foreignCurrency invoice) as [cur |];
    [destruct (truthy (Some cur)) |];
    rewrite !get_set_ne by discriminate;
    rewrite !get_put_if_truthy_ne by discriminate; reflexivity.
Qed.

Lemma invoice_currency_pair (invoice : Invoice.t) :
  json_prop "foreignCurrency" (Some (Invoice.toArray invoice))
  = Some (JStr (if truthy (Invoice._foreignCurrency invoice)
                then default "" (Invoice._foreignCurrency invoice) else "")) /\
  json_prop "foreignCurrencyRate" (Some (Invoice.toArray invoice))
  = Some (JNum (if truthy (Invoice._foreignCurrency invoice)
                then Invoice._foreignCurrencyRate invoice else 0%num)).
Proof.
  unfold Invoice.toArray. cbv zeta. unfold json_prop.
  rewrite !get_if_set_ne by discriminate.
  rewrite !get_put_if_truthy_ne by discriminate.
  destruct (Invoice._foreignCurrency invoice) as [cur |];
    [destruct (truthy (Some cur)) |]; simpl default;
    rewrite get_set_eq, get_set_ne, get_set_eq by discriminate; now split.
Qed.

End Serialisation.

(** C6.  In the serialised form: a line item whose discount is 10 has
    [discount: 10], and a line item or a document with discount 0 has no
    [discount] key; the custom taxes of a line item, and those of the
    document, are serialised inside [customTaxes], so a tax added as
    [("DTD", 1000)] appears there as [{name: "DTD", amount: 1000}]; the
    serialised items are those of the document; and a serialised document
    always has both [foreignCurrency] and [foreignCurrencyRate], with the
    stored values when a currency is set, and with the empty string and 0
    otherwise. *)
Theorem C6_serialisation :
  (forall item : InvoiceItem.t,
     InvoiceItem._discount item = Number.of_Z 10 ->
     json_prop "discount" (Some (InvoiceItem.toArray item))
     = Some (JNum (Number.of_Z 10))) /\
  (forall item : InvoiceItem.t,
     InvoiceItem._discount item = 0%num ->
     json_prop "discount" (Some (InvoiceItem.toArray item)) = None) /\
  (forall invoice : Invoice.t,
     Invoice._discount invoice = 0%num ->
     json_prop "discount" (Some (Invoice.toArray invoice)) = None) /\
  (forall (item item' : InvoiceItem.t),
     InvoiceItem.addCustomTax "DTD" (Number.of_Z 1000) item = Return item' ->
     exists taxes,
       json_prop "customTaxes" (Some (InvoiceItem.toArray item')) = Some (JArr taxes) /\
       In (JObj [("name", JStr "DTD"); ("amount", JNum (Number.of_Z 1000))]) taxes) /\
  (forall (invoice invoice' : Invoice.t),
     Invoice.addCustomTax "DTD" (Number.of_Z 1000) invoice = Return invoice' ->
     exists taxes,
       json_prop "customTaxes" (Some (Invoice.toArray invoice')) = Some (JArr taxes) /\
       In (JObj [("name", JStr "DTD"); ("amount", JNum (Number.of_Z 1000))]) taxes) /\
  (forall (invoice : Invoice.t) (tax : CustomTax.t),
     In tax (Invoice._customTaxes invoice) ->
     exists taxes,
       json_prop "customTaxes" (Some (Invoice.toArray invoice)) = Some (JArr taxes) /\
       In (CustomTax.toArray tax) taxes) /\
  (forall invoice : Invoice.t,
     json_prop "items" (Some (Invoice.toArray invoice))
     = Some (JArr (map InvoiceItem.toArray (Invoice._items invoice)))) /\
  (forall (invoice : Invoice.t) (currency : string),
     Invoice._foreignCurrency invoice = Some currency -> currency <> "" ->
     json_prop "foreignCurrency" (Some (Invoice.toArray invoice))
     = Some (JStr currency) /\
     json_prop "foreignCurrencyRate" (Some (Invoice.toArray invoice))
     = Some (JNum (Invoice._foreignCurrencyRate invoice))) /\
  (forall invoice : Invoice.t,
     truthy (Invoice._foreignCurrency invoice) = false ->
     json_prop "foreignCurrency" (Some (Invoice.toArray invoice)) = Some (JStr "") /\
     json_prop "foreignCurrencyRate" (Some (Invoice.toArray invoice))
     = Some (JNum 0%num)).
Proof.
  repeat apply conj.
  - intros item Hd. rewrite item_discount, Hd. reflexivity.
  - intros item Hd. rewrite item_discount, Hd. reflexivity.
  - intros invoice Hd. rewrite invoice_discount, Hd. reflexivity.
  - intros item item' Ha. unfold InvoiceItem.addCustomTax in Ha.
    change (CustomTax.new "DTD" (Number.of_Z 1000))
      with (Return (CustomTax.mk "DTD" (Number.of_Z 1000))) in Ha.
    injection Ha as <-. rewrite item_customTaxes. cbn [InvoiceItem._customTaxes].
    assert (Hin : In (CustomTax.mk "DTD" (Number.of_Z 1000))
                    (InvoiceItem._customTaxes item
                     ++ [CustomTax.mk "DTD" (Number.of_Z 1000)])).
    { apply in_or_app. right. now left. }
    destruct (InvoiceItem._customTaxes item ++ [CustomTax.mk "DTD" (Number.of_Z 1000)])
      as [|c taxes]; [destruct Hin |].
    eexists. split; [reflexivity |].
    exact (in_map CustomTax.toArray _ _ Hin).
  - intros invoice invoice' Ha. unfold Invoice.addCustomTax in Ha.
    change (CustomTax.new "DTD" (Number.of_Z 1000))
      with (Return (CustomTax.mk "DTD" (Number.of_Z 1000))) in Ha.
    injection Ha as <-. rewrite invoice_customTaxes. cbn [Invoice._customTaxes].
    assert (Hin : In (CustomTax.mk "DTD" (Number.of_Z 1000))
                    (Invoice._customTaxes invoice
                     ++ [CustomTax.mk "DTD" (Number.of_Z 1000)])).
    { apply in_or_app. right. now left. }
    destruct (Invoice._customTaxes invoice ++ [CustomTax.mk "DTD" (Number.of_Z 1000)])
      as [|c taxes]; [destruct Hin |].
    eexists. split; [reflexivity |].
    exact (in_map CustomTax.toArray _ _ Hin).
  - intros invoice tax Hin. rewrite invoice_customTaxes.
    destruct (Invoice._customTaxes invoice) as [|c taxes]; [destruct Hin |].
    eexists. split; [reflexivity |]. now apply in_map.
  - apply invoice_items.
  - intros invoice currency Hc Hne.
    destruct (invoice_currency_pair invoice) as [H1 H2].
    rewrite H1, H2, Hc. simpl.
    destruct (String.eqb_spec currency ""); [contradiction | now split].
  - intros invoice Hc.
    destruct (invoice_currency_pair invoice) as [H1 H2].
    rewrite H1, H2, Hc. now split.
Qed.

Lemma C6_serialisation_witness :
  json_prop "discount" (Some (InvoiceItem.toArray Samples.item_discounted))
  = Some (JNum (Number.of_Z 10)) /\
  json_prop "discount" (Some (InvoiceItem.toArray Samples.item_X)) = None /\
  json_prop "discount" (Some (Invoice.toArray Samples.b2c_sale)) = None /\
  json_prop "foreignCurrency" (Some (Invoice.toArray Samples.b2f_zero_rate))
  = Some (JStr "EUR") /\
  json_prop "foreignCurrency" (Some (Invoice.toArray Samples.b2c_sale))
  = Some (JStr "").
Proof.
  destruct C6_serialisation as (H10 & Hitem0 & Hdoc0 & _ & _ & _ & _ & Hset & Hunset).
  split; [| split; [| split; [| split]]].
  - apply (H10 Samples.item_discounted). reflexivity.
  - apply (Hitem0 Samples.item_X). reflexivity.
  - apply (Hdoc0 Samples.b2c_sale). reflexivity.
  - apply (Hset Samples.b2f_zero_rate "EUR"); [reflexivity | discriminate].
  - apply (Hunset Samples.b2c_sale). reflexivity.
Defined.

(** ** The request pipeline *)

Section Pipeline.
Import HttpClient PipelineSpec.
Context `{Runtime}.
Variable net : network.

Lemma fetches_fetch (w : world) url method headers body :
  fetches (w ++ [Fetch url method headers body]) = S (fetches w).
Proof.
  unfold fetches. rewrite List.filter_app, length_app. simpl. lia.
Qed.

Lemma fetches_sleep (w : world) ms : fetches (w ++ [Sleep ms]) = fetches w.
Proof.
  unfold fetches. rewrite List.filter_app, length_app. simpl. lia.
Qed.

(** *** One attempt *)

Lemma tryRequest_resolved c method endpoint data w status hs body :
  net (fetches w) = Resolved status hs body ->
  tryRequest net c (baseUrl c +:+ endpoint) method (buildHeaders c) data w
  = (handleResponse (Response.mk status hs body),
     w ++ [sent c method endpoint data]).
Proof.
  intros Hn. unfold tryRequest, executeRequest. now rewrite Hn.
Qed.

Lemma tryRequest_rejected c method endpoint data w name message :
  net (fetches w) = Rejected name message ->
  tryRequest net c (baseUrl c +:+ endpoint) method (buildHeaders c) data w
  = (Throw (transport_error c name message),
     w ++ [sent c method endpoint data]).
Proof.
  intros Hn. unfold tryRequest, executeRequest, transport_error. rewrite Hn.
  now destruct (String.eqb name "AbortError").
Qed.

Lemma fromError_network e : isNetworkError (NetworkErrors.fromError e) = true.
Proof.
  unfold NetworkErrors.fromError.
  repeat match goal with |- context [if ?b then _ else _] => destruct b end;
    reflexivity.
Qed.

Lemma transport_error_network c name message :
  isNetworkError (transport_error c name message) = true.
Proof.
  unfold transport_error. destruct (String.eqb name "AbortError").
  - unfold NetworkErrors.timeout. now destruct (timeout c =? 0)%Z.
  - apply fromError_network.
Qed.

Lemma network_retryable e : isNetworkError e = true -> retryable e = true.
Proof. now destruct e. Qed.

Lemma network_classified e : isNetworkError e = true -> classified e = true.
Proof. unfold classified. now intros ->. Qed.

(** Every attempt of the pipeline makes one request. *)
Lemma tryRequest_world c method endpoint data w :
  snd (tryRequest net c (baseUrl c +:+ endpoint) method (buildHeaders c) data w)
  = w ++ [sent c method endpoint data].
Proof.
  destruct (net (fetches w)) as [status hs body | name message] eqn:Hn.
  - now rewrite (tryRequest_resolved _ _ _ _ _ _ _ _ Hn).
  - now rewrite (tryRequest_rejected _ _ _ _ _ _ _ Hn).
Qed.

(** What the factory of [ApiError] returns and what it throws. *)
Lemma fromResponse_cases status response :
  (exists m, ApiErrors.fromResponse status response
             = Return (ApiError m status response)) \/
  (exists m, ApiErrors.fromResponse status response = Throw (Error m)).
Proof.
  unfold ApiErrors.fromResponse.
  repeat match goal with
         | |- context [match ?x with _ => _ end] => destruct x
         end; eauto.
Qed.

Lemma remote_error_cases status hs body :
  (exists m, ApiErrors.fromResponse status (parsed status hs body)
             = Return (ApiError m status (parsed status hs body)) /\
             remote_error status hs body
             = ApiError m status (parsed status hs body)) \/
  (exists m, ApiErrors.fromResponse status (parsed status hs body)
             = Throw (Error m) /\
             remote_error status hs body = Error m).
Proof.
  unfold remote_error.
  destruct (fromResponse_cases status (parsed status hs body)) as [[m E] | [m E]];
    rewrite E; [left | right]; now exists m.
Qed.

Lemma handleResponse_unfold status hs body :
  handleResponse (Response.mk status hs body) =
  if (200 <=? status)%Z && (status <? 300)%Z
  then Return (Response.mk status hs body)
  else if (status =? 401)%Z then Throw AuthenticationErrors.unauthorized
  else Throw (remote_error status hs body).
Proof.
  unfold handleResponse, Response.isSuccess, Response.getStatusCode,
    remote_error, parsed. simpl.
  destruct ((200 <=? status)%Z && (status <? 300)%Z); [reflexivity |].
  destruct (status =? 401)%Z; [reflexivity |].
  destruct (Response.json _);
    match goal with
    | |- context [ApiErrors.fromResponse ?a ?b] =>
        now destruct (ApiErrors.fromResponse a b)
    end.
Qed.

(** What an attempt throws: the error of the transport, the
    [AuthenticationError] of a 401, or the error of another response. *)
Lemma tryRequest_throws c method endpoint data w e w1 :
  tryRequest net c (baseUrl c +:+ endpoint) method (buildHeaders c) data w
  = (Throw e, w1) ->
  (exists name message, net (fetches w) = Rejected name message /\
                        e = transport_error c name message) \/
  (exists hs body, net (fetches w) = Resolved 401 hs body /\
                   e = AuthenticationErrors.unauthorized) \/
  (exists status hs body, net (fetches w) = Resolved status hs body /\
                          e = remote_error status hs body).
Proof.
  intros Ht.
  destruct (net (fetches w)) as [status hs body | name message] eqn:Hn.
  - rewrite (tryRequest_resolved _ _ _ _ _ _ _ _ Hn) in Ht.
    injection Ht as Hh _. rewrite handleResponse_unfold in Hh.
    destruct ((200 <=? status)%Z && (status <? 300)%Z); [discriminate |].
    destruct (Z.eqb_spec status 401) as [-> | _]; injection Hh as <-.
    + right; left. now exists hs, body.
    + right; right. now exists status, hs, body.
  - rewrite (tryRequest_rejected _ _ _ _ _ _ _ Hn) in Ht.
    injection Ht as <- _. left. now exists name, message.
Qed.

(** *** The loop *)

Lemma retry_return c action attempt rest last w response w1 :
  action w = (Return response, w1) ->
  retry c action (attempt :: rest) last w = (Return response, w1).
Proof. intros Ha. simpl. now rewrite Ha. Qed.

Lemma retry_stop c action attempt rest last w e w1 :
  action w = (Throw e, w1) -> retryable e = false ->
  retry c action (attempt :: rest) last w = (Throw e, w1).
Proof.
  intros Ha Hr. simpl. rewrite Ha. unfold retryable in Hr.
  apply negb_false_iff in Hr. now rewrite Hr.
Qed.

Lemma retry_fail c action attempt rest last w e w1 :
  action w = (Throw e, w1) -> retryable e = true ->
  retry c action (attempt :: rest) last w
  = retry c action rest (Some e) (backoff c attempt w1).
Proof.
  intros Ha Hr. simpl. rewrite Ha. unfold retryable in Hr.
  apply negb_true_iff in Hr. rewrite Hr. unfold backoff, sleep. simpl.
  now destruct (attempt <? retryAttempts c)%Z.
Qed.

Lemma retry_exhausts c action attempts last w last' w' :
  exhausts c action attempts last w last' w' ->
  retry c action attempts last w = (Throw (raised_at_exhaustion last'), w').
Proof.
  induction 1 as [last w | attempt rest last w e w1 last' w' Ha Hr _ IH].
  - simpl. unfold exhausted, raised_at_exhaustion, classified.
    destruct last as [e |]; [| reflexivity].
    now destruct (isNetworkError e || isApiError e).
  - now rewrite (retry_fail _ _ _ _ _ _ _ _ Ha Hr).
Qed.

(** After attempts that all fail, an error has been recorded as soon as
    there was an attempt, and it is one that the action throws and the loop
    retries. *)
Lemma exhausts_last (P : error -> Prop) c action attempts last w last' w' :
  exhausts c action attempts last w last' w' ->
  (forall w0 e w1, action w0 = (Throw e, w1) -> retryable e = true -> P e) ->
  (attempts <> [] \/ exists e, last = Some e /\ P e) ->
  exists e, last' = Some e /\ P e.
Proof.
  intros Hx Hc. induction Hx as [last w | attempt rest last w e w1 last' w' Ha Hr _ IH].
  - intros [Hne | Hl]; [congruence | exact Hl].
  - intros _. apply IH. right. exists e. split; [reflexivity |].
    now apply (Hc w e w1).
Qed.

(** What an attempt of the pipeline throws and the loop retries is a
    transport or a remote failure, or the [TypeError] met while building
    the [ApiError] of a response. *)
Lemma tryRequest_retried c method endpoint data w e w1 :
  tryRequest net c (baseUrl c +:+ endpoint) method (buildHeaders c) data w
  = (Throw e, w1) ->
  retryable e = true ->
  classified e = true \/
  (classified e = false /\
   exists status hs body m,
     ApiErrors.fromResponse status (parsed status hs body) = Throw (Error m) /\
     e = Error m).
Proof.
  intros Ht Hr.
  destruct (tryRequest_throws _ _ _ _ _ _ _ Ht)
    as [(name & message & _ & ->) | [(hs & body & _ & ->) | (status & hs & body & _ & ->)]].
  - left. apply network_classified, transport_error_network.
  - discriminate.
  - destruct (remote_error_cases status hs body) as [(m & _ & ->) | (m & E & ->)].
    + now left.
    + right. split; [reflexivity |]. now exists status, hs, body, m.
Qed.

(** *** One turn of the loop of [request], by outcome of the attempt *)

Local Abbreviation attempt_of c method endpoint data :=
  (tryRequest net c (baseUrl c +:+ endpoint) method (buildHeaders c) data).

Lemma turn_rejected c method endpoint data attempt rest last w name message :
  net (fetches w) = Rejected name message ->
  retry c (attempt_of c method endpoint data) (attempt :: rest) last w
  = retry c (attempt_of c method endpoint data) rest
      (Some (transport_error c name message))
      (backoff c attempt (w ++ [sent c method endpoint data])).
Proof.
  intros Hn. apply retry_fail.
  - now apply tryRequest_rejected.
  - apply network_retryable, transport_error_network.
Qed.

Lemma turn_success c method endpoint data attempt rest last w status hs body :
  net (fetches w) = Resolved status hs body ->
  (200 <= status < 300)%Z ->
  retry c (attempt_of c method endpoint data) (attempt :: rest) last w
  = (Return (Response.mk status hs body), w ++ [sent c method endpoint data]).
Proof.
  intros Hn Hs. apply retry_return.
  rewrite (tryRequest_resolved _ _ _ _ _ _ _ _ Hn). unfold handleResponse.
  unfold Response.isSuccess. simpl.
  destruct (Z.leb_spec 200 status); [| lia].
  destruct (Z.ltb_spec status 300); [reflexivity | lia].
Qed.

Lemma turn_unauthorized c method endpoint data attempt rest last w hs body :
  net (fetches w) = Resolved 401 hs body ->
  retry c (attempt_of c method endpoint data) (attempt :: rest) last w
  = (Throw AuthenticationErrors.unauthorized, w ++ [sent c method endpoint data]).
Proof.
  intros Hn. apply retry_stop; [| reflexivity].
  now rewrite (tryRequest_resolved _ _ _ _ _ _ _ _ Hn).
Qed.

Lemma handleResponse_error status hs body :
  (status < 200 \/ 300 <= status)%Z -> status <> 401%Z ->
  handleResponse (Response.mk status hs body)
  = Throw (remote_error status hs body).
Proof.
  intros Hs H401. rewrite handleResponse_unfold.
  replace ((200 <=? status)%Z && (status <? 300)%Z) with false.
  - now destruct (Z.eqb_spec status 401).
  - symmetry. apply andb_false_iff.
    destruct Hs; [left; now apply Z.leb_gt | right; now apply Z.ltb_ge].
Qed.

(** A client error whose [ApiError] can be built stops the loop. *)
Lemma turn_client_error c method endpoint data attempt rest last w status hs body e :
  net (fetches w) = Resolved status hs body ->
  (400 <= status < 500)%Z -> status <> 401%Z ->
  ApiErrors.fromResponse status (parsed status hs body) = Return e ->
  retry c (attempt_of c method endpoint data) (attempt :: rest) last w
  = (Throw e, w ++ [sent c method endpoint data]).
Proof.
  intros Hn Hs H401 He. apply retry_stop.
  - rewrite (tryRequest_resolved _ _ _ _ _ _ _ _ Hn).
    rewrite handleResponse_error; [| lia | assumption].
    unfold remote_error. now rewrite He.
  - destruct (fromResponse_cases status (parsed status hs body)) as [[m E] | [m E]];
      rewrite E in He; [| discriminate]. injection He as <-.
    unfold retryable. simpl.
    destruct (Z.leb_spec 400 status); [| lia].
    destruct (Z.ltb_spec status 500); [reflexivity | lia].
Qed.

(** A response whose [ApiError] cannot be built is recorded and the loop
    goes on, whatever the status. *)
Lemma turn_conversion_error c method endpoint data attempt rest last w status hs body e :
  net (fetches w) = Resolved status hs body ->
  (status < 200 \/ 300 <= status)%Z -> status <> 401%Z ->
  ApiErrors.fromResponse status (parsed status hs body) = Throw e ->
  retry c (attempt_of c method endpoint data) (attempt :: rest) last w
  = retry c (attempt_of c method endpoint data) rest (Some e)
      (backoff c attempt (w ++ [sent c method endpoint data])).
Proof.
  intros Hn Hs H401 He. apply retry_fail.
  - rewrite (tryRequest_resolved _ _ _ _ _ _ _ _ Hn).
    rewrite handleResponse_error; [| assumption | assumption].
    unfold remote_error. now rewrite He.
  - destruct (fromResponse_cases status (parsed status hs body)) as [[m E] | [m E]];
      rewrite E in He; [discriminate |]. now injection He as <-.
Qed.

Lemma turn_server_error c method endpoint data attempt rest last w status hs body :
  net (fetches w) = Resolved status hs body ->
  (500 <= status)%Z ->
  retry c (attempt_of c method endpoint data) (attempt :: rest) last w
  = retry c (attempt_of c method endpoint data) rest
      (Some (remote_error status hs body))
      (backoff c attempt (w ++ [sent c method endpoint data])).
Proof.
  intros Hn Hs. apply retry_fail.
  - rewrite (tryRequest_resolved _ _ _ _ _ _ _ _ Hn).
    rewrite handleResponse_error; [reflexivity | lia | lia].
  - destruct (remote_error_cases status hs body) as [(m & _ & ->) | (m & _ & ->)];
      [| reflexivity].
    unfold retryable. simpl.
    destruct (Z.ltb_spec status 500); [lia |]. now rewrite andb_false_r.
Qed.

Lemma retry_nil c action last w :
  retry c action [] last w = (exhausted last, w).
Proof. reflexivity. Qed.

End Pipeline.

(** C1.  With [retryAttempts = 3]: when the first two attempts fail in
    transport and the third succeeds, the pipeline makes three requests
    separated by waits of 1000 ms and 2000 ms and returns the successful
    envelope.  When the first attempt answers 401, it raises the
    [AuthenticationError] after that single request, without waiting.  When
    it answers 400 and the [ApiError] of the response can be built, it
    raises that client error in the same way.  When the three attempts
    answer 500, it raises after three requests and the same two waits, and
    what it raises is the [ApiError] of the third response when that can be
    built.  But a 400 whose message cannot be converted to a string is
    retried like a failure of the transport: when the three attempts
    answer so, the pipeline makes three requests and two waits, and raises
    the connection-failed [NetworkError] that wraps the [TypeError]. *)
Theorem C1_retry_policy (R : Runtime) (net : network) (c : HttpClient.t)
    (method endpoint : string) (data : option json) (w : world) :
  let f := PipelineSpec.sent c method endpoint data in
  (forall n1 m1 n2 m2 status hs body,
     HttpClient.retryAttempts c = 3%Z ->
     net (fetches w) = Rejected n1 m1 ->
     net (S (fetches w)) = Rejected n2 m2 ->
     net (S (S (fetches w))) = Resolved status hs body ->
     (200 <= status < 300)%Z ->
     HttpClient.request net c method endpoint data w
     = (Return (Response.mk status hs body),
        w ++ [f; Sleep 1000; f; Sleep 2000; f])) /\
  (forall hs body,
     (1 <= HttpClient.retryAttempts c)%Z ->
     net (fetches w) = Resolved 401 hs body ->
     HttpClient.request net c method endpoint data w
     = (Throw (AuthenticationError
                 "Authentification échouée. Vous n'êtes pas autorisé à accéder à cette ressource."),
        w ++ [f])) /\
  (forall hs body e,
     (1 <= HttpClient.retryAttempts c)%Z ->
     net (fetches w) = Resolved 400 hs body ->
     ApiErrors.fromResponse 400 (PipelineSpec.parsed 400 hs body) = Return e ->
     HttpClient.request net c method endpoint data w = (Throw e, w ++ [f]) /\
     (exists m, e = ApiError m 400 (PipelineSpec.parsed 400 hs body)) /\
     isApiError e = true /\ ApiErrors.isClientError e = true) /\
  (forall hs1 body1 hs2 body2 hs3 body3,
     HttpClient.retryAttempts c = 3%Z ->
     net (fetches w) = Resolved 500 hs1 body1 ->
     net (S (fetches w)) = Resolved 500 hs2 body2 ->
     net (S (S (fetches w))) = Resolved 500 hs3 body3 ->
     (exists e,
        HttpClient.request net c method endpoint data w
        = (Throw e, w ++ [f; Sleep 1000; f; Sleep 2000; f])) /\
     (forall e,
        ApiErrors.fromResponse 500 (PipelineSpec.parsed 500 hs3 body3) = Return e ->
        HttpClient.request net c method endpoint data w
        = (Throw e, w ++ [f; Sleep 1000; f; Sleep 2000; f]) /\
        (exists m, e = ApiError m 500 (PipelineSpec.parsed 500 hs3 body3)) /\
        isApiError e = true /\ ApiErrors.isServerError e = true)) /\
  (forall hs1 body1 e1 hs2 body2 e2 hs3 body3 e3,
     HttpClient.retryAttempts c = 3%Z ->
     net (fetches w) = Resolved 400 hs1 body1 ->
     net (S (fetches w)) = Resolved 400 hs2 body2 ->
     net (S (S (fetches w))) = Resolved 400 hs3 body3 ->
     ApiErrors.fromResponse 400 (PipelineSpec.parsed 400 hs1 body1) = Throw e1 ->
     ApiErrors.fromResponse 400 (PipelineSpec.parsed 400 hs2 body2) = Throw e2 ->
     ApiErrors.fromResponse 400 (PipelineSpec.parsed 400 hs3 body3) = Throw e3 ->
     HttpClient.request net c method endpoint data w
     = (Throw (NetworkError
                 "Impossible de se connecter au serveur FNE. Veuillez vérifier votre connexion internet."
                 (Some e3)),
        w ++ [f; Sleep 1000; f; Sleep 2000; f])).
Proof.
  cbv zeta. split; [| split; [| split; [| split]]].
  - intros n1 m1 n2 m2 status hs body H3 Hn1 Hn2 Hn3 Hs.
    unfold HttpClient.request. rewrite H3. change (seqZ 1 3) with [1; 2; 3]%Z.
    rewrite (turn_rejected net _ _ _ _ _ _ _ _ _ _ Hn1).
    unfold PipelineSpec.backoff at 1. rewrite H3.
    change (1 <? 3)%Z with true. change (2 ^ (1 - 1) * 1000)%Z with 1000%Z. cbv iota.
    rewrite <- fetches_fetch with (url := (HttpClient.baseUrl c +:+ endpoint))
      (method := method) (headers := HttpClient.buildHeaders c)
      (body := PipelineSpec.sent_body method data) in Hn2, Hn3.
    rewrite <- (fetches_sleep _ 1000) in Hn2, Hn3.
    rewrite (turn_rejected net _ _ _ _ _ _ _ _ _ _ Hn2).
    unfold PipelineSpec.backoff at 1. rewrite H3.
    change (2 <? 3)%Z with true. change (2 ^ (2 - 1) * 1000)%Z with 2000%Z. cbv iota.
    rewrite <- fetches_fetch with (url := (HttpClient.baseUrl c +:+ endpoint))
      (method := method) (headers := HttpClient.buildHeaders c)
      (body := PipelineSpec.sent_body method data) in Hn3.
    rewrite <- (fetches_sleep _ 2000) in Hn3.
    rewrite (turn_success net _ _ _ _ _ _ _ _ _ _ _ Hn3 Hs).
    unfold PipelineSpec.sent. now rewrite <- !app_assoc.
  - intros hs body H1 Hn. unfold HttpClient.request.
    rewrite seqZ_cons by lia.
    now rewrite (turn_unauthorized net _ _ _ _ _ _ _ _ _ _ Hn).
  - intros hs body e H1 Hn He. split.
    + unfold HttpClient.request. rewrite seqZ_cons by lia.
      rewrite (turn_client_error net _ _ _ _ _ _ _ _ _ _ _ e Hn);
        [reflexivity | lia | lia | exact He].
    + destruct (fromResponse_cases 400 (PipelineSpec.parsed 400 hs body))
        as [[m E] | [m E]]; rewrite E in He; [| discriminate].
      injection He as <-. split; [now exists m | split; reflexivity].
  - intros hs1 body1 hs2 body2 hs3 body3 H3 Hn1 Hn2 Hn3.
    assert (Hreq : HttpClient.request net c method endpoint data w
                   = (Throw (PipelineSpec.raised_at_exhaustion
                               (Some (PipelineSpec.remote_error 500 hs3 body3))),
                      w ++ [PipelineSpec.sent c method endpoint data; Sleep 1000;
                            PipelineSpec.sent c method endpoint data; Sleep 2000;
                            PipelineSpec.sent c method endpoint data])).
    { unfold HttpClient.request. rewrite H3. change (seqZ 1 3) with [1; 2; 3]%Z.
      rewrite (turn_server_error net _ _ _ _ _ _ _ _ _ _ _ Hn1) by lia.
      unfold PipelineSpec.backoff at 1. rewrite H3.
      change (1 <? 3)%Z with true. change (2 ^ (1 - 1) * 1000)%Z with 1000%Z. cbv iota.
      rewrite <- fetches_fetch with (url := (HttpClient.baseUrl c +:+ endpoint))
        (method := method) (headers := HttpClient.buildHeaders c)
        (body := PipelineSpec.sent_body method data) in Hn2, Hn3.
      rewrite <- (fetches_sleep _ 1000) in Hn2, Hn3.
      rewrite (turn_server_error net _ _ _ _ _ _ _ _ _ _ _ Hn2) by lia.
      unfold PipelineSpec.backoff at 1. rewrite H3.
      change (2 <? 3)%Z with true. change (2 ^ (2 - 1) * 1000)%Z with 2000%Z. cbv iota.
      rewrite <- fetches_fetch with (url := (HttpClient.baseUrl c +:+ endpoint))
        (method := method) (headers := HttpClient.buildHeaders c)
        (body := PipelineSpec.sent_body method data) in Hn3.
      rewrite <- (fetches_sleep _ 2000) in Hn3.
      rewrite (turn_server_error net _ _ _ _ _ _ _ _ _ _ _ Hn3) by lia.
      unfold PipelineSpec.backoff at 1. rewrite H3.
      change (3 <? 3)%Z with false. cbv iota.
      rewrite retry_nil. unfold PipelineSpec.sent. rewrite <- !app_assoc.
      simpl. unfold HttpClient.exhausted, PipelineSpec.classified.
      now destruct (isNetworkError _ || isApiError _). }
    split; [eexists; exact Hreq |].
    intros e He. rewrite Hreq. unfold PipelineSpec.remote_error. rewrite He.
    destruct (fromResponse_cases 500 (PipelineSpec.parsed 500 hs3 body3))
      as [[m E] | [m E]]; rewrite E in He; [| discriminate].
    injection He as <-. split; [reflexivity |].
    split; [now exists m | split; reflexivity].
  - intros hs1 body1 e1 hs2 body2 e2 hs3 body3 e3 H3 Hn1 Hn2 Hn3 He1 He2 He3.
    assert (Hm : exists m, e3 = Error m).
    { destruct (fromResponse_cases 400 (PipelineSpec.parsed 400 hs3 body3))
        as [[m E] | [m E]]; rewrite E in He3; [discriminate |].
      injection He3 as <-. now exists m. }
    destruct Hm as [m ->].
    unfold HttpClient.request. rewrite H3. change (seqZ 1 3) with [1; 2; 3]%Z.
    rewrite (turn_conversion_error net _ _ _ _ _ _ _ _ _ _ _ _ Hn1 ltac:(lia) ltac:(lia) He1).
    unfold PipelineSpec.backoff at 1. rewrite H3.
    change (1 <? 3)%Z with true. change (2 ^ (1 - 1) * 1000)%Z with 1000%Z. cbv iota.
    rewrite <- fetches_fetch with (url := (HttpClient.baseUrl c +:+ endpoint))
      (method := method) (headers := HttpClient.buildHeaders c)
      (body := PipelineSpec.sent_body method data) in Hn2, Hn3.
    rewrite <- (fetches_sleep _ 1000) in Hn2, Hn3.
    rewrite (turn_conversion_error net _ _ _ _ _ _ _ _ _ _ _ _ Hn2 ltac:(lia) ltac:(lia) He2).
    unfold PipelineSpec.backoff at 1. rewrite H3.
    change (2 <? 3)%Z with true. change (2 ^ (2 - 1) * 1000)%Z with 2000%Z. cbv iota.
    rewrite <- fetches_fetch with (url := (HttpClient.baseUrl c +:+ endpoint))
      (method := method) (headers := HttpClient.buildHeaders c)
      (body := PipelineSpec.sent_body method data) in Hn3.
    rewrite <- (fetches_sleep _ 2000) in Hn3.
    rewrite (turn_conversion_error net _ _ _ _ _ _ _ _ _ _ _ _ Hn3 ltac:(lia) ltac:(lia) He3).
    unfold PipelineSpec.backoff at 1. rewrite H3.
    change (3 <? 3)%Z with false. cbv iota.
    rewrite retry_nil. unfold PipelineSpec.sent. now rewrite <- !app_assoc.
Qed.

Lemma C1_retry_policy_witness :
  HttpClient.request (R := PipelineSpec.no_json)
    (PipelineSpec.scripted
       [Rejected "TypeError" "fetch failed"; Rejected "AbortError" "aborted";
        Resolved 200 [] "{}"])
    PipelineSpec.client3 "POST" ENDPOINT_SIGN_INVOICE None []
  = (Return (Response.mk 200 [] "{}"),
     [PipelineSpec.sent PipelineSpec.client3 "POST" ENDPOINT_SIGN_INVOICE None;
      Sleep 1000;
      PipelineSpec.sent PipelineSpec.client3 "POST" ENDPOINT_SIGN_INVOICE None;
      Sleep 2000;
      PipelineSpec.sent PipelineSpec.client3 "POST" ENDPOINT_SIGN_INVOICE None]) /\
  HttpClient.request (R := PipelineSpec.no_json) (PipelineSpec.always 401)
    PipelineSpec.client3 "POST" ENDPOINT_SIGN_INVOICE None []
  = (Throw (AuthenticationError
              "Authentification échouée. Vous n'êtes pas autorisé à accéder à cette ressource."),
     [PipelineSpec.sent PipelineSpec.client3 "POST" ENDPOINT_SIGN_INVOICE None]) /\
  HttpClient.request (R := PipelineSpec.no_json) (PipelineSpec.always 400)
    PipelineSpec.client3 "POST" ENDPOINT_SIGN_INVOICE None []
  = (Throw (ApiError "Erreur API: 400" 400 None),
     [PipelineSpec.sent PipelineSpec.client3 "POST" ENDPOINT_SIGN_INVOICE None]) /\
  HttpClient.request (R := PipelineSpec.no_json) (PipelineSpec.always 500)
    PipelineSpec.client3 "POST" ENDPOINT_SIGN_INVOICE None []
  = (Throw (ApiError "Erreur API: 500" 500 None),
     [PipelineSpec.sent PipelineSpec.client3 "POST" ENDPOINT_SIGN_INVOICE None;
      Sleep 1000;
      PipelineSpec.sent PipelineSpec.client3 "POST" ENDPOINT_SIGN_INVOICE None;
      Sleep 2000;
      PipelineSpec.sent PipelineSpec.client3 "POST" ENDPOINT_SIGN_INVOICE None]) /\
  HttpClient.request (R := PipelineSpec.toxic)
    (fun _ => Resolved 400 [] PipelineSpec.toxic_body)
    PipelineSpec.client3 "POST" ENDPOINT_SIGN_INVOICE None []
  = (Throw (NetworkError
              "Impossible de se connecter au serveur FNE. Veuillez vérifier votre connexion internet."
              (Some (Error "Cannot convert object to primitive value"))),
     [PipelineSpec.sent PipelineSpec.client3 "POST" ENDPOINT_SIGN_INVOICE None;
      Sleep 1000;
      PipelineSpec.sent PipelineSpec.client3 "POST" ENDPOINT_SIGN_INVOICE None;
      Sleep 2000;
      PipelineSpec.sent PipelineSpec.client3 "POST" ENDPOINT_SIGN_INVOICE None]).
Proof.
  split; [| split; [| split; [| split]]].
  - destruct (C1_retry_policy PipelineSpec.no_json
                (PipelineSpec.scripted
                   [Rejected "TypeError" "fetch failed";
                    Rejected "AbortError" "aborted"; Resolved 200 [] "{}"])
                PipelineSpec.client3 "POST" ENDPOINT_SIGN_INVOICE None [])
      as (Hretry & _).
    apply (Hretry "TypeError" "fetch failed" "AbortError" "aborted" 200%Z [] "{}");
      [reflexivity | reflexivity | reflexivity | reflexivity | lia].
  - destruct (C1_retry_policy PipelineSpec.no_json (PipelineSpec.always 401)
                PipelineSpec.client3 "POST" ENDPOINT_SIGN_INVOICE None [])
      as (_ & H401 & _).
    apply (H401 [] ""); [simpl; lia | reflexivity].
  - destruct (C1_retry_policy PipelineSpec.no_json (PipelineSpec.always 400)
                PipelineSpec.client3 "POST" ENDPOINT_SIGN_INVOICE None [])
      as (_ & _ & H400 & _).
    destruct (H400 [] "" (ApiError "Erreur API: 400" 400 None)
                ltac:(simpl; lia) eq_refl eq_refl) as (E & _).
    exact E.
  - destruct (C1_retry_policy PipelineSpec.no_json (PipelineSpec.always 500)
                PipelineSpec.client3 "POST" ENDPOINT_SIGN_INVOICE None [])
      as (_ & _ & _ & H500 & _).
    destruct (H500 [] "" [] "" [] "" eq_refl eq_refl eq_refl eq_refl) as (_ & Hbuilt).
    destruct (Hbuilt (ApiError "Erreur API: 500" 500 None) eq_refl) as (E & _).
    exact E.
  - destruct (C1_retry_policy PipelineSpec.toxic
                (fun _ => Resolved 400 [] PipelineSpec.toxic_body)
                PipelineSpec.client3 "POST" ENDPOINT_SIGN_INVOICE None [])
      as (_ & _ & _ & _ & Htoxic).
    apply (Htoxic [] PipelineSpec.toxic_body
             (Error "Cannot convert object to primitive value")
             [] PipelineSpec.toxic_body
             (Error "Cannot convert object to primitive value")
             [] PipelineSpec.toxic_body
             (Error "Cannot convert object to primitive value"));
      reflexivity.
Defined.

(** C9.  When every attempt of the loop has failed with an error that is
    retried, so that the attempts are exhausted, the pipeline raises the
    last error recorded if it is a [NetworkError] or an [ApiError]; if it is
    an error of another kind, it raises a [NetworkError] with the
    connection-failed message that wraps it, and if no error was recorded,
    the same [NetworkError] without a cause.  In [request], where an
    attempt is [executeRequest] followed by [handleResponse], an error has
    been recorded, and it is of the first kind or it is the [TypeError] met
    while building the [ApiError] of a response. *)
Theorem C9_exhausted_attempts :
  (forall (c : HttpClient.t) (action : IO Response.t) (w : world)
          (last : option error) (w' : world),
     PipelineSpec.exhausts c action (seqZ 1 (HttpClient.retryAttempts c)) None w last w' ->
     (forall e, last = Some e -> PipelineSpec.classified e = true ->
                HttpClient.retry c action (seqZ 1 (HttpClient.retryAttempts c)) None w
                = (Throw e, w')) /\
     (forall e, last = Some e -> PipelineSpec.classified e = false ->
                HttpClient.retry c action (seqZ 1 (HttpClient.retryAttempts c)) None w
                = (Throw (NetworkError
                            "Impossible de se connecter au serveur FNE. Veuillez vérifier votre connexion internet."
                            (Some e)), w')) /\
     (last = None ->
      HttpClient.retry c action (seqZ 1 (HttpClient.retryAttempts c)) None w
      = (Throw (NetworkError
                  "Impossible de se connecter au serveur FNE. Veuillez vérifier votre connexion internet."
                  None), w'))) /\
  (forall (R : Runtime) (net : network) (c : HttpClient.t)
          (method endpoint : string) (data : option json) (w : world)
          (last : option error) (w' : world),
     (1 <= HttpClient.retryAttempts c)%Z ->
     PipelineSpec.exhausts c
       (HttpClient.tryRequest net c (HttpClient.baseUrl c +:+ endpoint) method
          (HttpClient.buildHeaders c) data)
       (seqZ 1 (HttpClient.retryAttempts c)) None w last w' ->
     exists e,
       last = Some e /\
       ((PipelineSpec.classified e = true /\
         HttpClient.request net c method endpoint data w = (Throw e, w')) \/
        (PipelineSpec.classified e = false /\
         (exists status hs body m,
            ApiErrors.fromResponse status (PipelineSpec.parsed status hs body)
            = Throw (Error m) /\ e = Error m) /\
         HttpClient.request net c method endpoint data w
         = (Throw (NetworkError
                     "Impossible de se connecter au serveur FNE. Veuillez vérifier votre connexion internet."
                     (Some e)), w')))).
Proof.
  split.
  - intros c action w last w' Hx. apply retry_exhausts in Hx. rewrite Hx.
    unfold PipelineSpec.raised_at_exhaustion. repeat split.
    + intros e -> He. now rewrite He.
    + intros e -> He. now rewrite He.
    + now intros ->.
  - intros R net c method endpoint data w last w' H1 Hx.
    destruct (exhausts_last
                (fun e => PipelineSpec.classified e = true \/
                          (PipelineSpec.classified e = false /\
                           exists status hs body m,
                             ApiErrors.fromResponse status
                               (PipelineSpec.parsed status hs body)
                             = Throw (Error m) /\ e = Error m))
                _ _ _ _ _ _ _ Hx) as (e & -> & He).
    + intros w0 e w1. apply tryRequest_retried.
    + left. rewrite seqZ_cons by lia. discriminate.
    + exists e. split; [reflexivity |].
      unfold HttpClient.request. rewrite (retry_exhausts _ _ _ _ _ _ _ Hx).
      unfold PipelineSpec.raised_at_exhaustion.
      destruct He as [He | (He & Hm)]; rewrite He; [now left | right].
      repeat split; assumption.
Qed.

Lemma C9_exhausted_attempts_witness :
  HttpClient.retry PipelineSpec.client3 (PipelineSpec.failing (Error "boom"))
    (seqZ 1 (HttpClient.retryAttempts PipelineSpec.client3)) None []
  = (Throw (NetworkError
              "Impossible de se connecter au serveur FNE. Veuillez vérifier votre connexion internet."
              (Some (Error "boom"))),
     [Sleep 1000; Sleep 2000]) /\
  HttpClient.retry PipelineSpec.client3
    (PipelineSpec.failing NetworkErrors.connectionReset)
    (seqZ 1 (HttpClient.retryAttempts PipelineSpec.client3)) None []
  = (Throw NetworkErrors.connectionReset, [Sleep 1000; Sleep 2000]) /\
  HttpClient.retry PipelineSpec.client3 (PipelineSpec.failing (Error "boom"))
    (seqZ 1 (HttpClient.retryAttempts
               (HttpClient.mk "http://54.247.95.108/ws" None 30000 0))) None []
  = (Throw (NetworkError
              "Impossible de se connecter au serveur FNE. Veuillez vérifier votre connexion internet."
              None),
     []) /\
  (exists e,
     HttpClient.request (R := PipelineSpec.no_json) (PipelineSpec.always 503)
       PipelineSpec.client3 "GET" "/x" None []
     = (Throw e,
        [PipelineSpec.sent PipelineSpec.client3 "GET" "/x" None; Sleep 1000;
         PipelineSpec.sent PipelineSpec.client3 "GET" "/x" None; Sleep 2000;
         PipelineSpec.sent PipelineSpec.client3 "GET" "/x" None])
     /\ e = ApiError "Erreur API: 503" 503 None) /\
  HttpClient.request (R := PipelineSpec.toxic)
    (fun _ => Resolved 502 [] PipelineSpec.toxic_body)
    PipelineSpec.client3 "GET" "/x" None []
  = (Throw (NetworkError
              "Impossible de se connecter au serveur FNE. Veuillez vérifier votre connexion internet."
              (Some (Error "Cannot convert object to primitive value"))),
     [PipelineSpec.sent PipelineSpec.client3 "GET" "/x" None; Sleep 1000;
      PipelineSpec.sent PipelineSpec.client3 "GET" "/x" None; Sleep 2000;
      PipelineSpec.sent PipelineSpec.client3 "GET" "/x" None]).
Proof.
  destruct C9_exhausted_attempts as (Hloop & Hrequest).
  split; [| split; [| split; [| split]]].
  - assert (Hx : PipelineSpec.exhausts PipelineSpec.client3
                   (PipelineSpec.failing (Error "boom"))
                   (seqZ 1 (HttpClient.retryAttempts PipelineSpec.client3)) None []
                   (Some (Error "boom")) [Sleep 1000; Sleep 2000]).
    { change (seqZ 1 (HttpClient.retryAttempts PipelineSpec.client3))
        with [1; 2; 3]%Z.
      repeat (eapply PipelineSpec.exhausts_fail; [reflexivity | reflexivity |]).
      apply PipelineSpec.exhausts_done. }
    destruct (Hloop _ _ _ _ _ Hx) as (_ & Hwrap & _).
    apply (Hwrap (Error "boom")); reflexivity.
  - assert (Hx : PipelineSpec.exhausts PipelineSpec.client3
                   (PipelineSpec.failing NetworkErrors.connectionReset)
                   (seqZ 1 (HttpClient.retryAttempts PipelineSpec.client3)) None []
                   (Some NetworkErrors.connectionReset) [Sleep 1000; Sleep 2000]).
    { change (seqZ 1 (HttpClient.retryAttempts PipelineSpec.client3))
        with [1; 2; 3]%Z.
      repeat (eapply PipelineSpec.exhausts_fail; [reflexivity | reflexivity |]).
      apply PipelineSpec.exhausts_done. }
    destruct (Hloop _ _ _ _ _ Hx) as (Hlast & _ & _).
    apply (Hlast NetworkErrors.connectionReset); reflexivity.
  - destruct (Hloop (HttpClient.mk "http://54.247.95.108/ws" None 30000 0)
                (PipelineSpec.failing (Error "boom")) [] None []
                (PipelineSpec.exhausts_done _ _ _ _)) as (_ & _ & Hnone).
    apply Hnone. reflexivity.
  - assert (Hx : PipelineSpec.exhausts PipelineSpec.client3
                   (HttpClient.tryRequest (R := PipelineSpec.no_json)
                      (PipelineSpec.always 503) PipelineSpec.client3
                      (HttpClient.baseUrl PipelineSpec.client3 +:+ "/x") "GET"
                      (HttpClient.buildHeaders PipelineSpec.client3) None)
                   (seqZ 1 (HttpClient.retryAttempts PipelineSpec.client3)) None []
                   (Some (ApiError "Erreur API: 503" 503 None))
                   [PipelineSpec.sent PipelineSpec.client3 "GET" "/x" None; Sleep 1000;
                    PipelineSpec.sent PipelineSpec.client3 "GET" "/x" None; Sleep 2000;
                    PipelineSpec.sent PipelineSpec.client3 "GET" "/x" None]).
    { change (seqZ 1 (HttpClient.retryAttempts PipelineSpec.client3))
        with [1; 2; 3]%Z.
      repeat (eapply PipelineSpec.exhausts_fail; [reflexivity | reflexivity |]).
      apply PipelineSpec.exhausts_done. }
    destruct (Hrequest PipelineSpec.no_json (PipelineSpec.always 503)
                PipelineSpec.client3 "GET" "/x" None [] _ _
                ltac:(simpl; lia) Hx) as (e & E & [(_ & Hr) | (Hc & _)]).
    + injection E as <-. exists (ApiError "Erreur API: 503" 503 None).
      split; [exact Hr | reflexivity].
    + injection E as <-. discriminate Hc.
  - assert (Hx : PipelineSpec.exhausts PipelineSpec.client3
                   (HttpClient.tryRequest (R := PipelineSpec.toxic)
                      (fun _ => Resolved 502 [] PipelineSpec.toxic_body)
                      PipelineSpec.client3
                      (HttpClient.baseUrl PipelineSpec.client3 +:+ "/x") "GET"
                      (HttpClient.buildHeaders PipelineSpec.client3) None)
                   (seqZ 1 (HttpClient.retryAttempts PipelineSpec.client3)) None []
                   (Some (Error "Cannot convert object to primitive value"))
                   [PipelineSpec.sent PipelineSpec.client3 "GET" "/x" None; Sleep 1000;
                    PipelineSpec.sent PipelineSpec.client3 "GET" "/x" None; Sleep 2000;
                    PipelineSpec.sent PipelineSpec.client3 "GET" "/x" None]).
    { change (seqZ 1 (HttpClient.retryAttempts PipelineSpec.client3))
        with [1; 2; 3]%Z.
      repeat (eapply PipelineSpec.exhausts_fail; [reflexivity | reflexivity |]).
      apply PipelineSpec.exhausts_done. }
    destruct (Hrequest PipelineSpec.toxic
                (fun _ => Resolved 502 [] PipelineSpec.toxic_body)
                PipelineSpec.client3 "GET" "/x" None [] _ _
                ltac:(simpl; lia) Hx) as (e & E & [(Hc & _) | (_ & _ & Hr)]).
    + injection E as <-. discriminate Hc.
    + injection E as <-. exact Hr.
Defined.

(** C8.  [signInvoice] validates before it sends: when [validate] raises,
    the same error is raised by [signInvoice] (a [ValidationError] with the
    error set of the document) and the world is left as it was, without
    any request; so whenever [signInvoice] has made a request, [validate]
    had returned normally. *)
Theorem C8_fail_fast (R : Runtime) (net : network) (svc : InvoiceService.t)
    (invoice : Invoice.t) (w : world) :
  let validation := fst (Validator.validate invoice (InvoiceService.validator svc)) in
  let out := InvoiceService.signInvoice net svc invoice w in
  (forall e, validation = Throw e ->
     fst (fst out) = Throw e /\ snd out = w /\ fetches (snd out) = fetches w /\
     exists message,
       e = ValidationError message
             (Validator.errorsOf invoice (InvoiceService.validator svc))) /\
  (snd out <> w -> validation = Return tt).
Proof.
  cbv zeta. unfold InvoiceService.signInvoice.
  pose proof (ValidatorFacts.validate_result invoice (InvoiceService.validator svc)) as Hr.
  fold (Validator.errorsOf invoice (InvoiceService.validator svc)) in Hr.
  destruct (Validator.validate invoice (InvoiceService.validator svc))
    as [[[] | e] v'] eqn:Ev; simpl in *.
  - split; [intros e; discriminate | reflexivity].
  - split.
    + intros e0 E. injection E as <-. repeat split.
      destruct (0 <? length (Obj.keys (Validator.errorsOf invoice
                                          (InvoiceService.validator svc))))%nat;
        [| discriminate].
      injection Hr as ->. eauto.
    + intros Hne. contradiction.
Qed.

Lemma C8_fail_fast_witness :
  snd (InvoiceService.signInvoice (R := PipelineSpec.no_json) (PipelineSpec.always 200)
         (InvoiceService.new PipelineSpec.client3) Samples.no_items [])
  = [].
Proof.
  destruct (C8_fail_fast PipelineSpec.no_json (PipelineSpec.always 200)
              (InvoiceService.new PipelineSpec.client3) Samples.no_items [])
    as (Hfast & _).
  destruct (Hfast (ValidationError "Validation échouée: 1 erreur(s) trouvée(s)"
                     [("items", "La facture doit contenir au moins un article")])
              eq_refl)
    as (_ & Hw & _).
  exact Hw.
Defined.

(** ** The formats of [helpers.ts], in full *)

Section Formats.
Import Regex RegexFacts StrFacts.

Lemma lang_Star_Class (p : ascii -> bool) (w : list ascii) :
  lang (Star (Class p)) w <-> forallb p w = true.
Proof.
  split.
  - intros Hl. remember (Star (Class p)) as r eqn:Er.
    induction Hl as [| | | | | |r0 w1 w2 H1 _ H2 IH2]; try discriminate.
    + reflexivity.
    + injection Er as ->. apply lang_Class in H1 as (c & -> & Hc).
      simpl. rewrite Hc. now apply IH2.
  - induction w as [|c w IH]; intros Hf.
    + constructor.
    + simpl in Hf. apply andb_true_iff in Hf as [Hc Hf].
      change (c :: w) with ([c] ++ w). constructor; [now constructor | now apply IH].
Qed.

Lemma lang_Plus_Class (p : ascii -> bool) (w : list ascii) :
  lang (Plus (Class p)) w <-> w <> [] /\ forallb p w = true.
Proof.
  unfold Plus. rewrite lang_Seq. split.
  - intros (w1 & w2 & -> & H1 & H2). apply lang_Class in H1 as (c & -> & Hc).
    apply lang_Star_Class in H2. simpl. rewrite Hc. now split.
  - intros [Hne Hf]. destruct w as [|c w]; [congruence |].
    simpl in Hf. apply andb_true_iff in Hf as [Hc Hf].
    exists [c], w. repeat split; [now constructor | now apply lang_Star_Class].
Qed.

(** On the characters of a string, [[^\s@]] applied to the SPACE that
    stands for a white-space character, or to a byte, tells whether the
    character is neither white space nor [@]. *)
Lemma forallb_spaced (s : string) (ts : list Str.token) :
  (forall t, In t ts -> In t (Str.tokens s)) ->
  forallb email_atom (List.map Str.spaced ts) = forallb email_char ts.
Proof.
  induction ts as [|t ts IH]; intros Hin; [reflexivity |].
  simpl. rewrite IH by (intros t' Ht'; apply Hin; now right). f_equal.
  destruct t as [a more | a]; [reflexivity |].
  unfold email_atom. simpl.
  now rewrite (TokenFacts.tokens_Byte s a (Hin _ (or_introl eq_refl))).
Qed.

Lemma chars_fold (s : string) :
  Str.chars (Str.fold s) = List.map Str.spaced (Str.tokens s).
Proof. apply chars_of_list. Qed.

(** A word of [[^\s@]+], as a string. *)
Lemma lang_email_part (s : string) (ts : list Str.token) :
  (forall t, In t ts -> In t (Str.tokens s)) ->
  Str.tokens (Str.untokens ts) = ts ->
  lang (Plus (Class email_atom)) (List.map Str.spaced ts)
  <-> email_part (Str.untokens ts).
Proof.
  intros Hin Hts. rewrite lang_Plus_Class, (forallb_spaced s ts Hin).
  unfold email_part. rewrite Hts. split; intros [Hne Hf]; split; trivial.
  - intros E. apply TokenFacts.untokens_empty in E. subst ts. now apply Hne.
  - intros E. apply Hne. destruct ts; [reflexivity | discriminate].
Qed.

Lemma string_of_chars (s : string) : string_of_list_ascii (Str.chars s) = s.
Proof. apply string_of_list_ascii_of_string. Qed.

Lemma string_of_list_app (u v : list ascii) :
  string_of_list_ascii (u ++ v) = string_of_list_ascii u +:+ string_of_list_ascii v.
Proof. induction u as [|c u IH]; simpl; [reflexivity | now rewrite IH]. Qed.

End Formats.

(** X1.  [isValidNcc] accepts exactly the strings made of seven digits
    followed by one capital letter [A]-[Z]. *)
Theorem X1_isValidNcc_format (ncc : string) :
  isValidNcc ncc = true <->
  exists (d : string) (c : ascii),
    ncc = d +:+ String c "" /\ String.length d = 7%nat /\
    Spec.digits d = true /\ Str.is_upper c = true.
Proof.
  unfold isValidNcc, Regex.test, ncc_pattern.
  rewrite RegexFacts.matches_lang, RegexFacts.lang_Seq. split.
  - intros (w1 & w2 & E & H1 & H2).
    apply RegexFacts.lang_Times_Class in H1 as [Hl Hf].
    apply RegexFacts.lang_Class in H2 as (c & -> & Hc).
    exists (string_of_list_ascii w1), c. repeat split.
    + apply StrFacts.chars_inj. now rewrite StrFacts.chars_app, StrFacts.chars_of_list.
    + now rewrite <- StrFacts.length_chars, StrFacts.chars_of_list.
    + unfold Spec.digits. now rewrite <- StrFacts.forallb_chars, StrFacts.chars_of_list.
    + assumption.
  - intros (d & c & -> & Hl & Hf & Hc). exists (Str.chars d), [c]. repeat split.
    + apply StrFacts.chars_app.
    + apply RegexFacts.lang_Times_Class.
      rewrite StrFacts.length_chars, StrFacts.forallb_chars. now split.
    + now constructor.
Qed.

(** X2.  [isValidEmail] accepts exactly the strings [a@b.c] in which [a],
    [b] and [c] are not empty and hold neither white space (that of
    ECMAScript) nor [@]. *)
Theorem X2_isValidEmail_format (email : string) :
  isValidEmail email = true <->
  exists a b c : string,
    email = a +:+ "@" +:+ b +:+ "." +:+ c /\
    email_part a /\ email_part b /\ email_part c.
Proof.
  unfold isValidEmail, Regex.test, email_pattern.
  rewrite RegexFacts.matches_lang, chars_fold. split.
  - intros Hl.
    apply RegexFacts.lang_Seq in Hl as (wa & r1 & E1 & Ha & Hl).
    apply RegexFacts.lang_Seq in Hl as (wat & r2 & -> & Hat & Hl).
    apply RegexFacts.lang_Seq in Hl as (wb & r3 & -> & Hb & Hl).
    apply RegexFacts.lang_Seq in Hl as (wdot & wc & -> & Hdot & Hc).
    apply RegexFacts.lang_Lit in Hat as ->. apply RegexFacts.lang_Lit in Hdot as ->.
    apply map_eq_app in E1 as (ta & t1 & Et & <- & E1).
    destruct t1 as [|tat t1]; [discriminate |]. simpl in E1. injection E1 as Eat E1.
    apply map_eq_app in E1 as (tb & t2 & -> & <- & E2).
    destruct t2 as [|tdot tc]; [discriminate |]. simpl in E2. injection E2 as Edot <-.
    destruct tat as [? ? | x]; [discriminate |]. simpl in Eat. subst x.
    destruct tdot as [? ? | x]; [discriminate |]. simpl in Edot. subst x.
    assert (Hta : Str.tokens (Str.untokens ta) = ta)
      by exact (TokenFacts.tokens_prefix _ _ _ Et).
    assert (Htb : Str.tokens (Str.untokens tb) = tb).
    { apply (TokenFacts.tokens_middle (ta ++ [Str.Byte "@"]) tb
               (Str.Byte "." :: tc) email).
      rewrite Et, <- app_assoc. reflexivity. }
    assert (Htc : Str.tokens (Str.untokens tc) = tc).
    { apply (TokenFacts.tokens_suffix (ta ++ Str.Byte "@" :: tb ++ [Str.Byte "."])
               email).
      rewrite Et, <- app_assoc. simpl. now rewrite <- app_assoc. }
    apply (lang_email_part email) in Ha, Hb, Hc; trivial;
      try (intros t Ht; rewrite Et; repeat (rewrite in_app_iff; simpl); tauto).
    exists (Str.untokens ta), (Str.untokens tb), (Str.untokens tc).
    split; [| split; [assumption | split; assumption]].
    rewrite <- (TokenFacts.untokens_tokens email), Et.
    rewrite TokenFacts.untokens_app. simpl.
    now rewrite TokenFacts.untokens_app.
  - intros (a & b & c & -> & Ha & Hb & Hc).
    change ("@" +:+ b +:+ "." +:+ c) with (String "@" (b +:+ String "." c)).
    rewrite (TokenFacts.tokens_app_ascii a "@") by (vm_compute; lia).
    rewrite (TokenFacts.tokens_ascii "@") by (vm_compute; lia).
    rewrite (TokenFacts.tokens_app_ascii b ".") by (vm_compute; lia).
    rewrite (TokenFacts.tokens_ascii ".") by (vm_compute; lia).
    change (if Str.is_space "@" then Str.Space "@" "" else Str.Byte "@")
      with (Str.Byte "@").
    change (if Str.is_space "." then Str.Space "." "" else Str.Byte ".")
      with (Str.Byte ".").
    assert (Hpart : forall s, email_part s ->
              lang (Plus (Class email_atom)) (List.map Str.spaced (Str.tokens s))).
    { intros s Hs. rewrite <- (TokenFacts.untokens_tokens s) in Hs.
      apply (lang_email_part s) in Hs; [assumption | trivial |].
      now rewrite TokenFacts.untokens_tokens. }
    rewrite map_app. simpl. rewrite map_app. simpl.
    constructor; [now apply Hpart |].
    change (lang (Seq (Lit "@") (Seq (Plus (Class email_atom))
                                   (Seq (Lit ".") (Plus (Class email_atom)))))
              (["@"%char] ++ List.map Str.spaced (Str.tokens b)
                 ++ ["."%char] ++ List.map Str.spaced (Str.tokens c))).
    constructor; [now apply RegexFacts.lang_Lit |].
    constructor; [now apply Hpart |].
    constructor; [now apply RegexFacts.lang_Lit | now apply Hpart].
Qed.

(** X3.  [isValidPhone], in full: with [c] the string without white space,
    dots and dashes, it accepts exactly [+225] followed by 10 digits, [225]
    followed by 10 digits, and the strings of digits that do not start with
    [225] and are 8 to 10 digits long, or 11 digits long with a leading [0]. *)
Theorem X3_isValidPhone_accepts (phone : string) :
  isValidPhone phone = true <->
  (exists d, cleaned phone = "+225" +:+ d /\
             String.length d = 10%nat /\ Spec.digits d = true) \/
  (exists d, cleaned phone = "225" +:+ d /\
             String.length d = 10%nat /\ Spec.digits d = true) \/
  (Str.startsWith (cleaned phone) "225" = false /\
   Spec.digits (cleaned phone) = true /\
   ((8 <= String.length (cleaned phone) <= 10)%nat \/
    (String.length (cleaned phone) = 11%nat /\
     Str.startsWith (cleaned phone) "0" = true))).
Proof.
  rewrite isValidPhone_unfold.
  destruct (Str.startsWith (cleaned phone) "+225") eqn:Hp.
  - unfold phone_plus225. rewrite test_prefix_digits. split; [now left |].
    intros [H | [(d & E & _) | (_ & Hd & _)]]; [exact H | |].
    + rewrite E in Hp. discriminate.
    + apply StrFacts.startsWith_inv in Hp as [d E]. rewrite E in Hd. discriminate.
  - destruct (Str.startsWith (cleaned phone) "225") eqn:Hq.
    + unfold phone_225. rewrite test_prefix_digits.
      split; [intros H; right; now left |].
      intros [(d & E & _) | [H | (Hn & _)]]; [| exact H | discriminate].
      rewrite E in Hp. discriminate.
    + rewrite test_phone_local. split; [intros H; right; right; now split |].
      intros [(d & E & _) | [(d & E & _) | (_ & H)]]; [| | exact H].
      * rewrite E in Hp. discriminate.
      * rewrite E in Hq. discriminate.
Qed.

(** The characters of an accepted number: digits and [+]. *)
Lemma forallb_impl (p q : ascii -> bool) (s : string) :
  (forall a, p a = true -> q a = true) ->
  Str.forallb p s = true -> Str.forallb q s = true.
Proof.
  intros Hpq. induction s as [|a s IH]; [reflexivity |]. simpl. intros H.
  apply andb_true_iff in H as [Ha H]. now rewrite (Hpq a Ha), IH.
Qed.

Lemma forallb_append (p : ascii -> bool) (s t : string) :
  Str.forallb p (s +:+ t) = Str.forallb p s && Str.forallb p t.
Proof.
  rewrite <- !StrFacts.forallb_chars, StrFacts.chars_app. apply forallb_app.
Qed.

Lemma digit_plain (a : ascii) :
  Str.is_digit a || Ascii.eqb a "+" = true ->
  (nat_of_ascii a <? 128)%nat && negb (Str.is_space a) = true /\
  Ascii.eqb a "." || Ascii.eqb a "-" = false.
Proof.
  destruct a as [[] [] [] [] [] [] [] []]; vm_compute;
    intros H; try discriminate H; split; reflexivity.
Qed.

(** Cleaning leaves a string of digits and [+] as it is. *)
Lemma remove_plain (s : string) :
  Str.forallb (fun a => Str.is_digit a || Ascii.eqb a "+") s = true ->
  Str.remove phone_noise s = s.
Proof.
  intros H. unfold Str.remove.
  rewrite (TokenFacts.tokens_plain s)
    by (revert H; apply forallb_impl; intros a Ha; now apply digit_plain).
  rewrite <- (string_of_list_ascii_of_string s) at 2.
  rewrite <- StrFacts.forallb_chars in H. unfold Str.chars in H.
  induction (list_ascii_of_string s) as [|a w IH]; [reflexivity |].
  simpl in H. apply andb_true_iff in H as [Ha H]. simpl.
  destruct (digit_plain a Ha) as [_ ->]. simpl. now rewrite IH.
Qed.

Lemma accepted_plain (phone : string) :
  isValidPhone phone = true ->
  Str.forallb (fun a => Str.is_digit a || Ascii.eqb a "+") (cleaned phone) = true.
Proof.
  rewrite isValidPhone_unfold.
  assert (Hd : forall d, Spec.digits d = true ->
            Str.forallb (fun a => Str.is_digit a || Ascii.eqb a "+") d = true).
  { intros d. apply forallb_impl. now intros a ->. }
  destruct (Str.startsWith (cleaned phone) "+225").
  - intros Ht. apply test_prefix_digits in Ht as (d & -> & _ & Hdig).
    rewrite forallb_append. now rewrite (Hd d Hdig).
  - destruct (Str.startsWith (cleaned phone) "225").
    + intros Ht. apply test_prefix_digits in Ht as (d & -> & _ & Hdig).
      rewrite forallb_append. now rewrite (Hd d Hdig).
    + intros Ht. apply test_phone_local in Ht as [Hdig _]. now apply Hd.
Qed.

(** X4.  [cleanPhoneNumber] returns the string that [isValidPhone]
    examines.  On a number written in ASCII, it leaves no white space, dot
    or dash, cleaning twice is cleaning once, and [isValidPhone] gives the
    same answer on the number and on its cleaned form.  On a number that
    [isValidPhone] accepts, whatever its characters, the cleaned form is
    made of digits and [+] only, is left as it is by a second cleaning and
    is accepted too. *)
Theorem X4_cleanPhoneNumber (phone : string) :
  cleanPhoneNumber phone = cleaned phone /\
  (ascii_only phone = true ->
   ascii_only (cleanPhoneNumber phone) = true /\
   Str.forallb
     (fun a => negb (Str.is_space a || Ascii.eqb a "." || Ascii.eqb a "-"))
     (cleanPhoneNumber phone) = true /\
   cleanPhoneNumber (cleanPhoneNumber phone) = cleanPhoneNumber phone /\
   isValidPhone (cleanPhoneNumber phone) = isValidPhone phone) /\
  (isValidPhone phone = true ->
   Str.forallb (fun a => Str.is_digit a || Ascii.eqb a "+")
     (cleanPhoneNumber phone) = true /\
   cleanPhoneNumber (cleanPhoneNumber phone) = cleanPhoneNumber phone /\
   isValidPhone (cleanPhoneNumber phone) = true).
Proof.
  assert (Hclean : forall s, ascii_only s = true ->
            cleanPhoneNumber s
            = string_of_list_ascii
                (List.filter
                   (fun a => negb (Str.is_space a || Ascii.eqb a "." || Ascii.eqb a "-"))
                   (list_ascii_of_string s))).
  { intros s Hs. unfold cleanPhoneNumber, Str.remove.
    rewrite (TokenFacts.tokens_ascii_only s Hs). clear Hs.
    induction (list_ascii_of_string s) as [|a w IH]; [reflexivity |].
    simpl. destruct (Str.is_space a); simpl; [exact IH |].
    destruct (Ascii.eqb a "." || Ascii.eqb a "-"); simpl; [exact IH |].
    now rewrite IH. }
  assert (Hfilter : forall (p : ascii -> bool) w,
            Str.forallb p (string_of_list_ascii (List.filter p w)) = true).
  { intros p w. induction w as [|a w IH]; [reflexivity |]. simpl.
    destruct (p a) eqn:E; simpl; [now rewrite E | exact IH]. }
  assert (Hascii : forall s, ascii_only s = true ->
            ascii_only (cleanPhoneNumber s) = true).
  { intros s Hs. rewrite (Hclean s Hs). unfold ascii_only in *.
    rewrite <- (string_of_list_ascii_of_string s) in Hs.
    induction (list_ascii_of_string s) as [|a w IH]; [reflexivity |].
    simpl in Hs. apply andb_true_iff in Hs as [Ha Hs]. simpl.
    destruct (negb _); simpl; [rewrite Ha |]; now apply IH. }
  assert (Hidem : forall s, ascii_only s = true ->
            cleanPhoneNumber (cleanPhoneNumber s) = cleanPhoneNumber s).
  { intros s Hs. rewrite (Hclean _ (Hascii s Hs)), (Hclean s Hs).
    rewrite list_ascii_of_string_of_list_ascii. f_equal.
    induction (list_ascii_of_string s) as [|a w IH]; [reflexivity |]. simpl.
    destruct (negb _) eqn:E; simpl; [rewrite E; now f_equal | exact IH]. }
  assert (Hsame : cleanPhoneNumber (cleanPhoneNumber phone) = cleanPhoneNumber phone ->
                  isValidPhone (cleanPhoneNumber phone) = isValidPhone phone).
  { intros E. rewrite !isValidPhone_unfold. unfold cleaned.
    fold (cleanPhoneNumber phone). fold (cleanPhoneNumber (cleanPhoneNumber phone)).
    now rewrite E. }
  split; [reflexivity |]. split.
  - intros Hp. split; [now apply Hascii |]. split; [| split; [now apply Hidem |]].
    + rewrite (Hclean phone Hp). apply Hfilter.
    + apply Hsame. now apply Hidem.
  - intros Hv. pose proof (accepted_plain phone Hv) as Hpl.
    assert (Hi : cleanPhoneNumber (cleanPhoneNumber phone) = cleanPhoneNumber phone)
      by exact (remove_plain _ Hpl).
    split; [exact Hpl |]. split; [exact Hi |]. now rewrite (Hsame Hi).
Qed.

Lemma X4_cleanPhoneNumber_witness :
  (cleanPhoneNumber (cleanPhoneNumber "+225 07.09-12 34 56")
   = cleanPhoneNumber "+225 07.09-12 34 56" /\
   isValidPhone (cleanPhoneNumber "+225 07.09-12 34 56")
   = isValidPhone "+225 07.09-12 34 56") /\
  isValidPhone
    (cleanPhoneNumber ("+225" +:+ String "194" (String "160" "0709123456")))
  = true.
Proof.
  split.
  - destruct (X4_cleanPhoneNumber "+225 07.09-12 34 56") as (_ & Ha & _).
    destruct (Ha eq_refl) as (_ & _ & Hi & Hv). split; [exact Hi | exact Hv].
  - destruct (X4_cleanPhoneNumber
                ("+225" +:+ String "194" (String "160" "0709123456")))
      as (_ & _ & Hv).
    destruct (Hv eq_refl) as (_ & _ & H). exact H.
Defined.
(** ** [trim] *)

Module TrimFacts.
Import StrFacts.

(** The characters that [trim] keeps. *)
Local Abbreviation core ts :=
  (List.rev (Str.dropSpaces (List.rev (Str.dropSpaces ts)))).

Lemma dropSpaces_nil (ts : list Str.token) :
  Str.dropSpaces ts = [] <-> forallb Str.is_Space ts = true.
Proof.
  induction ts as [|[a more | a] ts IH]; simpl; [tauto | exact IH |].
  split; discriminate.
Qed.

Lemma dropSpaces_split (ts : list Str.token) :
  exists p, ts = p ++ Str.dropSpaces ts /\ forallb Str.is_Space p = true.
Proof.
  induction ts as [|[a more | a] ts (p & E & Hp)]; simpl.
  - now exists [].
  - exists (Str.Space a more :: p). simpl. split; [now f_equal | exact Hp].
  - now exists [].
Qed.

Lemma dropSpaces_idem (ts : list Str.token) :
  Str.dropSpaces (Str.dropSpaces ts) = Str.dropSpaces ts.
Proof. induction ts as [|[a more | a] ts IH]; simpl; trivial. Qed.

Lemma dropSpaces_app_Byte (x : list Str.token) (a : ascii) (y : list Str.token) :
  Str.dropSpaces (x ++ Str.Byte a :: y) = Str.dropSpaces x ++ Str.Byte a :: y.
Proof. induction x as [|[b more | b] x IH]; simpl; trivial. Qed.

Lemma forallb_is_Space_rev (ts : list Str.token) :
  forallb Str.is_Space (List.rev ts) = forallb Str.is_Space ts.
Proof.
  induction ts as [|t ts IH]; simpl; [reflexivity |].
  rewrite forallb_app, IH. simpl. rewrite andb_true_r. apply andb_comm.
Qed.

(** What [trim] keeps starts with no white space. *)
Lemma core_head (ts : list Str.token) :
  Str.dropSpaces (core ts) = core ts.
Proof.
  destruct (Str.dropSpaces ts) as [|t d] eqn:Ed; [reflexivity |].
  destruct t as [a more | a].
  - pose proof (dropSpaces_idem ts) as Hi. rewrite Ed in Hi. simpl in Hi.
    assert (Hlen : length (Str.dropSpaces d) <= length d).
    { clear. induction d as [|[a more | a] d IH]; simpl; lia. }
    rewrite Hi in Hlen. simpl in Hlen. lia.
  - change (List.rev (Str.Byte a :: d)) with (List.rev d ++ [Str.Byte a]).
    rewrite dropSpaces_app_Byte, rev_app_distr. reflexivity.
Qed.

Lemma core_idem (ts : list Str.token) : core (core ts) = core ts.
Proof.
  rewrite (core_head ts).
  rewrite (rev_involutive (Str.dropSpaces (List.rev (Str.dropSpaces ts)))).
  now rewrite dropSpaces_idem.
Qed.

Lemma core_nil (ts : list Str.token) :
  core ts = [] <-> forallb Str.is_Space ts = true.
Proof.
  split.
  - intros E. apply (f_equal (@List.rev _)) in E. rewrite rev_involutive in E.
    simpl in E. apply dropSpaces_nil in E. rewrite forallb_is_Space_rev in E.
    destruct (dropSpaces_split ts) as (p & Ep & Hp).
    rewrite Ep, forallb_app, Hp, E. reflexivity.
  - intros H. apply dropSpaces_nil in H. now rewrite H.
Qed.

(** What [trim] keeps is a part of the string. *)
Lemma core_split (ts : list Str.token) :
  exists p q, ts = p ++ core ts ++ q.
Proof.
  destruct (dropSpaces_split ts) as (p & Ep & _).
  destruct (dropSpaces_split (List.rev (Str.dropSpaces ts))) as (q & Eq & _).
  exists p, (List.rev q).
  rewrite <- rev_app_distr, <- Eq, rev_involutive. exact Ep.
Qed.

Lemma tokens_trim (s : string) : Str.tokens (Str.trim s) = core (Str.tokens s).
Proof.
  unfold Str.trim. destruct (core_split (Str.tokens s)) as (p & q & E).
  exact (TokenFacts.tokens_middle p _ q s E).
Qed.

Theorem trim_idem (s : string) : Str.trim (Str.trim s) = Str.trim s.
Proof.
  unfold Str.trim at 1. rewrite tokens_trim, core_idem. reflexivity.
Qed.

(** The trim of a string is empty exactly when the string is white space
    only. *)
Lemma trim_empty (s : string) : Str.trim s = "" <-> Str.all_space s = true.
Proof.
  unfold Str.all_space. rewrite <- core_nil. unfold Str.trim. split.
  - apply TokenFacts.untokens_empty.
  - now intros ->.
Qed.

Lemma blank_spec (s : string) : blank s = Str.all_space s.
Proof.
  unfold blank. rewrite TokenFacts.length_eqb_zero.
  destruct (Str.all_space s) eqn:E.
  - apply trim_empty in E. rewrite E. apply orb_true_r.
  - destruct (String.eqb_spec s "") as [-> | _]; [discriminate |]. simpl.
    destruct (String.eqb_spec (Str.trim s) "") as [Et | _]; [| reflexivity].
    apply trim_empty in Et. congruence.
Qed.

Lemma blank_trim (s : string) : blank s = false -> blank (Str.trim s) = false.
Proof.
  rewrite !blank_spec. intros H.
  destruct (Str.all_space (Str.trim s)) eqn:E; [| reflexivity].
  apply trim_empty in E. rewrite trim_idem in E. apply trim_empty in E.
  congruence.
Qed.

(** A string without white space at its ends is its own trim. *)
Lemma trim_plain (s : string) :
  Str.forallb (fun a => (nat_of_ascii a <? 128)%nat && negb (Str.is_space a)) s = true ->
  Str.trim s = s.
Proof.
  intros H. unfold Str.trim. rewrite (TokenFacts.tokens_plain s H).
  assert (Hd : forall w, Str.dropSpaces (List.map Str.Byte w) = List.map Str.Byte w)
    by (now intros [|a w]).
  rewrite Hd, <- map_rev, Hd, map_rev, rev_involutive.
  rewrite TokenFacts.untokens_bytes. apply string_of_list_ascii_of_string.
Qed.

End TrimFacts.

(** U+00A0 and U+2003 are white space as SPACE is. *)
Example blank_samples :
  blank "" = true /\ blank "  " = true /\
  blank (String "194" (String "160" (String "194" (String "160" "")))) = true /\
  blank " a " = false /\
  Str.trim (String "194" (String "160" " DTD")
            +:+ String "226" (String "128" (String "131" ""))) = "DTD" /\
  Str.trim ("a" +:+ String "194" (String "160" "b"))
  = "a" +:+ String "194" (String "160" "b").
Proof. repeat split. Qed.

(** ** Blank values *)

Lemma validateRequired_spec (field : string) (value fieldName : option string)
    (st : Validator.state) :
  let missing :=
    match value with
    | None => true
    | Some s => Str.all_space s
    end in
  Validator.validateRequired field value fieldName st =
  if missing then
    (false,
     snd (Validator.addError field
            ("Le champ " +:+ default field fieldName +:+ " est requis") st))
  else (true, st).
Proof.
  cbv zeta. unfold Validator.validateRequired. destruct value as [s |]; [| reflexivity].
  rewrite <- TrimFacts.blank_spec. unfold blank.
  destruct (String.eqb_spec s "") as [-> | Hne]; [reflexivity |].
  simpl. now destruct (Str.length (Str.trim s) =? 0)%nat.
Qed.

(** X5.  [validateRequired] rejects exactly the values that are [null] or
    made of white space only (that of ECMAScript; the empty string is
    one): it then records "Le champ ... est requis"
    under the field and answers [false]; on any other value it answers
    [true] and leaves the validator as it is. *)
Theorem X5_validateRequired (field : string) (value fieldName : option string)
    (st : Validator.state) :
  let missing :=
    match value with
    | None => true
    | Some s => Str.all_space s
    end in
  Validator.validateRequired field value fieldName st =
  if missing then
    (false,
     snd (Validator.addError field
            ("Le champ " +:+ default field fieldName +:+ " est requis") st))
  else (true, st).
Proof. apply validateRequired_spec. Qed.

(** X6.  A custom tax that the constructor of [CustomTax] has accepted
    never fails the checks that the validator makes on custom taxes: they
    record nothing for it, nor for a list of such taxes, under any path. *)
Theorem X6_constructed_tax_is_valid :
  (forall (name : string) (amount : number) (tax : CustomTax.t)
          (path : string) (index : nat) (st : Validator.state),
     CustomTax.new name amount = Return tax ->
     Validator.validateCustomTax path tax index st = (tt, st)) /\
  (forall (taxes : list CustomTax.t) (path : string) (index : nat)
          (st : Validator.state),
     Forall (fun tax => exists name amount, CustomTax.new name amount = Return tax)
       taxes ->
     Validator.forEach (Validator.validateCustomTax path) taxes index st = (tt, st)).
Proof.
  assert (Hone : forall name amount tax path index st,
             CustomTax.new name amount = Return tax ->
             Validator.validateCustomTax path tax index st = (tt, st)).
  { intros name amount tax path index st Hn. unfold CustomTax.new in Hn.
    fold (blank name) in Hn. destruct (blank name) eqn:Hb; [discriminate |].
    destruct (Number.lt amount 0%num) eqn:Ha; [discriminate |].
    injection Hn as <-. unfold Validator.validateCustomTax. simpl.
    unfold CustomTax.getName, CustomTax.getAmount. simpl.
    fold (blank (Str.trim name)). rewrite (TrimFacts.blank_trim _ Hb), Ha.
    reflexivity. }
  split; [exact Hone |].
  intros taxes path index st Hall. revert index st.
  induction Hall as [|tax taxes (name & amount & Hn) _ IH]; intros index st.
  - reflexivity.
  - simpl. unfold Validator.bind. rewrite (Hone _ _ _ _ _ _ Hn). apply IH.
Qed.

Lemma X6_constructed_tax_is_valid_witness :
  Validator.validateCustomTax "" (CustomTax.mk "DTD" (Number.of_Z 1000)) 0
    Validator.fresh = (tt, Validator.fresh).
Proof.
  destruct X6_constructed_tax_is_valid as (Hone & _).
  apply (Hone " DTD " (Number.of_Z 1000)). reflexivity.
Defined.

(** ** More on the validation engine *)

Section ValidatorMore.
Import Validator ValidatorSpec ValidatorFacts ObjFacts StrFacts.
Local Open Scope validator_scope.

Lemma bind_snd {A B} (m : M A) (f : A -> M B) (st : state) :
  snd (bind m f st) = snd (f (fst (m st)) (snd (m st))).
Proof. unfold bind. now destruct (m st). Qed.

Lemma ne_sym_key (k k' : string) : k <> k' -> k' <> k.
Proof. congruence. Qed.

(** The phases that do not write a key leave its message as it is. *)
Lemma get_skips_base invoice st k :
  ~ In k base_keys ->
  Obj.get k (errors (snd (validateBaseFields invoice st))) = Obj.get k (errors st).
Proof.
  intros Hk. apply writes_get. eapply writes_weaken; [| apply writes_validateBaseFields].
  intros k' Hk' ->. contradiction.
Qed.

Lemma get_skips_client invoice st k :
  ~ In k client_keys ->
  Obj.get k (errors (snd (validateClientFields invoice st))) = Obj.get k (errors st).
Proof.
  intros Hk. apply writes_get. eapply writes_weaken; [| apply writes_validateClientFields].
  intros k' Hk' ->. contradiction.
Qed.

Lemma get_skips_template invoice st k :
  ~ In k template_keys ->
  Obj.get k (errors (snd (validateTemplateRules invoice st))) = Obj.get k (errors st).
Proof.
  intros Hk. apply writes_get. eapply writes_weaken; [| apply writes_validateTemplateRules].
  intros k' Hk' ->. contradiction.
Qed.

Lemma get_skips_items invoice st k :
  items_related k = false ->
  Obj.get k (errors (snd (validateItems invoice st))) = Obj.get k (errors st).
Proof.
  intros Hk. apply writes_get. eapply writes_weaken; [| apply writes_validateItems].
  intros k' Hk' ->. congruence.
Qed.

Lemma get_skips_optional invoice st k :
  ~ In k optional_keys -> Str.startsWith k "customTaxes[" = false ->
  Obj.get k (errors (snd (validateOptionalFields invoice st))) = Obj.get k (errors st).
Proof.
  intros Hk Hc. apply writes_get.
  eapply writes_weaken; [| apply writes_validateOptionalFields].
  intros k' [Hk' | Hk'] ->; [contradiction | congruence].
Qed.

(** The message of a key that only the client phase writes. *)
Lemma get_client_key invoice st k :
  In k client_keys ->
  Obj.get k (errorsOf invoice st)
  = Obj.get k (errors (snd (validateClientFields invoice
                              (snd (validateBaseFields invoice fresh))))).
Proof.
  intros Hk. rewrite errorsOf_phases, phases_unfold.
  assert (Hlits : ~ In k optional_keys /\ Str.startsWith k "customTaxes[" = false
                  /\ items_related k = false /\ ~ In k template_keys).
  { simpl in Hk. destruct Hk as [<- | [<- | [<- | []]]];
      (split; [| split; [| split]];
       [simpl; intuition discriminate | reflexivity | reflexivity
       | simpl; intuition discriminate]). }
  destruct Hlits as (H1 & H2 & H3 & H4).
  rewrite get_skips_optional, get_skips_items, get_skips_template by assumption.
  reflexivity.
Qed.

End ValidatorMore.

(** X7.  The contact rules.  In the error set of any document, the key
    [clientPhone] holds "Le champ téléphone est requis" when the phone is
    white space only (the format is then not examined), the format message
    when it is not blank and [isValidPhone] rejects it, and is absent
    otherwise; the key [clientEmail] follows the same rule with
    [isValidEmail]. *)
Theorem X7_contact_rules (invoice : Invoice.t) (st : Validator.state) :
  Obj.get "clientPhone" (Validator.errorsOf invoice st)
  = (if Str.all_space (Invoice.getClientPhone invoice)
     then Some "Le champ téléphone est requis"
     else if isValidPhone (Invoice.getClientPhone invoice) then None
     else Some "Le numéro de téléphone n'est pas valide (format: 8-10 chiffres)") /\
  Obj.get "clientEmail" (Validator.errorsOf invoice st)
  = (if Str.all_space (Invoice.getClientEmail invoice)
     then Some "Le champ email est requis"
     else if isValidEmail (Invoice.getClientEmail invoice) then None
     else Some "L'adresse email n'est pas valide").
Proof.
  rewrite !get_client_key by (simpl; tauto).
  set (s1 := snd (Validator.validateBaseFields invoice Validator.fresh)).
  assert (Hp : Obj.get "clientPhone" (Validator.errors s1) = None).
  { subst s1. now rewrite get_skips_base by (simpl; intuition discriminate). }
  assert (He : Obj.get "clientEmail" (Validator.errors s1) = None).
  { subst s1. now rewrite get_skips_base by (simpl; intuition discriminate). }
  unfold Validator.validateClientFields.
  rewrite !bind_snd, !validateRequired_spec. cbv zeta.
  unfold Validator.validatePhone, Validator.validateEmail, Validator.bind,
    Validator.ret, Validator.addError.
  destruct (Str.all_space (Invoice.getClientCompanyName invoice));
    destruct (Str.all_space (Invoice.getClientPhone invoice));
    destruct (isValidPhone (Invoice.getClientPhone invoice));
    destruct (Str.all_space (Invoice.getClientEmail invoice));
    destruct (isValidEmail (Invoice.getClientEmail invoice));
    cbn [negb fst snd Validator.errors];
    rewrite ?ObjFacts.get_set_eq;
    repeat (rewrite ObjFacts.get_set_ne by discriminate; rewrite ?ObjFacts.get_set_eq);
    rewrite ?Hp, ?He; split; reflexivity.
Qed.

(** X8.  The business-to-business rule.  In the error set of any document
    the key [clientNcc] is present only for the template [B2B]; it then
    holds the "requis" message when the NCC is missing or white space only,
    the format message when [isValidNcc] rejects it, and is absent when the
    NCC is valid. *)
Theorem X8_b2b_ncc_rule (invoice : Invoice.t) (st : Validator.state) :
  Obj.get "clientNcc" (Validator.errorsOf invoice st)
  = if String.eqb (Invoice.getTemplate invoice) "B2B" then
      match Invoice.getClientNcc invoice with
      | None => Some "Le NCC client est requis pour les factures B2B"
      | Some ncc =>
          if Str.all_space ncc
          then Some "Le NCC client est requis pour les factures B2B"
          else if isValidNcc ncc then None
          else Some "Le NCC n'est pas valide (format: 7 chiffres + 1 lettre majuscule)"
      end
    else None.
Proof.
  rewrite errorsOf_phases, ValidatorFacts.phases_unfold.
  rewrite get_skips_optional, get_skips_items
    by first [reflexivity | simpl; intuition discriminate].
  set (s2 := snd (Validator.validateClientFields invoice _)).
  assert (H2 : Obj.get "clientNcc" (Validator.errors s2) = None).
  { subst s2. rewrite get_skips_client, get_skips_base
      by (simpl; intuition discriminate). reflexivity. }
  unfold Validator.validateTemplateRules. cbv zeta. rewrite bind_snd.
  etransitivity.
  { apply ValidatorFacts.writes_get.
    repeat first
      [ apply ValidatorFacts.writes_validateInArray
      | ValidatorFacts.writes_step ltac:(discriminate) ]; discriminate. }
  destruct (String.eqb (Invoice.getTemplate invoice) "B2B"); [| exact H2].
  unfold Validator.when.
  destruct (Invoice.getClientNcc invoice) as [ncc |];
    [| simpl; apply ObjFacts.get_set_eq].
  unfold truthy. rewrite negb_involutive. fold (blank ncc). rewrite TrimFacts.blank_spec.
  destruct (Str.all_space ncc); [simpl; apply ObjFacts.get_set_eq |].
  rewrite bind_snd. unfold Validator.validateNcc.
  destruct (isValidNcc ncc); simpl; [exact H2 | apply ObjFacts.get_set_eq].
Qed.

(** ** Rules on the line items *)

Section ItemRules.
Import Validator ValidatorSpec ValidatorFacts ObjFacts.
Local Open Scope validator_scope.

Lemma forEach_preserves {A} (f : A -> nat -> M unit) (P : state -> Prop) xs start st :
  (forall y j s, P s -> P (snd (f y j s))) ->
  P st -> P (snd (forEach f xs start st)).
Proof.
  intros Hf. revert start st. induction xs as [|y xs IH]; intros start st Hst.
  - exact Hst.
  - simpl. rewrite bind_snd. apply IH, Hf, Hst.
Qed.

(** What the body establishes at a position of the list, and the other
    turns keep, holds after the loop. *)
Lemma forEach_at {A} (f : A -> nat -> M unit) (P : state -> Prop)
    (xs : list A) (start i : nat) (x : A) (st : state) :
  xs !! i = Some x ->
  (forall s, P (snd (f x (start + i)%nat s))) ->
  (forall y j s, P s -> P (snd (f y j s))) ->
  P (snd (forEach f xs start st)).
Proof.
  intros Hx Hat Hf. revert start i st Hx Hat.
  induction xs as [|y xs IH]; intros start i st Hx Hat; [discriminate |].
  simpl. rewrite bind_snd. destruct i as [|i].
  - injection Hx as ->. apply forEach_preserves; [exact Hf |].
    rewrite <- (Nat.add_0_r start). apply Hat.
  - apply (IH (S start) i); [exact Hx |].
    intros s. replace (S start + i)%nat with (start + S i)%nat by lia. apply Hat.
Qed.

Lemma has_bind_later {A B} (m : M A) (f : A -> M B) k st :
  (forall a s, Obj.has k (errors (snd (f a s))) = true) ->
  Obj.has k (errors (snd (bind m f st))) = true.
Proof. intros Hf. rewrite bind_snd. apply Hf. Qed.

Lemma has_bind_now {A B} (m : M A) (f : A -> M B) k st :
  Obj.has k (errors (snd (m st))) = true ->
  (forall a, writes (fun _ => True) (f a)) ->
  Obj.has k (errors (snd (bind m f st))) = true.
Proof.
  intros Hm Hf. rewrite bind_snd. eapply writes_has; [apply Hf | exact Hm].
Qed.

Lemma has_addError k m st : Obj.has k (errors (snd (addError k m st))) = true.
Proof. apply has_set_eq. Qed.

(** Closes the goals [writes (fun _ => True) m] for the pieces of
    [validateItem]. *)
Ltac any_writes :=
  repeat first
    [ apply writes_validateCustomTax; intros ?; exact I
    | writes_step ltac:(exact I) ].

Lemma validateItem_any item index invoiceType :
  writes (fun _ => True) (validateItem item index invoiceType).
Proof.
  eapply writes_weaken; [| apply writes_validateItem]. trivial.
Qed.

Lemma validateItem_description item index invoiceType st :
  blank (InvoiceItem.getDescription item) = true ->
  Obj.has (item_key index ".description")
    (errors (snd (validateItem item index invoiceType st))) = true.
Proof.
  intros Hb. unfold validateItem. cbv zeta. unfold blank in Hb.
  apply has_bind_now; [| intros _; any_writes].
  rewrite Hb. apply has_addError.
Qed.

Lemma validateItem_quantity item index invoiceType st :
  Number.le (InvoiceItem.getQuantity item) 0%num = true ->
  Obj.has (item_key index ".quantity")
    (errors (snd (validateItem item index invoiceType st))) = true.
Proof.
  intros Hq. unfold validateItem. cbv zeta.
  apply has_bind_later; intros _ s.
  apply has_bind_now; [| intros _; any_writes].
  rewrite Hq. apply has_addError.
Qed.

Lemma validateItem_amount item index invoiceType st :
  Number.le (InvoiceItem.getAmount item) 0%num = true ->
  Obj.has (item_key index ".amount")
    (errors (snd (validateItem item index invoiceType st))) = true.
Proof.
  intros Ha. unfold validateItem. cbv zeta.
  do 2 (apply has_bind_later; intros _ ?).
  apply has_bind_now; [| intros _; any_writes].
  rewrite Ha. apply has_addError.
Qed.

Lemma validateItem_no_taxes item index st :
  InvoiceItem.getTaxes item = [] ->
  Obj.has (item_key index ".taxes")
    (errors (snd (validateItem item index INVOICE_TYPE_SALE st))) = true.
Proof.
  intros Ht. unfold validateItem. cbv zeta.
  do 3 (apply has_bind_later; intros _ ?).
  apply has_bind_now; [| intros _; any_writes].
  rewrite Ht. apply has_addError.
Qed.

Lemma validateItem_bad_tax item index st j tax :
  InvoiceItem.getTaxes item !! j = Some tax ->
  Str.includes ALLOWED_TAX_TYPES tax = false ->
  Obj.has (item_key index (".taxes[" +:+ pretty j +:+ "]"))
    (errors (snd (validateItem item index INVOICE_TYPE_SALE st))) = true.
Proof.
  intros Hj Htax. unfold validateItem. cbv zeta.
  do 3 (apply has_bind_later; intros _ ?).
  apply has_bind_now; [| intros _; any_writes].
  change (INVOICE_TYPE_SALE =? INVOICE_TYPE_SALE) with true. unfold when at 1.
  destruct (InvoiceItem.getTaxes item) as [|t0 ts] eqn:Et; [discriminate |].
  change (length (t0 :: ts) =? 0)%nat with false. cbv iota.
  apply (forEach_at _ (fun s0 => Obj.has _ (errors s0) = true) _ 0 j tax _ Hj).
  - intros z. cbv beta. rewrite Htax. apply has_addError.
  - intros y j0 z Hs. eapply writes_has; [| exact Hs].
    instantiate (1 := fun _ => True). any_writes.
Qed.

Lemma validateItem_discount item index invoiceType st :
  Number.lt (InvoiceItem.getDiscount item) 0%num
  || Number.gt (InvoiceItem.getDiscount item) 100%num = true ->
  Obj.has (item_key index ".discount")
    (errors (snd (validateItem item index invoiceType st))) = true.
Proof.
  intros Hd. unfold validateItem. cbv zeta.
  do 4 (apply has_bind_later; intros _ ?).
  apply has_bind_now; [| intros _; any_writes].
  rewrite Hd. apply has_addError.
Qed.

(** A key that [validateItem] records for the item at position [i] is in
    the error set of the document. *)
Lemma item_rule_reported invoice st i item k :
  Invoice.getItems invoice !! i = Some item ->
  (forall s, Obj.has k (errors (snd (validateItem item i
                                       (Invoice.getInvoiceType invoice) s))) = true) ->
  Obj.has k (errorsOf invoice st) = true.
Proof.
  intros Hi Hk. rewrite errorsOf_phases, phases_unfold.
  eapply writes_has; [apply writes_validateOptionalFields |].
  unfold validateItems. cbv zeta.
  destruct (Invoice.getItems invoice) as [|x xs] eqn:Ex; [discriminate |].
  change (length (x :: xs) =? 0)%nat with false. cbv iota.
  apply (forEach_at _ (fun s0 => Obj.has k (errors s0) = true) _ 0 i item _ Hi).
  - intros s. apply Hk.
  - intros y j s Hs. eapply writes_has; [apply validateItem_any | exact Hs].
Qed.

End ItemRules.

(** X9.  The rules on a line item are reported under its position.  For
    the item at position [i] of any document: a blank description (empty
    or white space only), a quantity or an amount that compares [<= 0], and
    a discount that compares [< 0] or [> 100] put the keys
    [items[i].description], [items[i].quantity], [items[i].amount] and
    [items[i].discount] in the error set (NaN satisfies none of these
    comparisons); in a sale, an empty list of taxes puts [items[i].taxes]
    there, and the tax at position [j], when it is not an allowed type,
    puts [items[i].taxes[j]]. *)
Theorem X9_item_rules (invoice : Invoice.t) (st : Validator.state)
    (i : nat) (item : InvoiceItem.t) :
  Invoice.getItems invoice !! i = Some item ->
  let reported k := Obj.has k (Validator.errorsOf invoice st) = true in
  (blank (InvoiceItem.getDescription item) = true ->
   reported (item_key i ".description")) /\
  (Number.le (InvoiceItem.getQuantity item) 0%num = true ->
   reported (item_key i ".quantity")) /\
  (Number.le (InvoiceItem.getAmount item) 0%num = true ->
   reported (item_key i ".amount")) /\
  (Number.lt (InvoiceItem.getDiscount item) 0%num
   || Number.gt (InvoiceItem.getDiscount item) 100%num = true ->
   reported (item_key i ".discount")) /\
  (Invoice.getInvoiceType invoice = "sale" -> InvoiceItem.getTaxes item = [] ->
   reported (item_key i ".taxes")) /\
  (forall (j : nat) (tax : string),
     Invoice.getInvoiceType invoice = "sale" ->
     InvoiceItem.getTaxes item !! j = Some tax ->
     Str.includes ALLOWED_TAX_TYPES tax = false ->
     reported (item_key i (".taxes[" +:+ pretty j +:+ "]"))).
Proof.
  intros Hi. cbv zeta. repeat apply conj.
  - intros H. apply (item_rule_reported _ _ _ _ _ Hi). intros s.
    now apply validateItem_description.
  - intros H. apply (item_rule_reported _ _ _ _ _ Hi). intros s.
    now apply validateItem_quantity.
  - intros H. apply (item_rule_reported _ _ _ _ _ Hi). intros s.
    now apply validateItem_amount.
  - intros H. apply (item_rule_reported _ _ _ _ _ Hi). intros s.
    now apply validateItem_discount.
  - intros Hs Ht. apply (item_rule_reported _ _ _ _ _ Hi). intros s.
    rewrite Hs. now apply validateItem_no_taxes.
  - intros j tax Hs Hj Htax. apply (item_rule_reported _ _ _ _ _ Hi). intros s.
    rewrite Hs. now apply (validateItem_bad_tax _ _ _ j tax).
Qed.

Lemma X9_item_rules_witness :
  Obj.has "items[1].quantity"
    (Validator.errorsOf Samples2.sale_with_bad_item Validator.fresh) = true /\
  Obj.has "items[1].taxes[1]"
    (Validator.errorsOf Samples2.sale_with_bad_item Validator.fresh) = true.
Proof.
  destruct (X9_item_rules Samples2.sale_with_bad_item Validator.fresh 1
              Samples2.bad_item eq_refl) as (_ & Hq & _ & _ & _ & Htax).
  split.
  - exact (Hq eq_refl).
  - exact (Htax 1%nat "TVX" eq_refl eq_refl eq_refl).
Defined.

Section TaxesOfPurchases.
Import Validator ValidatorSpec ValidatorFacts.
Local Open Scope validator_scope.

Lemma forEach_map_ext {A B} (f : A -> nat -> M unit) (g : B -> nat -> M unit)
    (h : B -> A) (xs : list B) (start : nat) (st : state) :
  (forall x j s, f (h x) j s = g x j s) ->
  forEach f (map h xs) start st = forEach g xs start st.
Proof.
  intros Hfg. revert start st. induction xs as [|x xs IH]; intros start st.
  - reflexivity.
  - simpl. unfold bind. rewrite Hfg. destruct (g x start st) as [[] s1]. apply IH.
Qed.

Lemma validateItem_ignores_taxes item taxes index invoiceType st :
  invoiceType <> "sale" ->
  validateItem (withTaxes taxes item) index invoiceType st
  = validateItem item index invoiceType st.
Proof.
  intros Hne. unfold validateItem. cbv zeta.
  apply String.eqb_neq in Hne. unfold INVOICE_TYPE_SALE. rewrite Hne. reflexivity.
Qed.

Lemma validateItems_ignores_taxes invoice (g : InvoiceItem.t -> list string) st :
  Invoice.getInvoiceType invoice <> "sale" ->
  validateItems
    (withItems (map (fun it => withTaxes (g it) it) (Invoice.getItems invoice)) invoice)
    st
  = validateItems invoice st.
Proof.
  intros Hne. unfold validateItems. cbv zeta.
  change (Invoice.getItems (withItems ?l invoice)) with l.
  rewrite length_map.
  destruct (length (Invoice.getItems invoice) =? 0)%nat; [reflexivity |].
  apply forEach_map_ext. intros x j s.
  now apply validateItem_ignores_taxes.
Qed.

End TaxesOfPurchases.

(** X10.  Tax codes are examined in sales only: for a document whose type
    is not [sale], replacing the tax codes of its items by any others
    changes neither the result of [validate] nor the error set. *)
Theorem X10_taxes_ignored_outside_sales (invoice : Invoice.t)
    (g : InvoiceItem.t -> list string) (st : Validator.state) :
  Invoice.getInvoiceType invoice <> "sale" ->
  Validator.validate
    (withItems (map (fun it => withTaxes (g it) it) (Invoice.getItems invoice)) invoice)
    st
  = Validator.validate invoice st.
Proof.
  intros Hne. unfold Validator.validate.
  destruct (Validator.resetErrors st) as [[] st1].
  assert (E : forall s,
             Validator.phases
               (withItems (map (fun it => withTaxes (g it) it)
                             (Invoice.getItems invoice)) invoice) s
             = Validator.phases invoice s).
  { intros s. unfold Validator.phases, Validator.bind.
    change (Validator.validateBaseFields (withItems ?l invoice))
      with (Validator.validateBaseFields invoice).
    destruct (Validator.validateBaseFields invoice s) as [[] s1].
    change (Validator.validateClientFields (withItems ?l invoice))
      with (Validator.validateClientFields invoice).
    destruct (Validator.validateClientFields invoice s1) as [[] s2].
    change (Validator.validateTemplateRules (withItems ?l invoice))
      with (Validator.validateTemplateRules invoice).
    destruct (Validator.validateTemplateRules invoice s2) as [[] s3].
    rewrite (validateItems_ignores_taxes invoice g s3 Hne).
    destruct (Validator.validateItems invoice s3) as [[] s4].
    reflexivity. }
  now rewrite E.
Qed.

Lemma X10_taxes_ignored_outside_sales_witness :
  Validator.validate
    (withItems
       (map (fun it => withTaxes [] it)
          (Invoice.getItems Samples2.purchase_with_bad_item))
       Samples2.purchase_with_bad_item) Validator.fresh
  = Validator.validate Samples2.purchase_with_bad_item Validator.fresh.
Proof.
  apply (X10_taxes_ignored_outside_sales Samples2.purchase_with_bad_item
           (fun _ => [])).
  discriminate.
Defined.

Section KnownKeys.
Import Validator ValidatorSpec ValidatorFacts ObjFacts.

Lemma keys_replay ws st k :
  In k (Obj.keys (errors (replay ws st))) ->
  In k (Obj.keys (errors st)) \/ In k (map fst ws).
Proof.
  revert st. induction ws as [|[k' m] ws IH]; intros st Hk; [now left |].
  rewrite replay_cons in Hk. apply IH in Hk as [Hk | Hk]; [| right; now right].
  simpl in Hk. rewrite keys_set in Hk.
  destruct (Obj.has k' (errors st)); [now left |].
  apply in_app_or in Hk as [Hk | [<- | []]]; [now left | right; now left].
Qed.

Lemma writes_keys {A} (Q : string -> Prop) (m : M A) st k :
  writes Q m ->
  In k (Obj.keys (errors (snd (m st)))) ->
  In k (Obj.keys (errors st)) \/ Q k.
Proof.
  intros Hm Hk. destruct (Hm st) as (ws & Hws & E). rewrite E in Hk.
  apply keys_replay in Hk as [Hk | Hk]; [now left | right].
  apply in_map_iff in Hk as (w & <- & Hw).
  rewrite List.Forall_forall in Hws. now apply Hws.
Qed.

Lemma writes_phases_known invoice : writes known_key (phases invoice).
Proof.
  pose proof (writes_validateBaseFields invoice) as H1.
  pose proof (writes_validateClientFields invoice) as H2.
  pose proof (writes_validateTemplateRules invoice) as H3.
  pose proof (writes_validateItems invoice) as H4.
  pose proof (writes_validateOptionalFields invoice) as H5.
  apply (writes_weaken _ known_key) in H1, H2, H3, H4, H5.
  - unfold phases.
    apply writes_bind; [exact H1 | intros _].
    apply writes_bind; [exact H2 | intros _].
    apply writes_bind; [exact H3 | intros _].
    apply writes_bind; [exact H4 | intros _].
    exact H5.
  - intros k [Hk | Hk]; [left | right; now right].
    apply in_or_app. right. apply in_or_app. right. apply in_or_app. now right.
  - intros k Hk. right. now left.
  - intros k Hk. left. apply in_or_app. right. apply in_or_app. right.
    apply in_or_app. now left.
  - intros k Hk. left. apply in_or_app. right. apply in_or_app. now left.
  - intros k Hk. left. apply in_or_app. now left.
Qed.

End KnownKeys.

(** X11.  The keys of an error set.  Whatever the document, every key
    that [validate] leaves in the error set is one of the thirteen field
    names of the base, client, regime and optional rules, or starts with
    [items] or with [customTaxes[]. *)
Theorem X11_error_keys_are_known (invoice : Invoice.t) (st : Validator.state)
    (k : string) :
  In k (Obj.keys (Validator.errorsOf invoice st)) -> known_key k.
Proof.
  rewrite errorsOf_phases. intros Hk.
  apply (writes_keys _ _ _ _ (writes_phases_known invoice)) in Hk as [[] | Hk].
  exact Hk.
Qed.

Lemma X11_error_keys_are_known_witness : known_key "items[1].quantity".
Proof.
  apply (X11_error_keys_are_known Samples2.sale_with_bad_item Validator.fresh).
  vm_compute. tauto.
Defined.

(** ** More on serialisation *)

Section SerialisedFields.
Import ObjFacts.

Lemma get_put_if_truthy_eq k value (o : list (string * json)) :
  Obj.get k (Invoice.put_if_truthy k value o)
  = match emitted value with Some v => Some v | None => Obj.get k o end.
Proof.
  unfold Invoice.put_if_truthy, emitted, truthy.
  destruct value as [s |]; [| reflexivity].
  destruct (String.eqb s ""); simpl; [reflexivity | apply get_set_eq].
Qed.

Lemma invoice_field (invoice : Invoice.t) (k : string) :
  ~ In k ["foreignCurrency"; "foreignCurrencyRate"; "discount"; "customTaxes"] ->
  json_prop k (Some (Invoice.toArray invoice))
  = Obj.get k
      (Invoice.put_if_truthy "rne" (Invoice._rne invoice)
         (Invoice.put_if_truthy "footer" (Invoice._footer invoice)
            (Invoice.put_if_truthy "commercialMessage" (Invoice._commercialMessage invoice)
               (Invoice.put_if_truthy "clientSellerName" (Invoice._clientSellerName invoice)
                  (Invoice.put_if_truthy "clientNcc" (Invoice._clientNcc invoice)
                     [ ("invoiceType", JStr (Invoice._invoiceType invoice));
                       ("paymentMethod", JStr (Invoice._paymentMethod invoice));
                       ("template", JStr (Invoice._template invoice));
                       ("pointOfSale", JStr (Invoice._pointOfSale invoice));
                       ("establishment", JStr (Invoice._establishment invoice));
                       ("clientCompanyName", JStr (Invoice._clientCompanyName invoice));
                       ("clientPhone", JStr (Invoice._clientPhone invoice));
                       ("clientEmail", JStr (Invoice._clientEmail invoice));
                       ("isRne", JBool (Invoice._isRne invoice));
                       ("items",
                        JArr (map InvoiceItem.toArray (Invoice._items invoice))) ]))))).
Proof.
  intros Hk. simpl in Hk.
  assert (H1 : "foreignCurrency" <> k) by tauto.
  assert (H2 : "foreignCurrencyRate" <> k) by tauto.
  assert (H3 : "discount" <> k) by tauto.
  assert (H4 : "customTaxes" <> k) by tauto.
  unfold Invoice.toArray. cbv zeta. unfold json_prop.
  rewrite !get_if_set_ne by assumption.
  destruct (k =? "rne") eqn:Ek.
  - apply String.eqb_eq in Ek. subst k. rewrite !get_put_if_truthy_eq.
    destruct (emitted (Invoice._rne invoice)); [reflexivity |].
    destruct (Invoice._foreignCurrency invoice) as [cur |];
      [destruct (truthy (Some cur)) |]; now rewrite !get_set_ne by assumption.
  - apply String.eqb_neq in Ek.
    rewrite !(get_put_if_truthy_ne k "rne") by congruence.
    destruct (Invoice._foreignCurrency invoice) as [cur |];
      [destruct (truthy (Some cur)) |]; now rewrite !get_set_ne by assumption.
Qed.

End SerialisedFields.

(** X12.  The text fields of a serialised document.  The eight mandatory
    text fields and [isRne] are always present with the stored values; each
    of [clientNcc], [clientSellerName], [commercialMessage], [footer] and
    [rne] is present, with its value, exactly when the stored value is
    neither [null] nor the empty string. *)
Theorem X12_serialised_document_fields (invoice : Invoice.t) :
  let field k := json_prop k (Some (Invoice.toArray invoice)) in
  (field "invoiceType" = Some (JStr (Invoice._invoiceType invoice)) /\
   field "paymentMethod" = Some (JStr (Invoice._paymentMethod invoice)) /\
   field "template" = Some (JStr (Invoice._template invoice)) /\
   field "pointOfSale" = Some (JStr (Invoice._pointOfSale invoice)) /\
   field "establishment" = Some (JStr (Invoice._establishment invoice)) /\
   field "clientCompanyName" = Some (JStr (Invoice._clientCompanyName invoice)) /\
   field "clientPhone" = Some (JStr (Invoice._clientPhone invoice)) /\
   field "clientEmail" = Some (JStr (Invoice._clientEmail invoice)) /\
   field "isRne" = Some (JBool (Invoice._isRne invoice))) /\
  (field "clientNcc" = emitted (Invoice._clientNcc invoice) /\
   field "clientSellerName" = emitted (Invoice._clientSellerName invoice) /\
   field "commercialMessage" = emitted (Invoice._commercialMessage invoice) /\
   field "footer" = emitted (Invoice._footer invoice) /\
   field "rne" = emitted (Invoice._rne invoice)).
Proof.
  cbv zeta. split.
  - repeat apply conj;
      (rewrite invoice_field by (simpl; intuition discriminate);
       rewrite !get_put_if_truthy_ne by discriminate; reflexivity).
  - repeat apply conj;
      (rewrite invoice_field by (simpl; intuition discriminate);
       rewrite ?get_put_if_truthy_ne by discriminate;
       rewrite get_put_if_truthy_eq;
       rewrite ?get_put_if_truthy_ne by discriminate;
       match goal with |- context [emitted ?v] => destruct (emitted v) end;
       reflexivity).
Qed.

Section SerialisedKeys.
Import ObjFacts.

Lemma has_notin k (o : list (string * json)) :
  ~ In k (Obj.keys o) -> Obj.has k o = false.
Proof.
  intros Hk. destruct (Obj.has k o) eqn:E; [| reflexivity].
  apply has_In in E. contradiction.
Qed.

Lemma keys_set_new k v (o : list (string * json)) :
  ~ In k (Obj.keys o) -> Obj.keys (Obj.set k v o) = Obj.keys o ++ [k].
Proof. intros Hk. rewrite keys_set. now rewrite has_notin. Qed.

Lemma keys_if_set k (b : bool) v (o : list (string * json)) :
  ~ In k (Obj.keys o) ->
  Obj.keys (if b then Obj.set k v o else o) = Obj.keys o ++ key_if b k.
Proof.
  intros Hk. destruct b; simpl; [now apply keys_set_new | now rewrite app_nil_r].
Qed.

Lemma keys_opt_set k (value : option string) (o : list (string * json)) :
  ~ In k (Obj.keys o) ->
  Obj.keys
    (match value with
     | Some s => if truthy (Some s) then Obj.set k (JStr s) o else o
     | None => o
     end)
  = Obj.keys o ++ key_if (truthy value) k.
Proof.
  intros Hk. destruct value as [s |]; [| simpl; now rewrite app_nil_r].
  now apply keys_if_set.
Qed.

Lemma keys_put_if_truthy k value (o : list (string * json)) :
  ~ In k (Obj.keys o) ->
  Obj.keys (Invoice.put_if_truthy k value o) = Obj.keys o ++ key_if (truthy value) k.
Proof. apply keys_opt_set. Qed.

Lemma notin_key_if k k' (b : bool) (l : list string) :
  k <> k' -> ~ In k l -> ~ In k (l ++ key_if b k').
Proof.
  intros Hne Hl Hin. apply in_app_iff in Hin as [Hin | Hin]; [contradiction |].
  destruct b; simpl in Hin; [destruct Hin as [-> | []]; congruence | assumption].
Qed.

Lemma notin_snoc k k' (l : list string) :
  k <> k' -> ~ In k l -> ~ In k (l ++ [k']).
Proof. apply (notin_key_if k k' true). Qed.

Lemma NoDup_opt_set k (value : option string) (o : list (string * json)) :
  NoDup (Obj.keys o) ->
  NoDup (Obj.keys
    (match value with
     | Some s => if truthy (Some s) then Obj.set k (JStr s) o else o
     | None => o
     end)).
Proof.
  intros Hnd. destruct value as [s |]; [| assumption].
  destruct (truthy (Some s)); [now apply NoDup_keys_set | assumption].
Qed.

Lemma NoDup_if_set k (b : bool) v (o : list (string * json)) :
  NoDup (Obj.keys o) -> NoDup (Obj.keys (if b then Obj.set k v o else o)).
Proof. intros Hnd. destruct b; [now apply NoDup_keys_set | assumption]. Qed.

(** Discharges [~ In k l] for a key list built from literals, [++] and
    [key_if]. *)
Ltac fresh_key :=
  repeat first
    [ apply notin_key_if; [discriminate |]
    | apply notin_snoc; [discriminate |] ];
  unfold invoice_required_keys, item_required_keys, In; intuition discriminate.

Lemma invoice_keys (invoice : Invoice.t) :
  json_keys (Invoice.toArray invoice)
  = ((((((((invoice_required_keys
    ++ key_if (truthy (Invoice._clientNcc invoice)) "clientNcc")
    ++ key_if (truthy (Invoice._clientSellerName invoice)) "clientSellerName")
    ++ key_if (truthy (Invoice._commercialMessage invoice)) "commercialMessage")
    ++ key_if (truthy (Invoice._footer invoice)) "footer")
    ++ ["foreignCurrency"]) ++ ["foreignCurrencyRate"])
    ++ key_if (truthy (Invoice._rne invoice)) "rne")
    ++ key_if (Number.gt (Invoice._discount invoice) 0%num) "discount")
    ++ key_if (0 <? length (Invoice._customTaxes invoice))%nat "customTaxes".
Proof.
  unfold Invoice.toArray. cbv zeta. unfold json_keys.
  set (r0 := [("invoiceType", _); _; _; _; _; _; _; _; _; _]).
  assert (E0 : Obj.keys r0 = invoice_required_keys) by reflexivity.
  set (r1 := Invoice.put_if_truthy "clientNcc" _ r0).
  assert (E1 := keys_put_if_truthy "clientNcc" (Invoice._clientNcc invoice) r0).
  fold r1 in E1. rewrite E0 in E1. specialize (E1 ltac:(fresh_key)).
  set (r2 := Invoice.put_if_truthy "clientSellerName" _ r1).
  assert (E2 := keys_put_if_truthy "clientSellerName"
    (Invoice._clientSellerName invoice) r1).
  fold r2 in E2. rewrite E1 in E2. specialize (E2 ltac:(fresh_key)).
  set (r3 := Invoice.put_if_truthy "commercialMessage" _ r2).
  assert (E3 := keys_put_if_truthy "commercialMessage"
    (Invoice._commercialMessage invoice) r2).
  fold r3 in E3. rewrite E2 in E3. specialize (E3 ltac:(fresh_key)).
  set (r4 := Invoice.put_if_truthy "footer" _ r3).
  assert (E4 := keys_put_if_truthy "footer" (Invoice._footer invoice) r3).
  fold r4 in E4. rewrite E3 in E4. specialize (E4 ltac:(fresh_key)).
  assert (E5 : forall c, Obj.keys (Obj.set "foreignCurrency" c r4)
    = Obj.keys r4 ++ ["foreignCurrency"]).
  { intros c. apply keys_set_new. rewrite E4. fresh_key. }
  assert (E6 : forall c v, Obj.keys
    (Obj.set "foreignCurrencyRate" v (Obj.set "foreignCurrency" c r4))
    = (Obj.keys r4 ++ ["foreignCurrency"]) ++ ["foreignCurrencyRate"]).
  { intros c v. rewrite keys_set_new; rewrite E5; [reflexivity |].
    rewrite E4. fresh_key. }
  set (r5 := match Invoice._foreignCurrency invoice with Some c => _ | None => _ end).
  assert (E7 : Obj.keys r5
    = (Obj.keys r4 ++ ["foreignCurrency"]) ++ ["foreignCurrencyRate"]).
  { unfold r5. destruct (Invoice._foreignCurrency invoice) as [cur |];
      [destruct (truthy (Some cur)) |]; apply E6. }
  rewrite E4 in E7.
  set (r6 := Invoice.put_if_truthy "rne" _ r5).
  assert (E8 := keys_put_if_truthy "rne" (Invoice._rne invoice) r5).
  fold r6 in E8. rewrite E7 in E8. specialize (E8 ltac:(fresh_key)).
  set (r7 := if Number.gt _ _ then _ else r6).
  assert (E9 := keys_if_set "discount"
    (Number.gt (Invoice._discount invoice) 0%num)
    (JNum (Invoice._discount invoice)) r6).
  fold r7 in E9. rewrite E8 in E9. specialize (E9 ltac:(fresh_key)).
  rewrite keys_if_set; rewrite E9; [reflexivity | fresh_key].
Qed.

Lemma item_keys (item : InvoiceItem.t) :
  json_keys (InvoiceItem.toArray item)
  = (((item_required_keys
    ++ key_if (truthy (InvoiceItem._reference item)) "reference")
    ++ key_if (Number.gt (InvoiceItem._discount item) 0%num) "discount")
    ++ key_if (truthy (InvoiceItem._measurementUnit item)) "measurementUnit")
    ++ key_if (0 <? length (InvoiceItem._customTaxes item))%nat "customTaxes".
Proof.
  unfold InvoiceItem.toArray. cbv zeta. unfold json_keys.
  set (r0 := [("description", _); _; _; _]).
  assert (E0 : Obj.keys r0 = item_required_keys) by reflexivity.
  set (r1 := match InvoiceItem._reference item with Some r => _ | None => _ end).
  assert (E1 := keys_opt_set "reference" (InvoiceItem._reference item) r0).
  fold r1 in E1. rewrite E0 in E1. specialize (E1 ltac:(fresh_key)).
  set (r2 := if Number.gt _ _ then _ else r1).
  assert (E2 := keys_if_set "discount"
    (Number.gt (InvoiceItem._discount item) 0%num)
    (JNum (InvoiceItem._discount item)) r1).
  fold r2 in E2. rewrite E1 in E2. specialize (E2 ltac:(fresh_key)).
  set (r3 := match InvoiceItem._measurementUnit item with Some u => _ | None => _ end).
  assert (E3 := keys_opt_set "measurementUnit" (InvoiceItem._measurementUnit item) r2).
  fold r3 in E3. rewrite E2 in E3. specialize (E3 ltac:(fresh_key)).
  rewrite keys_if_set; rewrite E3; [reflexivity | fresh_key].
Qed.

Lemma invoice_keys_NoDup (invoice : Invoice.t) :
  NoDup (json_keys (Invoice.toArray invoice)).
Proof.
  unfold Invoice.toArray. cbv zeta. unfold json_keys, Invoice.put_if_truthy.
  do 2 apply NoDup_if_set. apply NoDup_opt_set.
  assert (Hnd : forall c v, NoDup (Obj.keys
    (Obj.set "foreignCurrencyRate" v (Obj.set "foreignCurrency" c
      (Invoice.put_if_truthy "footer" (Invoice._footer invoice)
        (Invoice.put_if_truthy "commercialMessage" (Invoice._commercialMessage invoice)
          (Invoice.put_if_truthy "clientSellerName" (Invoice._clientSellerName invoice)
            (Invoice.put_if_truthy "clientNcc" (Invoice._clientNcc invoice)
               [ ("invoiceType", JStr (Invoice._invoiceType invoice));
                 ("paymentMethod", JStr (Invoice._paymentMethod invoice));
                 ("template", JStr (Invoice._template invoice));
                 ("pointOfSale", JStr (Invoice._pointOfSale invoice));
                 ("establishment", JStr (Invoice._establishment invoice));
                 ("clientCompanyName", JStr (Invoice._clientCompanyName invoice));
                 ("clientPhone", JStr (Invoice._clientPhone invoice));
                 ("clientEmail", JStr (Invoice._clientEmail invoice));
                 ("isRne", JBool (Invoice._isRne invoice));
                 ("items",
                  JArr (map InvoiceItem.toArray (Invoice._items invoice))) ])))))))).
  { intros c v. do 2 apply NoDup_keys_set. unfold Invoice.put_if_truthy.
    do 4 apply NoDup_opt_set.
    apply (bool_decide_unpack _). vm_compute. exact I. }
  unfold Invoice.put_if_truthy in Hnd.
  destruct (Invoice._foreignCurrency invoice) as [cur |];
    [destruct (truthy (Some cur)) |]; apply Hnd.
Qed.

Lemma item_keys_NoDup (item : InvoiceItem.t) :
  NoDup (json_keys (InvoiceItem.toArray item)).
Proof.
  unfold InvoiceItem.toArray. cbv zeta. unfold json_keys.
  apply NoDup_if_set, NoDup_opt_set, NoDup_if_set, NoDup_opt_set.
  apply (bool_decide_unpack _). vm_compute. exact I.
Qed.

End SerialisedKeys.

(** X13.  The keys of the serialised forms, in order.  A serialised
    document lists its ten mandatory keys first, then those of
    [clientNcc], [clientSellerName], [commercialMessage] and [footer] that
    are set, then always [foreignCurrency] and [foreignCurrencyRate], then
    [rne], [discount] and [customTaxes] when set, positive or non-empty;
    a serialised item lists its four mandatory keys, then [reference],
    [discount], [measurementUnit] and [customTaxes] under the same
    conditions.  No key is listed twice. *)
Theorem X13_serialised_keys (invoice : Invoice.t) (item : InvoiceItem.t) :
  json_keys (Invoice.toArray invoice)
  = invoice_required_keys
    ++ key_if (truthy (Invoice._clientNcc invoice)) "clientNcc"
    ++ key_if (truthy (Invoice._clientSellerName invoice)) "clientSellerName"
    ++ key_if (truthy (Invoice._commercialMessage invoice)) "commercialMessage"
    ++ key_if (truthy (Invoice._footer invoice)) "footer"
    ++ ["foreignCurrency"; "foreignCurrencyRate"]
    ++ key_if (truthy (Invoice._rne invoice)) "rne"
    ++ key_if (Number.gt (Invoice._discount invoice) 0%num) "discount"
    ++ key_if (0 <? length (Invoice._customTaxes invoice))%nat "customTaxes" /\
  json_keys (InvoiceItem.toArray item)
  = item_required_keys
    ++ key_if (truthy (InvoiceItem._reference item)) "reference"
    ++ key_if (Number.gt (InvoiceItem._discount item) 0%num) "discount"
    ++ key_if (truthy (InvoiceItem._measurementUnit item)) "measurementUnit"
    ++ key_if (0 <? length (InvoiceItem._customTaxes item))%nat "customTaxes" /\
  NoDup (json_keys (Invoice.toArray invoice)) /\
  NoDup (json_keys (InvoiceItem.toArray item)).
Proof.
  split; [| split; [| split]].
  - rewrite invoice_keys. rewrite <- !app_assoc. reflexivity.
  - rewrite item_keys. rewrite <- !app_assoc. reflexivity.
  - apply invoice_keys_NoDup.
  - apply item_keys_NoDup.
Qed.

(** ** More on the credential cache *)

Section CacheMore.
Import TokenManager.
Context {T : Type}.
Implicit Types (m : TokenManager.t T) (key : string) (value : T) (now : Z).

(** What [getCachedResponse] returns, read off the stored entry. *)
Lemma getCachedResponse_fst now key m :
  fst (getCachedResponse now key m)
  = match cache m !! key with
    | Some cached => if (expiresAt cached <? now)%Z then None else Some (data cached)
    | None => None
    end.
Proof.
  unfold getCachedResponse. destruct (cache m !! key) as [cached |]; [| reflexivity].
  now destruct (expiresAt cached <? now)%Z.
Qed.

Lemma cleanExpiredCache_lookup now key m :
  cache (cleanExpiredCache now m) !! key
  = match cache m !! key with
    | Some cached => if (expiresAt cached <? now)%Z then None else Some cached
    | None => None
    end.
Proof.
  unfold cleanExpiredCache. simpl. rewrite map_lookup_filter.
  destruct (cache m !! key) as [cached |]; simpl; [| reflexivity].
  destruct (Z.ltb_spec (expiresAt cached) now).
  - rewrite option_guard_False by lia. reflexivity.
  - rewrite option_guard_True by lia. reflexivity.
Qed.

End CacheMore.

(** X14.  Clearing the cache.  [clearCache(key)] with a non-empty key
    makes that key absent and leaves the answer for every other key as it
    was; [clearCache('')] does not clear the entry stored under the empty
    key only: like [clearCache()] and [invalidateCache()], it empties the
    whole cache.  None of them touches the API key. *)
Theorem X14_clearCache {T : Type} (m : TokenManager.t T) (k key : string) (now : Z) :
  fst (TokenManager.getCachedResponse now key (TokenManager.clearCache (Some k) m))
  = (if String.eqb k "" then None
     else if String.eqb key k then None
     else fst (TokenManager.getCachedResponse now key m)) /\
  TokenManager.clearCache (Some "") m = TokenManager.invalidateCache m /\
  TokenManager.clearCache None m = TokenManager.invalidateCache m /\
  fst (TokenManager.getCachedResponse now key (TokenManager.invalidateCache m)) = None /\
  TokenManager.getCacheSize (TokenManager.invalidateCache m) = 0%nat /\
  TokenManager.apiKey (TokenManager.clearCache (Some k) m) = TokenManager.apiKey m.
Proof.
  split; [| split; [| split; [| split; [| split]]]]; try reflexivity.
  - rewrite !getCachedResponse_fst. unfold TokenManager.clearCache, truthy.
    destruct (String.eqb_spec k ""); simpl; [now rewrite lookup_empty |].
    destruct (String.eqb_spec key k) as [-> | Hne].
    + now rewrite lookup_delete_eq.
    + now rewrite lookup_delete_ne by congruence.
  - unfold TokenManager.clearCache, truthy. now destruct (String.eqb_spec k "").
Qed.

(** X15.  Sweeping the expired entries.  A sweep made when the clock
    reads [now] cannot be observed by a [get] made then or later: the
    answer for every key is the one the unswept cache gives.  The entries
    that remain are the ones not yet expired, a [get] made at [now] after
    the sweep removes nothing, the cache does not grow, and sweeping twice
    is sweeping once. *)
Theorem X15_cleanExpiredCache {T : Type} (m : TokenManager.t T) (key : string)
    (now later : Z) :
  (now <= later)%Z ->
  fst (TokenManager.getCachedResponse later key (TokenManager.cleanExpiredCache now m))
  = fst (TokenManager.getCachedResponse later key m) /\
  snd (TokenManager.getCachedResponse now key (TokenManager.cleanExpiredCache now m))
  = TokenManager.cleanExpiredCache now m /\
  (forall cached,
     TokenManager.cache (TokenManager.cleanExpiredCache now m) !! key = Some cached <->
     TokenManager.cache m !! key = Some cached /\
     (now <= TokenManager.expiresAt cached)%Z) /\
  (TokenManager.getCacheSize (TokenManager.cleanExpiredCache now m)
   <= TokenManager.getCacheSize m)%nat /\
  TokenManager.cleanExpiredCache now (TokenManager.cleanExpiredCache now m)
  = TokenManager.cleanExpiredCache now m.
Proof.
  intros Hle. split; [| split; [| split; [| split]]].
  - rewrite !getCachedResponse_fst, cleanExpiredCache_lookup.
    destruct (TokenManager.cache m !! key) as [cached |]; [| reflexivity].
    destruct (Z.ltb_spec (TokenManager.expiresAt cached) now); [| reflexivity].
    destruct (Z.ltb_spec (TokenManager.expiresAt cached) later); [reflexivity | lia].
  - unfold TokenManager.getCachedResponse. rewrite cleanExpiredCache_lookup.
    destruct (TokenManager.cache m !! key) as [cached |]; [| reflexivity].
    destruct (TokenManager.expiresAt cached <? now)%Z eqn:E; [reflexivity |].
    now rewrite E.
  - intros cached. rewrite cleanExpiredCache_lookup.
    destruct (TokenManager.cache m !! key) as [c |]; [| intuition discriminate].
    destruct (Z.ltb_spec (TokenManager.expiresAt c) now); split.
    + discriminate.
    + intros [[= ->] ?]. lia.
    + intros [= ->]. split; [reflexivity | lia].
    + now intros [? _].
  - unfold TokenManager.getCacheSize, TokenManager.cleanExpiredCache. simpl.
    apply map_subseteq_size, map_filter_subseteq.
  - unfold TokenManager.cleanExpiredCache. simpl. f_equal.
    apply map_filter_filter_l. intros i x _ Hx. exact Hx.
Qed.

Lemma X15_cleanExpiredCache_witness :
  fst (TokenManager.getCachedResponse 5000 "b"
         (TokenManager.cleanExpiredCache 3000
            (TokenManager.cacheResponse 0 "a" "old" (Some 1%Z)
               (TokenManager.cacheResponse 0 "b" "new" (Some 60%Z)
                  TokenManager.new))))
  = Some "new".
Proof.
  destruct (X15_cleanExpiredCache
    (TokenManager.cacheResponse 0 "a" "old" (Some 1%Z)
       (TokenManager.cacheResponse 0 "b" "new" (Some 60%Z) TokenManager.new))
    "b" 3000 5000 ltac:(lia)) as (H & _).
  rewrite H. vm_compute. reflexivity.
Defined.

(** X16.  Storing a value.  A store under [key] changes the answer for no
    other key, replaces what an earlier store under [key] had put there,
    and adds at most one entry to the cache. *)
Theorem X16_cacheResponse {T : Type} (m : TokenManager.t T) (key other : string)
    (value value' : T) (ttl ttl' : option Z) (now now' later : Z) :
  other <> key ->
  fst (TokenManager.getCachedResponse later other
         (TokenManager.cacheResponse now key value ttl m))
  = fst (TokenManager.getCachedResponse later other m) /\
  TokenManager.cacheResponse now' key value' ttl'
    (TokenManager.cacheResponse now key value ttl m)
  = TokenManager.cacheResponse now' key value' ttl' m /\
  (TokenManager.getCacheSize m
   <= TokenManager.getCacheSize (TokenManager.cacheResponse now key value ttl m)
   <= S (TokenManager.getCacheSize m))%nat.
Proof.
  intros Hne. split; [| split].
  - rewrite !getCachedResponse_fst. unfold TokenManager.cacheResponse. simpl.
    now rewrite lookup_insert_ne by congruence.
  - unfold TokenManager.cacheResponse. simpl. now rewrite insert_insert_eq.
  - unfold TokenManager.getCacheSize, TokenManager.cacheResponse. simpl.
    destruct (TokenManager.cache m !! key) as [old |] eqn:E.
    + rewrite map_size_insert_Some by (rewrite E; eauto). lia.
    + rewrite map_size_insert_None by exact E. lia.
Qed.

Lemma X16_cacheResponse_witness :
  fst (TokenManager.getCachedResponse 10 "b"
         (TokenManager.cacheResponse 5 "a" "x" None
            (TokenManager.cacheResponse 0 "b" "y" None TokenManager.new)))
  = Some "y".
Proof.
  destruct (X16_cacheResponse
    (TokenManager.cacheResponse 0 "b" "y" None TokenManager.new)
    "a" "b" "x" "x" None None 5 5 10 ltac:(discriminate)) as (H & _).
  rewrite H. vm_compute. reflexivity.
Defined.

(** A key that is not empty has a positive length. *)
Lemma length_positive (k : string) :
  (0 <? Str.length k)%nat = negb (String.eqb k "").
Proof.
  rewrite <- TokenFacts.length_eqb_zero.
  destruct (Str.length k); reflexivity.
Qed.

(** X17.  The API key.  After [setApiKey(k)], [getApiKey] returns [k]
    unless [k] is empty, and [validateApiKey] accepts exactly when the
    [length] of [k] (in UTF-16 code units) is at least twenty; a manager
    that [validateApiKey] accepts has a key that [getApiKey] returns and
    [hasApiKey] reports; every refusal, of either method, is an
    [AuthenticationError]. *)
Theorem X17_api_key {T : Type} (m : TokenManager.t T) (k : string) :
  TokenManager.getApiKey (TokenManager.setApiKey k m)
  = (if String.eqb k "" then
       Throw (AuthenticationError
         "Aucune clé API fournie. Veuillez configurer votre clé API avant d'effectuer des requêtes.")
     else Return k) /\
  (TokenManager.validateApiKey (TokenManager.setApiKey k m) = Return tt
   <-> (20 <= Str.length k)%nat) /\
  (TokenManager.validateApiKey m = Return tt ->
   exists key, TokenManager.getApiKey m = Return key /\
               TokenManager.hasApiKey m = true /\
               (20 <= Str.length key)%nat) /\
  (forall e, TokenManager.validateApiKey m = Throw e \/
             TokenManager.getApiKey m = Throw e -> isAuthenticationError e = true).
Proof.
  assert (Hv : forall (m0 : TokenManager.t T) key,
            TokenManager.apiKey m0 = Some key ->
            TokenManager.validateApiKey m0 = Return tt
            <-> (20 <= Str.length key)%nat).
  { intros m0 key E.
    unfold TokenManager.validateApiKey, TokenManager.hasApiKey, truthy.
    rewrite E, length_positive. change MIN_API_KEY_LENGTH with 20%nat.
    destruct (String.eqb_spec key "") as [-> | Hne]; simpl.
    - split; [discriminate | unfold Str.length; simpl; lia].
    - destruct (Nat.ltb_spec (Str.length key) 20); split;
        try discriminate; try reflexivity; lia. }
  split; [| split; [| split]].
  - unfold TokenManager.getApiKey, TokenManager.setApiKey, truthy. simpl.
    now destruct (String.eqb k "").
  - now apply Hv.
  - destruct (TokenManager.apiKey m) as [key |] eqn:E.
    + intros Hok. pose proof (proj1 (Hv m key E) Hok) as Hlen.
      exists key. unfold TokenManager.getApiKey, TokenManager.hasApiKey, truthy.
      rewrite E, length_positive.
      destruct (String.eqb_spec key "") as [-> | Hne];
        [unfold Str.length in Hlen; simpl in Hlen; lia |].
      repeat split. exact Hlen.
    + unfold TokenManager.validateApiKey. rewrite E. discriminate.
  - intros e. unfold TokenManager.validateApiKey, TokenManager.getApiKey,
      TokenManager.hasApiKey, truthy.
    destruct (TokenManager.apiKey m) as [key |].
    + rewrite length_positive.
      destruct (String.eqb key ""); simpl.
      * intros [[= <-] | [= <-]]; reflexivity.
      * destruct (Str.length key <? MIN_API_KEY_LENGTH)%nat;
          intros [H | H]; try discriminate; injection H as <-; reflexivity.
    + intros [[= <-] | [= <-]]; reflexivity.
Qed.

Lemma X17_api_key_witness :
  exists key,
    TokenManager.getApiKey
      (TokenManager.setApiKey "0123456789abcdefghij" (TokenManager.new (T:=string)))
    = Return key /\
    TokenManager.hasApiKey
      (TokenManager.setApiKey "0123456789abcdefghij" (TokenManager.new (T:=string)))
    = true /\
    (20 <= Str.length key)%nat.
Proof.
  destruct (X17_api_key
    (TokenManager.setApiKey "0123456789abcdefghij" (TokenManager.new (T:=string)))
    "") as (_ & _ & H & _).
  apply H. reflexivity.
Defined.

(** Ten letters [é] are twenty bytes and ten code units: not a key. *)
Example ten_accented_letters :
  let k := "éééééééééé" in
  String.length k = 20%nat /\ Str.length k = 10%nat /\
  TokenManager.validateApiKey
    (TokenManager.setApiKey k (TokenManager.new (T:=string)))
  = Throw (AuthenticationError
             "La clé API doit contenir au moins 20 caractères.").
Proof. repeat split. Qed.

(** ** More on the request pipeline *)

Section PipelineMore.
Import HttpClient PipelineSpec.
Context {R : Runtime}.
Variable net : network.

Local Abbreviation attempt_at c method endpoint data :=
  (tryRequest net c (baseUrl c +:+ endpoint) method (buildHeaders c) data).

(** The outcomes after which the loop stops, one by one. *)
Lemma final_cases status hs body :
  final (Resolved status hs body) = true ->
  (200 <= status < 300)%Z \/ status = 401%Z \/
  ((400 <= status < 500)%Z /\ status <> 401%Z /\
   exists e, ApiErrors.fromResponse status (parsed status hs body) = Return e).
Proof.
  unfold final. intros Hf.
  destruct (Z.eqb_spec status 401) as [-> | H401]; [right; now left |].
  rewrite orb_false_r in Hf. apply orb_true_iff in Hf as [H2 | H4].
  - left. lia.
  - right; right. apply andb_true_iff in H4 as [H4 He].
    split; [lia |]. split; [assumption |].
    destruct (ApiErrors.fromResponse status (parsed status hs body)) as [e | e];
      [now exists e | discriminate].
Qed.

(** A response after which the loop does not stop is recorded and
    retried. *)
Lemma turn_other_status c method endpoint data attempt rest last w status hs body :
  net (fetches w) = Resolved status hs body ->
  final (Resolved status hs body) = false ->
  retry c (attempt_at c method endpoint data) (attempt :: rest) last w
  = retry c (attempt_at c method endpoint data) rest
      (Some (remote_error status hs body))
      (backoff c attempt (w ++ [sent c method endpoint data])).
Proof.
  intros Hn Hf. unfold final in Hf.
  apply orb_false_iff in Hf as [Hf H4]. apply orb_false_iff in Hf as [H2 H401].
  apply Z.eqb_neq in H401.
  assert (Hs : (status < 200 \/ 300 <= status)%Z).
  { apply andb_false_iff in H2 as [H2 | H2]; [left | right]; lia. }
  destruct (remote_error_cases status hs body) as [(m & E & Er) | (m & E & Er)].
  - rewrite E in H4. rewrite andb_true_r in H4.
    apply retry_fail.
    + rewrite (tryRequest_resolved _ _ _ _ _ _ _ _ _ Hn).
      now rewrite handleResponse_error.
    + rewrite Er. unfold retryable. simpl. now rewrite H4.
  - rewrite Er.
    exact (turn_conversion_error net _ _ _ _ _ _ _ _ status hs body (Error m)
             Hn Hs H401 E).
Qed.

(** After a final outcome the loop stops on the spot. *)
Lemma turn_final c method endpoint data attempt rest last w :
  final (net (fetches w)) = true ->
  snd (retry c (attempt_at c method endpoint data) (attempt :: rest) last w)
  = w ++ [sent c method endpoint data].
Proof.
  intros Hf. destruct (net (fetches w)) as [status hs body | name message] eqn:Hn;
    [| discriminate].
  apply final_cases in Hf as [H2 | [-> | (H4 & H401 & e & He)]].
  - now rewrite (turn_success net _ _ _ _ _ _ _ _ _ _ _ Hn).
  - now rewrite (turn_unauthorized net _ _ _ _ _ _ _ _ _ _ Hn).
  - now rewrite (turn_client_error net _ _ _ _ _ _ _ _ _ _ _ e Hn).
Qed.

(** After any other outcome it records an error and goes on. *)
Lemma turn_retry c method endpoint data attempt rest last w :
  final (net (fetches w)) = false ->
  exists e,
    retry c (attempt_at c method endpoint data) (attempt :: rest) last w
    = retry c (attempt_at c method endpoint data) rest (Some e)
        (backoff c attempt (w ++ [sent c method endpoint data])).
Proof.
  intros Hf. destruct (net (fetches w)) as [status hs body | name message] eqn:Hn.
  - exists (remote_error status hs body). now apply turn_other_status.
  - exists (transport_error c name message). now apply turn_rejected.
Qed.

Lemma seqZ_S (a : Z) (n : nat) :
  seqZ a (Z.of_nat (S n)) = a :: seqZ (a + 1) (Z.of_nat n).
Proof.
  rewrite seqZ_cons by lia. f_equal. f_equal; lia.
Qed.

(** The trace of the loop over the attempts [a .. retryAttempts]. *)
Lemma retry_trace c method endpoint data (n : nat) :
  forall (a : Z) last w,
    (a + Z.of_nat n = retryAttempts c)%Z ->
    exists k : nat,
      (k <= n)%nat /\
      snd (retry c (attempt_at c method endpoint data)
             (seqZ a (Z.of_nat (S n))) last w)
      = w ++ schedule (sent c method endpoint data) (seqZ a (Z.of_nat k))
          ++ [sent c method endpoint data] /\
      (forall i, (i < k)%nat -> final (net (fetches w + i)%nat) = false) /\
      (k = n \/ final (net (fetches w + k)%nat) = true).
Proof.
  induction n as [| n IH]; intros a last w Ha.
  - exists 0%nat. rewrite seqZ_S. change (seqZ (a + 1) (Z.of_nat 0)) with (@nil Z).
    split; [lia |]. split; [| split; [lia | now left]].
    destruct (final (net (fetches w))) eqn:Hf.
    + now rewrite turn_final.
    + destruct (turn_retry c method endpoint data a [] last w Hf) as [e ->].
      rewrite retry_nil. unfold backoff.
      destruct (Z.ltb_spec a (retryAttempts c)); [lia | reflexivity].
  - rewrite seqZ_S.
    destruct (final (net (fetches w))) eqn:Hf.
    + exists 0%nat. split; [lia |]. split; [| split; [lia |]].
      * now rewrite turn_final.
      * right. now rewrite Nat.add_0_r.
    + destruct (turn_retry c method endpoint data a
        (seqZ (a + 1) (Z.of_nat (S n))) last w Hf) as [e ->].
      unfold backoff. destruct (Z.ltb_spec a (retryAttempts c)); [| lia].
      destruct (IH (a + 1)%Z (Some e)
        ((w ++ [sent c method endpoint data]) ++ [Sleep (2 ^ (a - 1) * 1000)])
        ltac:(lia)) as (k & Hk & Hw & Hbefore & Hlast).
      assert (Hfet : fetches
        ((w ++ [sent c method endpoint data]) ++ [Sleep (2 ^ (a - 1) * 1000)])
        = S (fetches w)).
      { rewrite fetches_sleep. apply fetches_fetch. }
      rewrite Hfet in Hbefore, Hlast.
      exists (S k). split; [lia |]. split; [| split].
      * rewrite Hw. rewrite seqZ_S. simpl. now rewrite <- !app_assoc.
      * intros [| i] Hi; [now rewrite Nat.add_0_r |].
        rewrite Nat.add_succ_r. apply Hbefore. lia.
      * destruct Hlast as [-> | Hlast]; [now left | right].
        now rewrite Nat.add_succ_r.
Qed.

(** Whatever the loop returns is a success; whatever it throws comes from
    the attempts or from the code after the loop. *)
Lemma retry_result c method endpoint data attempts :
  forall last w,
    match fst (retry c (attempt_at c method endpoint data) attempts last w) with
    | Return response => Response.isSuccess response = true
    | Throw e =>
        isNetworkError e = true \/ isApiError e = true
        \/ e = AuthenticationErrors.unauthorized
    end.
Proof.
  induction attempts as [| attempt rest IH]; intros last w.
  - rewrite retry_nil. simpl. unfold exhausted.
    destruct last as [e |]; [| now left].
    destruct (isNetworkError e) eqn:En; simpl; [now left |].
    destruct (isApiError e) eqn:Ea; simpl; [right; now left | now left].
  - destruct (net (fetches w)) as [status hs body | name message] eqn:Hn.
    + destruct (final (Resolved status hs body)) eqn:Hf.
      * apply final_cases in Hf as [H2 | [-> | (H4 & H401 & e & He)]].
        -- rewrite (turn_success net _ _ _ _ _ _ _ _ _ _ _ Hn) by lia.
           unfold Response.isSuccess. simpl.
           apply andb_true_iff. split; [apply Z.leb_le | apply Z.ltb_lt]; lia.
        -- rewrite (turn_unauthorized net _ _ _ _ _ _ _ _ _ _ Hn).
           right; now right.
        -- rewrite (turn_client_error net _ _ _ _ _ _ _ _ _ _ _ e Hn)
             by (lia || assumption).
           right; left.
           destruct (fromResponse_cases status (parsed status hs body))
             as [[m E] | [m E]]; rewrite E in He; [| discriminate].
           now injection He as <-.
      * rewrite (turn_other_status _ _ _ _ _ _ _ _ _ _ _ Hn Hf). apply IH.
    + rewrite (turn_rejected net _ _ _ _ _ _ _ _ _ _ Hn). apply IH.
Qed.

End PipelineMore.

(** X18.  The trace of a request.  With a whole number of attempts, at
    least one, [request] sends the same request [k + 1] times for some [k]
    below [retryAttempts], waiting 1000 ms, 2000 ms, 4000 ms, ... between
    two sends and never after the last one; it does nothing else.  Each of
    the first [k] outcomes was not final: a rejection, or a response that is
    neither a success (200-299), nor a 401, nor a response with another
    status from 400 to 499 whose [ApiError] can be built; and the loop
    stopped either on a final outcome or because the attempts were used
    up. *)
Theorem X18_request_trace (R : Runtime) (net : network) (c : HttpClient.t)
    (method endpoint : string) (data : option json) (w : world) :
  (1 <= HttpClient.retryAttempts c)%Z ->
  let f := PipelineSpec.sent c method endpoint data in
  exists k : nat,
    (Z.of_nat k < HttpClient.retryAttempts c)%Z /\
    snd (HttpClient.request net c method endpoint data w)
    = w ++ schedule f (seqZ 1 (Z.of_nat k)) ++ [f] /\
    (forall i, (i < k)%nat -> final (net (fetches w + i)%nat) = false) /\
    ((Z.of_nat k + 1)%Z = HttpClient.retryAttempts c
     \/ final (net (fetches w + k)%nat) = true) /\
    (forall status hs body,
       final (Resolved status hs body) = true <->
       (200 <= status < 300)%Z \/ status = 401%Z \/
       ((400 <= status < 500)%Z /\
        exists e, ApiErrors.fromResponse status
                    (PipelineSpec.parsed status hs body) = Return e)).
Proof.
  intros HN f. unfold HttpClient.request.
  set (n := Z.to_nat (HttpClient.retryAttempts c - 1)).
  assert (EN : Z.of_nat (S n) = HttpClient.retryAttempts c) by lia.
  destruct (retry_trace net c method endpoint data n 1 None w ltac:(lia))
    as (k & Hk & Hw & Hbefore & Hlast).
  rewrite EN in Hw.
  exists k. split; [lia |]. split; [exact Hw |]. split; [exact Hbefore |].
  split; [destruct Hlast as [-> | Hlast]; [left; lia | now right] |].
  intros status hs body. split.
  - intros Hf. apply final_cases in Hf as [H2 | [-> | (H4 & _ & He)]];
      [now left | right; now left | right; right; now split].
  - unfold final. intros [H2 | [-> | (H4 & e & He)]].
    + replace ((200 <=? status)%Z && (status <? 300)%Z) with true; [reflexivity |].
      symmetry. apply andb_true_iff. split; [apply Z.leb_le | apply Z.ltb_lt]; lia.
    + reflexivity.
    + rewrite He, andb_true_r.
      replace ((400 <=? status)%Z && (status <? 500)%Z) with true;
        [apply orb_true_r |].
      symmetry. apply andb_true_iff. split; [apply Z.leb_le | apply Z.ltb_lt]; lia.
Qed.

Lemma X18_request_trace_witness :
  exists k : nat,
    (Z.of_nat k < 3)%Z /\
    snd (HttpClient.request (R := PipelineSpec.no_json)
           (PipelineSpec.scripted
              [Rejected "TypeError" "fetch failed"; Resolved 503 [] "";
               Resolved 200 [] "{}"])
           PipelineSpec.client3 "POST" "/external/invoices/sign" None [])
    = [] ++ schedule
              (PipelineSpec.sent PipelineSpec.client3 "POST"
                 "/external/invoices/sign" None)
              (seqZ 1 (Z.of_nat k))
         ++ [PipelineSpec.sent PipelineSpec.client3 "POST"
               "/external/invoices/sign" None].
Proof.
  destruct (X18_request_trace PipelineSpec.no_json
    (PipelineSpec.scripted
       [Rejected "TypeError" "fetch failed"; Resolved 503 [] "";
        Resolved 200 [] "{}"])
    PipelineSpec.client3 "POST" "/external/invoices/sign" None []
    ltac:(simpl; lia)) as (k & Hk & Hw & _).
  exists k. split; [exact Hk | exact Hw].
Defined.

(** X19.  No attempt configured.  With [retryAttempts] zero or negative,
    [request] sends nothing, waits for nothing and raises the
    connection-failure [NetworkError], which wraps no cause. *)
Theorem X19_no_attempt (R : Runtime) (net : network) (c : HttpClient.t)
    (method endpoint : string) (data : option json) (w : world) :
  (HttpClient.retryAttempts c <= 0)%Z ->
  HttpClient.request net c method endpoint data w
  = (Throw (NetworkErrors.connectionFailed None), w).
Proof.
  intros HN. unfold HttpClient.request.
  rewrite seqZ_nil by lia. reflexivity.
Qed.

Lemma X19_no_attempt_witness :
  HttpClient.request (R := PipelineSpec.no_json) (PipelineSpec.always 200)
    (HttpClient.new
       {| HttpClient.cfg_baseUrl := "http://54.247.95.108/ws";
          HttpClient.cfg_apiKey := None;
          HttpClient.cfg_timeout := None;
          HttpClient.cfg_retryAttempts := Some 0%Z |})
    "GET" "/x" None []
  = (Throw (NetworkErrors.connectionFailed None), []).
Proof.
  apply X19_no_attempt. simpl. lia.
Defined.

(** X20.  What a request yields.  The envelope that [request] returns
    always has a status from 200 to 299, and what it raises is always a
    [NetworkError], an [ApiError] or the [AuthenticationError] of a 401:
    never a plain [Error] nor a [ValidationError]. *)
Theorem X20_request_result (R : Runtime) (net : network) (c : HttpClient.t)
    (method endpoint : string) (data : option json) (w : world) :
  match fst (HttpClient.request net c method endpoint data w) with
  | Return response =>
      (200 <= Response.getStatusCode response < 300)%Z
  | Throw e =>
      isNetworkError e = true \/ isApiError e = true
      \/ e = AuthenticationErrors.unauthorized
  end.
Proof.
  unfold HttpClient.request.
  pose proof (retry_result net c method endpoint data
    (seqZ 1 (HttpClient.retryAttempts c)) None w) as H.
  destruct (fst (HttpClient.retry c _ _ None w)) as [response | e];
    [| exact H].
  unfold Response.isSuccess in H. unfold Response.getStatusCode. lia.
Qed.

(** X21.  The status classes of a response.  A response with a status of
    200 or more falls in exactly one of the four classes success,
    redirect, client error and server error (which has no upper bound); a
    response with a lower status falls in none.  [handleResponse] lets a
    response through exactly when it is a success. *)
Theorem X21_status_classes (R : Runtime) (r : Response.t) :
  status_classes r = (if (200 <=? Response.getStatusCode r)%Z then 1 else 0)%nat /\
  (HttpClient.handleResponse r = Return r <-> Response.isSuccess r = true).
Proof.
  split.
  - unfold status_classes, Response.isSuccess, Response.isRedirect,
      Response.isClientError, Response.isServerError, Response.getStatusCode.
    destruct (Z.leb_spec 200 (Response._statusCode r)),
      (Z.leb_spec 300 (Response._statusCode r)),
      (Z.leb_spec 400 (Response._statusCode r)),
      (Z.leb_spec 500 (Response._statusCode r)),
      (Z.ltb_spec (Response._statusCode r) 300),
      (Z.ltb_spec (Response._statusCode r) 400),
      (Z.ltb_spec (Response._statusCode r) 500);
      try lia; reflexivity.
  - unfold HttpClient.handleResponse.
    destruct (Response.isSuccess r); [tauto |].
    destruct (Response.getStatusCode r =? 401)%Z; [split; discriminate |].
    cbv zeta. destruct (ApiErrors.fromResponse _ _); split; discriminate.
Qed.

(** ** The constructed client and the signing service *)

Section DropFinalSlash.

Lemma dropFinalSlash_app_slash (s : string) : Str.dropFinalSlash (s +:+ "/") = s.
Proof.
  induction s as [| c s IH]; [reflexivity |].
  change (String c s +:+ "/") with (String c (s +:+ "/")).
  simpl. rewrite IH. destruct s; reflexivity.
Qed.

Lemma dropFinalSlash_cases (s : string) :
  Str.dropFinalSlash s = s \/ s = Str.dropFinalSlash s +:+ "/".
Proof.
  induction s as [| c s IH]; [now left |].
  destruct s as [| c' s'].
  - simpl. destruct (Ascii.eqb_spec c "/") as [-> |]; [now right | now left].
  - change (Str.dropFinalSlash (String c (String c' s')))
      with (String c (Str.dropFinalSlash (String c' s'))).
    destruct IH as [-> | IH]; [now left | right].
    change (String c (Str.dropFinalSlash (String c' s')) +:+ "/")
      with (String c (Str.dropFinalSlash (String c' s') +:+ "/")).
    now rewrite <- IH.
Qed.

End DropFinalSlash.

(** X22.  What a constructed client sends.  The constructor of
    [HttpClient] removes one final slash from the base URL, and no more
    than one; the URL of a request is that base URL followed by the
    endpoint.  An omitted timeout is 30000 ms and an omitted number of
    attempts is 3.  Every request carries the three fixed headers, and the
    [Authorization] header, [Bearer] followed by the key, exactly when
    the key is set and not empty. *)
Theorem X22_constructed_client (base endpoint method : string)
    (key : option string) (timeout attempts : option Z) (data : option json) :
  let c := HttpClient.new (HttpClient.mkConfig (base +:+ "/") key timeout attempts) in
  let c' := HttpClient.new (HttpClient.mkConfig base key timeout attempts) in
  HttpClient.baseUrl c = base /\
  (HttpClient.baseUrl c' = base \/ base = HttpClient.baseUrl c' +:+ "/") /\
  PipelineSpec.sent c method endpoint data
  = Fetch (base +:+ endpoint) method (HttpClient.buildHeaders c)
      (PipelineSpec.sent_body method data) /\
  HttpClient.timeout c = default 30000%Z timeout /\
  HttpClient.retryAttempts c = default 3%Z attempts /\
  HttpClient.buildHeaders c
  = [ ("Content-Type", "application/json"); ("Accept", "application/json");
      ("User-Agent", "FNE-SDK-JS/1.0.0") ]
    ++ match key with
       | Some k => if String.eqb k "" then [] else [("Authorization", "Bearer " +:+ k)]
       | None => []
       end.
Proof.
  cbv zeta. unfold PipelineSpec.sent, HttpClient.new. simpl.
  rewrite dropFinalSlash_app_slash.
  split; [reflexivity |]. split; [apply dropFinalSlash_cases |].
  split; [reflexivity |]. split; [reflexivity |]. split; [reflexivity |].
  unfold HttpClient.buildHeaders, truthy. simpl.
  destruct key as [k |]; [| reflexivity].
  destruct (String.eqb k ""); reflexivity.
Qed.

Section Signing.
Import HttpClient PipelineSpec.
Context {R : Runtime}.
Variable net : network.

(** A request that returns had at least one attempt, and its trace is
    made of the requests and waits of the schedule. *)
Lemma request_return_trace c method endpoint data w response w' :
  request net c method endpoint data w = (Return response, w') ->
  Response.isSuccess response = true /\
  exists k : nat,
    w' = w ++ schedule (sent c method endpoint data) (seqZ 1 (Z.of_nat k))
           ++ [sent c method endpoint data].
Proof.
  intros Hr. split.
  - pose proof (retry_result net c method endpoint data
      (seqZ 1 (retryAttempts c)) None w) as H.
    unfold request in Hr. rewrite Hr in H. exact H.
  - destruct (Z_le_gt_dec (retryAttempts c) 0) as [H0 | H1].
    + unfold request in Hr. rewrite seqZ_nil in Hr by lia. discriminate.
    + set (n := Z.to_nat (retryAttempts c - 1)).
      assert (EN : Z.of_nat (S n) = retryAttempts c) by lia.
      destruct (retry_trace net c method endpoint data n 1 None w ltac:(lia))
        as (k & _ & Hw & _).
      rewrite EN in Hw. unfold request in Hr. rewrite Hr in Hw. simpl in Hw.
      now exists k.
Qed.

End Signing.

(** X23.  A signed document.  When [signInvoice] returns a result, the
    document had passed validation, it was sent in its serialised form by
    [POST] to [/external/invoices/sign] under the base URL of the client
    (possibly several times, with the waits of the schedule in between and
    nothing else), and the status code of the result is the status of the
    transport, between 200 and 299, whatever [statusCode] the body of the
    answer may contain. *)
Theorem X23_signed_document (R : Runtime) (net : network) (svc svc' : InvoiceService.t)
    (invoice : Invoice.t) (w w' : world) (result : ApiResponse.t) :
  InvoiceService.signInvoice net svc invoice w = (Return result, svc', w') ->
  let f := Fetch (HttpClient.baseUrl (InvoiceService.httpClient svc)
                  +:+ "/external/invoices/sign")
             "POST" (HttpClient.buildHeaders (InvoiceService.httpClient svc))
             (Some (Invoice.toArray invoice)) in
  fst (Validator.validate invoice (InvoiceService.validator svc)) = Return tt /\
  (exists k : nat, w' = w ++ schedule f (seqZ 1 (Z.of_nat k)) ++ [f]) /\
  (exists status : Z,
     (200 <= status < 300)%Z /\
     ApiResponse._statusCode result = JNum (Number.of_Z status)).
Proof.
  intros Hs f. unfold InvoiceService.signInvoice in Hs.
  destruct (Validator.validate invoice (InvoiceService.validator svc))
    as [[[] | e] v'] eqn:Hv; [| discriminate].
  split; [reflexivity |].
  unfold HttpClient.post in Hs.
  destruct (HttpClient.request net (InvoiceService.httpClient svc) "POST"
              ENDPOINT_SIGN_INVOICE (Some (Invoice.toArray invoice)) w)
    as [[response | e] w1] eqn:Hr; [| discriminate].
  destruct (request_return_trace net _ _ _ _ _ _ _ Hr) as (Hok & k & Hw).
  destruct (negb (json_truthy (Response.json response))); [discriminate |].
  injection Hs as <- _ <-. split; [exists k; exact Hw |].
  exists (Response.getStatusCode response). split.
  - unfold Response.isSuccess in Hok. unfold Response.getStatusCode. lia.
  - unfold ApiResponse.fromJSON. simpl. now rewrite ObjFacts.get_set_eq.
Qed.

Lemma X23_signed_document_witness :
  exists status : Z,
    (200 <= status < 300)%Z /\
    ApiResponse._statusCode
      (ApiResponse.fromJSON
         (Obj.set "statusCode" (JNum (Number.of_Z 201))
            (spread (JObj [("statusCode", JNum (Number.of_Z 500))]))))
    = JNum (Number.of_Z status).
Proof.
  pose (R := {| JSON_parse := fun _ => Some (JObj [("statusCode", JNum (Number.of_Z 500))]);
                ToString := fun _ => Converted "[object Object]" |}).
  destruct (X23_signed_document R (PipelineSpec.always 201)
    (InvoiceService.new PipelineSpec.client3)
    (InvoiceService.mk PipelineSpec.client3
       (snd (Validator.validate Samples.b2c_sale Validator.fresh)))
    Samples.b2c_sale []
    [PipelineSpec.sent PipelineSpec.client3 "POST" "/external/invoices/sign"
       (Some (Invoice.toArray Samples.b2c_sale))]
    (ApiResponse.fromJSON
       (Obj.set "statusCode" (JNum (Number.of_Z 201))
          (spread (JObj [("statusCode", JNum (Number.of_Z 500))]))))
    ltac:(vm_compute; reflexivity)) as (_ & _ & H).
  exact H.
Defined.

(** ** The purchase service and the refund service *)

(** X24.  Signing a purchase.  [signPurchaseInvoice] refuses a document
    whose type is not [purchase] before anything else happens: the error
    carries the single key [invoiceType], the validator is not run (it
    keeps the errors of its previous run) and nothing is sent.  For a
    purchase it does what [signInvoice] does on the same HTTP client and
    validator.  The documents that the three factory methods of the
    purchase service build are purchases. *)
Theorem X24_purchase_service (R : Runtime) (net : network)
    (svc : PurchaseService.t) (invoice : Invoice.t) (w : world) :
  (isPurchase invoice = false ->
   PurchaseService.signPurchaseInvoice net svc invoice w
   = (Throw (ValidationError
        "Validation échouée pour invoiceType: Cette méthode est réservée aux factures d'achat (type: purchase)"
        [("invoiceType",
          "Cette méthode est réservée aux factures d'achat (type: purchase)")]),
      svc, w)) /\
  (isPurchase invoice = true ->
   PurchaseService.signPurchaseInvoice net svc invoice w
   = (let '(result, svc', w') :=
        InvoiceService.signInvoice net
          (InvoiceService.mk (PurchaseService.httpClient svc)
             (PurchaseService.validator svc)) invoice w in
      (result,
       PurchaseService.mk (InvoiceService.httpClient svc')
         (InvoiceService.validator svc'),
       w'))) /\
  (forall pos est name phone email ncc pay tpl,
     isPurchase (PurchaseService.createPurchaseInvoice pos est name phone email pay tpl)
     = true /\
     isPurchase (PurchaseService.createB2BPurchaseInvoice pos est name phone email ncc pay)
     = true /\
     isPurchase (PurchaseService.createCooperativePurchase pos est name phone email pay)
     = true).
Proof.
  split; [| split].
  - intros Hp. unfold PurchaseService.signPurchaseInvoice. now rewrite Hp.
  - intros Hp. unfold PurchaseService.signPurchaseInvoice, InvoiceService.signInvoice.
    rewrite Hp. simpl.
    destruct (Validator.validate invoice (PurchaseService.validator svc))
      as [[[] | e] v']; [| reflexivity].
    destruct (HttpClient.post net (PurchaseService.httpClient svc)
                ENDPOINT_SIGN_INVOICE (Invoice.toArray invoice) w)
      as [[response | e] w']; [| reflexivity].
    now destruct (negb (json_truthy (Response.json response))).
  - intros. repeat split.
Qed.

Lemma X24_purchase_service_witness :
  PurchaseService.signPurchaseInvoice (R := PipelineSpec.no_json)
    (PipelineSpec.always 200)
    (PurchaseService.new PipelineSpec.client3) Samples.b2c_sale []
  = (Throw (ValidationError
       "Validation échouée pour invoiceType: Cette méthode est réservée aux factures d'achat (type: purchase)"
       [("invoiceType",
         "Cette méthode est réservée aux factures d'achat (type: purchase)")]),
     PurchaseService.new PipelineSpec.client3, []).
Proof.
  destruct (X24_purchase_service PipelineSpec.no_json (PipelineSpec.always 200)
    (PurchaseService.new PipelineSpec.client3) Samples.b2c_sale [])
    as (H & _).
  apply H. reflexivity.
Defined.

Section Refunds.
Import RefundService.

Lemma addItem_accepted entry r :
  accepted entry = true ->
  RefundRequest.addItem (id entry) (quantity entry) r
  = Return {| RefundRequest._items := RefundRequest._items r ++ [stored entry] |}.
Proof.
  unfold accepted, blank, RefundRequest.addItem. intros H.
  apply andb_true_iff in H as [Hb Hq].
  apply negb_true_iff in Hb. apply negb_true_iff in Hq.
  now rewrite Hb, Hq.
Qed.

Lemma addItem_refused entry r :
  accepted entry = false ->
  RefundRequest.addItem (id entry) (quantity entry) r
  = Throw (Error (if blank (id entry)
                  then "L'ID de l'article est requis"
                  else "La quantité doit être supérieure à 0")).
Proof.
  unfold accepted, blank, RefundRequest.addItem. intros H.
  destruct (String.eqb (id entry) ""
            || (Str.length (Str.trim (id entry)) =? 0)%nat); [reflexivity |].
  simpl in H. apply negb_false_iff in H. now rewrite H.
Qed.

Lemma addItems_spec items : forall r,
  addItems items r
  = match List.find (fun entry => negb (accepted entry)) items with
    | Some entry =>
        Throw (Error (if blank (id entry)
                      then "L'ID de l'article est requis"
                      else "La quantité doit être supérieure à 0"))
    | None =>
        Return {| RefundRequest._items := RefundRequest._items r ++ map stored items |}
    end.
Proof.
  induction items as [| entry items IH]; intros r.
  - simpl. rewrite app_nil_r. now destruct r.
  - simpl. destruct (accepted entry) eqn:Ha; simpl.
    + rewrite (addItem_accepted _ _ Ha), IH. simpl.
      destruct (List.find _ items); [reflexivity |].
      now rewrite <- app_assoc.
    + now rewrite (addItem_refused _ _ Ha).
Qed.

(** The per-item checks of [validateRefundRequest] record nothing for
    stored items. *)
Lemma collect_stored items : forall index errors,
  Forall (fun entry => accepted entry = true) items ->
  collect (map stored items) index errors = errors.
Proof.
  induction items as [| entry items IH]; intros index errors Hall; [reflexivity |].
  inversion Hall as [| ? ? Ha Hrest]; subst. simpl.
  unfold accepted in Ha. apply andb_true_iff in Ha as [Hb Hq].
  apply negb_true_iff in Hb. apply negb_true_iff in Hq.
  fold (blank (Str.trim (id entry))).
  rewrite (TrimFacts.blank_trim _ Hb), Hq. now apply IH.
Qed.

Lemma find_none_Forall items :
  List.find (fun entry => negb (accepted entry)) items = None ->
  Forall (fun entry => accepted entry = true) items.
Proof.
  intros H. apply List.Forall_forall. intros entry Hin.
  pose proof (List.find_none _ _ H entry Hin) as Hn.
  now apply negb_false_iff in Hn.
Qed.

Lemma substitution_dollar_free matched before after replacement :
  dollar_free replacement = true ->
  Replace.substitution matched before after replacement = replacement.
Proof.
  induction replacement as [| c r IH]; [reflexivity |].
  intros H. simpl in H. apply andb_true_iff in H as [Hc Hr].
  apply negb_true_iff in Hc.
  assert (E : Replace.substitution matched before after (String c r)
              = String c (Replace.substitution matched before after r)).
  { destruct (Ascii.eqb_spec c "$") as [-> | Hne]; [discriminate |].
    destruct c as [[] [] [] [] [] [] [] []]; try reflexivity; contradiction. }
  rewrite E. now rewrite IH.
Qed.

Lemma refund_endpoint (originalInvoiceId : string) :
  dollar_free originalInvoiceId = true ->
  Replace.replace "{id}" originalInvoiceId ENDPOINT_REFUND_INVOICE
  = "/external/invoices/" +:+ originalInvoiceId +:+ "/refund".
Proof.
  intros H. unfold Replace.replace, ENDPOINT_REFUND_INVOICE.
  change (Replace.find "{id}" "/external/invoices/{id}/refund")
    with (Some ("/external/invoices/", "/refund")).
  cbv beta iota. now rewrite substitution_dollar_free.
Qed.

End Refunds.

Lemma built_request (entries : list RefundService.OriginalInvoiceItem)
    (request : RefundRequest.t) :
  RefundService.addItems entries RefundRequest.new = Return request ->
  RefundRequest.getItems request = map stored entries /\
  Forall (fun entry => accepted entry = true) entries /\
  RefundService.collect (RefundRequest.getItems request) 0 [] = [] /\
  RefundService.validateRefundRequest request
  = (if (length entries =? 0)%nat then
       Throw (ValidationError
         "Validation échouée pour items: La demande de remboursement doit contenir au moins un article"
         [("items", "La demande de remboursement doit contenir au moins un article")])
     else Return tt).
Proof.
  rewrite addItems_spec.
  destruct (List.find _ entries) eqn:Hf; [discriminate |].
  intros [= <-]. apply find_none_Forall in Hf.
  unfold RefundService.validateRefundRequest, RefundRequest.hasItems,
    RefundRequest.getItems.
  cbn [RefundRequest._items RefundRequest.new app].
  rewrite length_map, (collect_stored entries 0 [] Hf).
  split; [reflexivity |]. split; [exact Hf |]. split; [reflexivity |].
  destruct entries; reflexivity.
Qed.

(** X25.  Requests built through [addItem].  When feeding a list of
    entries to [addItem], as [createFullRefund] and [createPartialRefund]
    do, succeeds, the request holds the entries in order, ids trimmed, and
    every entry has an id that is not blank (not empty nor white space
    only) and a quantity that does not compare [<= 0].  For such a request
    the per-item checks of [validateRefundRequest] record nothing:
    validation fails only when the request is empty, with the single key
    [items]. *)
Theorem X25_refund_request (entries : list RefundService.OriginalInvoiceItem)
    (request : RefundRequest.t) :
  RefundService.addItems entries RefundRequest.new = Return request ->
  RefundRequest.getItems request = map stored entries /\
  Forall (fun entry => accepted entry = true) entries /\
  RefundService.collect (RefundRequest.getItems request) 0 [] = [] /\
  RefundService.validateRefundRequest request
  = (if (length entries =? 0)%nat then
       Throw (ValidationError
         "Validation échouée pour items: La demande de remboursement doit contenir au moins un article"
         [("items", "La demande de remboursement doit contenir au moins un article")])
     else Return tt).
Proof. apply built_request. Qed.

Lemma X25_refund_request_witness :
  RefundService.validateRefundRequest
    {| RefundRequest._items :=
         [ {| RefundRequest.id := "A1"; RefundRequest.quantity := Number.of_Z 2 |} ] |}
  = Return tt.
Proof.
  destruct (X25_refund_request
    [ {| RefundService.id := " A1 "; RefundService.quantity := Number.of_Z 2 |} ]
    {| RefundRequest._items :=
         [ {| RefundRequest.id := "A1"; RefundRequest.quantity := Number.of_Z 2 |} ] |}
    ltac:(reflexivity)) as (_ & _ & _ & H).
  exact H.
Defined.

(** X26.  A full or partial refund.  When an entry is refused, the plain
    [Error] of [addItem] is raised and nothing is sent, even if earlier
    entries were fine; with no entry at all, the [ValidationError] keyed
    [items] is raised and nothing is sent.  Otherwise the request is sent
    by [POST], once or more, with the items as body, to the refund
    endpoint of the original invoice:
    [/external/invoices/<id>/refund] when the id contains no dollar
    sign.  [createPartialRefund] is the same function. *)
Theorem X26_refund_service (R : Runtime) (net : network) (svc : RefundService.t)
    (originalInvoiceId : string)
    (entries : list RefundService.OriginalInvoiceItem) (w : world) :
  (forall e,
     RefundService.addItems entries RefundRequest.new = Throw e ->
     RefundService.createFullRefund net svc originalInvoiceId entries w = (Throw e, w) /\
     (e = Error "L'ID de l'article est requis"
      \/ e = Error "La quantité doit être supérieure à 0")) /\
  (entries = [] ->
   RefundService.createFullRefund net svc originalInvoiceId entries w
   = (Throw (ValidationError
        "Validation échouée pour items: La demande de remboursement doit contenir au moins un article"
        [("items", "La demande de remboursement doit contenir au moins un article")]),
      w)) /\
  (forall request,
     RefundService.addItems entries RefundRequest.new = Return request ->
     entries <> [] ->
     dollar_free originalInvoiceId = true ->
     snd (RefundService.createFullRefund net svc originalInvoiceId entries w)
     = snd (HttpClient.request net (RefundService.httpClient svc) "POST"
              ("/external/invoices/" +:+ originalInvoiceId +:+ "/refund")
              (Some (RefundRequest.toArray request)) w)) /\
  RefundService.createPartialRefund net svc originalInvoiceId entries w
  = RefundService.createFullRefund net svc originalInvoiceId entries w.
Proof.
  split; [| split; [| split]].
  - intros e He. unfold RefundService.createFullRefund. rewrite He.
    split; [reflexivity |].
    rewrite addItems_spec in He.
    destruct (List.find _ entries) as [entry |]; [| discriminate].
    injection He as <-. destruct (blank (RefundService.id entry)); [now left | now right].
  - intros ->. reflexivity.
  - intros request Hr Hne Hd. unfold RefundService.createFullRefund. rewrite Hr.
    unfold RefundService.createRefund.
    destruct (built_request entries request Hr) as (_ & _ & _ & Hv).
    rewrite Hv. destruct entries as [| entry entries]; [contradiction |].
    simpl. rewrite (refund_endpoint _ Hd). unfold HttpClient.post.
    destruct (HttpClient.request net (RefundService.httpClient svc) "POST" _ _ w)
      as [[response | e] w']; [| reflexivity].
    now destruct (negb (json_truthy (Response.json response))).
  - reflexivity.
Qed.

Lemma X26_refund_service_witness :
  RefundService.createFullRefund (R := PipelineSpec.no_json) (PipelineSpec.always 200)
    (RefundService.new PipelineSpec.client3) "INV-1"
    [ {| RefundService.id := "A1"; RefundService.quantity := Number.of_Z 2 |};
      {| RefundService.id := "A2"; RefundService.quantity := 0%num |} ] []
  = (Throw (Error "La quantité doit être supérieure à 0"), []).
Proof.
  destruct (X26_refund_service PipelineSpec.no_json (PipelineSpec.always 200)
    (RefundService.new PipelineSpec.client3) "INV-1"
    [ {| RefundService.id := "A1"; RefundService.quantity := Number.of_Z 2 |};
      {| RefundService.id := "A2"; RefundService.quantity := 0%num |} ] [])
    as (H & _).
  destruct (H (Error "La quantité doit être supérieure à 0") ltac:(reflexivity))
    as (Hr & _).
  exact Hr.
Defined.

(** ** The client *)

Section Client.
Import FneClient.

Lemma rebuildHttpClient_http (c c' : FneClient.t) (r : result unit) :
  rebuildHttpClient c = (r, c') ->
  HttpClient.baseUrl (httpClient c') = HttpClient.baseUrl (httpClient c) /\
  HttpClient.timeout (httpClient c') = HttpClient.timeout (httpClient c) /\
  HttpClient.retryAttempts (httpClient c') = HttpClient.retryAttempts (httpClient c) /\
  _testMode c' = _testMode c /\ _baseUrl c' = _baseUrl c /\
  tokenManager c' = tokenManager c.
Proof.
  unfold rebuildHttpClient.
  destruct (TokenManager.getApiKey (tokenManager c)) as [key | e];
    intros [= <- <-]; repeat split.
Qed.

Lemma rebuildHttpClient_return (c c' : FneClient.t) :
  rebuildHttpClient c = (Return tt, c') ->
  exists key,
    TokenManager.apiKey (tokenManager c) = Some key /\ key <> "" /\
    HttpClient.apiKey (httpClient c') = Some key /\
    _invoiceService c' = None /\ _refundService c' = None /\
    _purchaseService c' = None.
Proof.
  unfold rebuildHttpClient, TokenManager.getApiKey, truthy.
  destruct (TokenManager.apiKey (tokenManager c)) as [key |]; [| discriminate].
  destruct (String.eqb_spec key "") as [-> | Hne]; simpl; [discriminate |].
  intros [= <-]. exists key. repeat split. exact Hne.
Qed.

Lemma rebuildHttpClient_throw (c c' : FneClient.t) e :
  rebuildHttpClient c = (Throw e, c') ->
  c' = c /\ isAuthenticationError e = true /\
  (TokenManager.apiKey (tokenManager c) = None
   \/ TokenManager.apiKey (tokenManager c) = Some "").
Proof.
  unfold rebuildHttpClient, TokenManager.getApiKey, truthy.
  destruct (TokenManager.apiKey (tokenManager c)) as [key |].
  - destruct (String.eqb_spec key "") as [-> | Hne]; simpl; [| discriminate].
    intros [= <- <-]. repeat split. now right.
  - intros [= <- <-]. repeat split. now left.
Qed.

End Client.

(** X27.  Switching mode does not move the HTTP client.  After
    [enableProductionMode(url)] or [enableTestMode()] has returned, the
    client reports the new mode and the new base URL in [getConfig], and
    its service slots are empty; but the base URL of its HTTP client, to
    which the services obtained afterwards send their requests, is the one
    that the client was constructed with, as are the timeout and the
    number of attempts. *)
Theorem X27_mode_switch (c c' : FneClient.t) (url : string) :
  (FneClient.enableProductionMode url c = (Return tt, c') ->
   FneClient.isTestMode c' = false /\
   (exists cfg, FneClient.getConfig c' = Return cfg /\
                FneClient.cfg_baseUrl cfg = url /\
                FneClient.cfg_testMode cfg = Some false)) /\
  (FneClient.enableTestMode c = (Return tt, c') ->
   FneClient.isTestMode c' = true /\
   (exists cfg, FneClient.getConfig c' = Return cfg /\
                FneClient.cfg_baseUrl cfg = "http://54.247.95.108/ws" /\
                FneClient.cfg_testMode cfg = Some true)) /\
  (FneClient.enableProductionMode url c = (Return tt, c')
   \/ FneClient.enableTestMode c = (Return tt, c') ->
   HttpClient.baseUrl (FneClient.httpClient c')
   = HttpClient.baseUrl (FneClient.httpClient c) /\
   HttpClient.timeout (FneClient.httpClient c')
   = HttpClient.timeout (FneClient.httpClient c) /\
   HttpClient.retryAttempts (FneClient.httpClient c')
   = HttpClient.retryAttempts (FneClient.httpClient c) /\
   InvoiceService.httpClient (fst (FneClient.invoices c')) = FneClient.httpClient c' /\
   RefundService.httpClient (fst (FneClient.refunds c')) = FneClient.httpClient c' /\
   PurchaseService.httpClient (fst (FneClient.purchases c')) = FneClient.httpClient c' /\
   InvoiceService.validator (fst (FneClient.invoices c')) = Validator.fresh /\
   PurchaseService.validator (fst (FneClient.purchases c')) = Validator.fresh).
Proof.
  assert (Hcfg : forall c0 c1, FneClient.rebuildHttpClient c0 = (Return tt, c1) ->
    exists cfg, FneClient.getConfig c1 = Return cfg /\
                FneClient.cfg_baseUrl cfg = FneClient._baseUrl c0 /\
                FneClient.cfg_testMode cfg = Some (FneClient._testMode c0)).
  { intros c0 c1 H.
    destruct (rebuildHttpClient_http _ _ _ H) as (_ & _ & _ & Hm & Hb & Ht).
    destruct (rebuildHttpClient_return _ _ H) as (key & Hk & Hne & _).
    unfold FneClient.getConfig, TokenManager.hasApiKey, TokenManager.getApiKey.
    rewrite Ht, Hk.
    destruct (truthy (Some key)); simpl;
      [destruct (0 <? Str.length key)%nat |];
      eexists; (split; [reflexivity |]); simpl; rewrite ?Hm, ?Hb; now split. }
  assert (Hsvc : forall c0 c1, FneClient.rebuildHttpClient c0 = (Return tt, c1) ->
    InvoiceService.httpClient (fst (FneClient.invoices c1)) = FneClient.httpClient c1 /\
    RefundService.httpClient (fst (FneClient.refunds c1)) = FneClient.httpClient c1 /\
    PurchaseService.httpClient (fst (FneClient.purchases c1)) = FneClient.httpClient c1 /\
    InvoiceService.validator (fst (FneClient.invoices c1)) = Validator.fresh /\
    PurchaseService.validator (fst (FneClient.purchases c1)) = Validator.fresh).
  { intros c0 c1 H.
    destruct (rebuildHttpClient_return _ _ H) as (key & _ & _ & _ & Hi & Hr & Hp).
    unfold FneClient.invoices, FneClient.refunds, FneClient.purchases.
    rewrite Hi, Hr, Hp. repeat split. }
  split; [| split].
  - unfold FneClient.enableProductionMode.
    destruct (String.eqb url "" || (Str.length (Str.trim url) =? 0)%nat);
      [discriminate |].
    intros H. destruct (rebuildHttpClient_http _ _ _ H) as (_ & _ & _ & Hm & _).
    split; [exact Hm |]. exact (Hcfg _ _ H).
  - unfold FneClient.enableTestMode.
    intros H. destruct (rebuildHttpClient_http _ _ _ H) as (_ & _ & _ & Hm & _).
    split; [exact Hm |]. exact (Hcfg _ _ H).
  - intros [H | H].
    + unfold FneClient.enableProductionMode in H.
      destruct (String.eqb url "" || (Str.length (Str.trim url) =? 0)%nat);
        [discriminate |].
      destruct (rebuildHttpClient_http _ _ _ H) as (Hb & Ht & Hr & _).
      split; [exact Hb |]. split; [exact Ht |]. split; [exact Hr |].
      exact (Hsvc _ _ H).
    + unfold FneClient.enableTestMode in H.
      destruct (rebuildHttpClient_http _ _ _ H) as (Hb & Ht & Hr & _).
      split; [exact Hb |]. split; [exact Ht |]. split; [exact Hr |].
      exact (Hsvc _ _ H).
Qed.

Lemma X27_mode_switch_witness :
  HttpClient.baseUrl
    (FneClient.httpClient
       (snd (FneClient.enableProductionMode "https://fne.example/ws"
               (FneClient.test "0123456789abcdefghij"))))
  = "http://54.247.95.108/ws".
Proof.
  destruct (X27_mode_switch (FneClient.test "0123456789abcdefghij")
    (snd (FneClient.enableProductionMode "https://fne.example/ws"
            (FneClient.test "0123456789abcdefghij")))
    "https://fne.example/ws") as (_ & _ & H).
  destruct (H ltac:(left; vm_compute; reflexivity)) as (Hb & _).
  rewrite Hb. reflexivity.
Defined.

(** X28.  The API key of the client.  [setApiKey(key)] reaches both the
    token manager and the HTTP client, whose requests then carry
    [Bearer key] when the key is not empty, and changes nothing else.
    [getConfig] never throws and reports the key, or the empty string when
    none is usable.  When the key is empty or missing, [enableTestMode]
    and, for a URL that is not blank, [enableProductionMode] raise the
    [AuthenticationError] of the missing key after the mode and the base
    URL have been assigned: the client is left in the new mode with its
    HTTP client and its service slots as they were.  A blank production
    URL (empty, or white space only) is refused with a plain [Error] and
    no change, whatever the key.  With a key that is not empty, both
    switches return, but for the blank URL. *)
Theorem X28_client_api_key (c : FneClient.t) (key url : string) :
  (let c' := FneClient.setApiKey key c in
   TokenManager.apiKey (FneClient.tokenManager c') = Some key /\
   HttpClient.apiKey (FneClient.httpClient c') = Some key /\
   Obj.get "Authorization" (HttpClient.buildHeaders (FneClient.httpClient c'))
   = (if String.eqb key "" then None else Some ("Bearer " +:+ key)) /\
   HttpClient.baseUrl (FneClient.httpClient c')
   = HttpClient.baseUrl (FneClient.httpClient c) /\
   FneClient.getConfig c'
   = Return {| FneClient.cfg_apiKey := key;
               FneClient.cfg_baseUrl := FneClient._baseUrl c;
               FneClient.cfg_testMode := Some (FneClient._testMode c);
               FneClient.cfg_timeout := Some (FneClient._timeout c);
               FneClient.cfg_retryAttempts := Some (FneClient._retryAttempts c) |}) /\
  (exists cfg, FneClient.getConfig c = Return cfg) /\
  (TokenManager.apiKey (FneClient.tokenManager c) = None
   \/ TokenManager.apiKey (FneClient.tokenManager c) = Some "" ->
   FneClient.enableTestMode c
   = (Throw (AuthenticationError
               "Aucune clé API fournie. Veuillez configurer votre clé API avant d'effectuer des requêtes."),
      FneClient.setMode true "http://54.247.95.108/ws" c) /\
   (Str.all_space url = false ->
    FneClient.enableProductionMode url c
    = (Throw (AuthenticationError
                "Aucune clé API fournie. Veuillez configurer votre clé API avant d'effectuer des requêtes."),
       FneClient.setMode false url c))) /\
  (Str.all_space url = true ->
   FneClient.enableProductionMode url c
   = (Throw (Error "L'URL de production est requise"), c)) /\
  (forall k,
     TokenManager.apiKey (FneClient.tokenManager c) = Some k -> k <> "" ->
     fst (FneClient.enableTestMode c) = Return tt /\
     (Str.all_space url = false ->
      fst (FneClient.enableProductionMode url c) = Return tt)).
Proof.
  assert (Hthrow : forall c0,
            TokenManager.apiKey (FneClient.tokenManager c0) = None
            \/ TokenManager.apiKey (FneClient.tokenManager c0) = Some "" ->
            FneClient.rebuildHttpClient c0
            = (Throw (AuthenticationError
                        "Aucune clé API fournie. Veuillez configurer votre clé API avant d'effectuer des requêtes."),
               c0)).
  { intros c0 Hk. unfold FneClient.rebuildHttpClient, TokenManager.getApiKey.
    destruct Hk as [-> | ->]; reflexivity. }
  assert (Hreturn : forall c0 k,
            TokenManager.apiKey (FneClient.tokenManager c0) = Some k -> k <> "" ->
            fst (FneClient.rebuildHttpClient c0) = Return tt).
  { intros c0 k Hk Hne. unfold FneClient.rebuildHttpClient, TokenManager.getApiKey, truthy.
    rewrite Hk. now destruct (String.eqb_spec k ""). }
  split; [| split; [| split; [| split]]].
  - cbv zeta. split; [reflexivity |]. split; [reflexivity |]. split; [| split].
    + unfold FneClient.setApiKey, HttpClient.buildHeaders, truthy. simpl.
      now destruct (String.eqb key "").
    + reflexivity.
    + unfold FneClient.getConfig, FneClient.setApiKey, TokenManager.hasApiKey,
        TokenManager.getApiKey, truthy. simpl. rewrite length_positive.
      destruct (String.eqb_spec key "") as [-> | _]; reflexivity.
  - unfold FneClient.getConfig, TokenManager.hasApiKey, TokenManager.getApiKey.
    destruct (TokenManager.apiKey (FneClient.tokenManager c)) as [k |];
      [| eexists; reflexivity].
    destruct (truthy (Some k)); simpl;
      [destruct (0 <? Str.length k)%nat |]; eexists; reflexivity.
  - intros Hk. split.
    + unfold FneClient.enableTestMode. now apply Hthrow.
    + intros Hb. unfold FneClient.enableProductionMode. fold (blank url).
      rewrite TrimFacts.blank_spec, Hb. now apply Hthrow.
  - intros Hb. unfold FneClient.enableProductionMode. fold (blank url).
    now rewrite TrimFacts.blank_spec, Hb.
  - intros k Hk Hne. split.
    + unfold FneClient.enableTestMode. now apply (Hreturn _ k).
    + intros Hb. unfold FneClient.enableProductionMode. fold (blank url).
      rewrite TrimFacts.blank_spec, Hb. now apply (Hreturn _ k).
Qed.

Lemma X28_client_api_key_witness :
  FneClient.enableTestMode (FneClient.test "")
  = (Throw (AuthenticationError
              "Aucune clé API fournie. Veuillez configurer votre clé API avant d'effectuer des requêtes."),
     FneClient.setMode true "http://54.247.95.108/ws" (FneClient.test "")) /\
  FneClient.enableProductionMode (String "194" (String "160" " "))
    (FneClient.test "0123456789abcdefghij")
  = (Throw (Error "L'URL de production est requise"),
     FneClient.test "0123456789abcdefghij") /\
  fst (FneClient.enableProductionMode "https://fne.example/ws"
         (FneClient.test "0123456789abcdefghij"))
  = Return tt.
Proof.
  split; [| split].
  - destruct (X28_client_api_key (FneClient.test "") "" "") as (_ & _ & H & _).
    apply H. now right.
  - destruct (X28_client_api_key (FneClient.test "0123456789abcdefghij") ""
                (String "194" (String "160" " "))) as (_ & _ & _ & H & _).
    apply H. reflexivity.
  - destruct (X28_client_api_key (FneClient.test "0123456789abcdefghij") ""
                "https://fne.example/ws") as (_ & _ & _ & _ & H).
    destruct (H "0123456789abcdefghij" eq_refl ltac:(discriminate)) as (_ & Hp).
    apply Hp. reflexivity.
Defined.

(** ** The documents that [validate] accepts *)

Section Acceptance.
Import Validator ValidatorSpec ValidatorFacts ObjFacts.
Local Open Scope validator_scope.

Lemma decides_ext {A} (b b' : bool) (m : M A) : b = b' -> decides b m -> decides b' m.
Proof. now intros ->. Qed.

Lemma decides_ret {A} (a : A) : decides true (ret a).
Proof. intros st. exists []. now split. Qed.

Lemma decides_addError k message : decides false (addError k message).
Proof. intros st. exists [(k, message)]. split; [reflexivity | split; discriminate]. Qed.

Lemma decides_bind {A B} (b1 b2 : bool) (m : M A) (f : A -> M B) :
  decides b1 m -> (forall a, decides b2 (f a)) -> decides (b1 && b2) (bind m f).
Proof.
  intros Hm Hf st. unfold bind. destruct (Hm st) as (ws1 & E1 & H1).
  destruct (m st) as [a st1]. simpl in E1. subst st1.
  destruct (Hf a (replay ws1 st)) as (ws2 & E2 & H2).
  exists (ws1 ++ ws2). split; [now rewrite replay_app |].
  rewrite andb_true_iff, H1, H2. split.
  - now intros [-> ->].
  - intros H. now apply app_eq_nil in H.
Qed.

Lemma decides_when (c b : bool) (m : M unit) :
  decides b m -> decides (negb c || b) (when c m).
Proof. destruct c; simpl; intros Hm; [exact Hm | apply decides_ret]. Qed.

Lemma decides_if {A} (c b1 b2 : bool) (m1 m2 : M A) :
  decides b1 m1 -> decides b2 m2 ->
  decides (if c then b1 else b2) (if c then m1 else m2).
Proof. now destruct c. Qed.

Lemma decides_forEach {A} (p : A -> bool) (f : A -> nat -> M unit) xs :
  (forall x i, decides (p x) (f x i)) ->
  forall i, decides (forallb p xs) (forEach f xs i).
Proof.
  intros Hf. induction xs as [| x xs IH]; intros i; simpl.
  - apply decides_ret.
  - apply decides_bind; [apply Hf | intros _; apply IH].
Qed.

(** [validateRequired] followed by code that depends on its answer. *)
Lemma decides_required {B} field s fieldName (k : bool -> M B) (b2 b3 : bool) :
  decides b2 (k true) -> decides b3 (k false) ->
  decides (negb (blank s) && b2) (bind (validateRequired field (Some s) fieldName) k).
Proof.
  intros Ht Hf st. unfold bind.
  rewrite validateRequired_spec. cbv zeta. rewrite <- TrimFacts.blank_spec.
  destruct (blank s); simpl.
  - destruct (Hf (snd (addError field
      ("Le champ " +:+ default field fieldName +:+ " est requis") st)))
      as (ws & E & _).
    exists ((field, "Le champ " +:+ default field fieldName +:+ " est requis") :: ws).
    split; [exact E | split; discriminate].
  - apply Ht.
Qed.

(** Builds the condition that a method decides from its code. *)
Ltac decide_step :=
  first
    [ apply decides_ret
    | apply decides_addError
    | eapply decides_required
    | eapply decides_bind; [| intros ?]
    | eapply decides_when
    | eapply decides_if ].

Ltac decide_with lemma := first [ eapply lemma | decide_step ].

Ltac tidy :=
  rewrite ?andb_true_r, ?orb_false_r, ?negb_involutive, ?andb_assoc.

Lemma decides_validateInArray field value allowed fieldName :
  decides (Str.includes allowed value) (validateInArray field value allowed fieldName).
Proof.
  unfold validateInArray. cbv zeta.
  destruct (Str.includes allowed value); simpl.
  - apply decides_ret.
  - eapply decides_ext; [| repeat decide_step]. reflexivity.
Qed.

Lemma decides_validatePhone field phone :
  decides (isValidPhone phone) (validatePhone field phone).
Proof.
  unfold validatePhone. destruct (isValidPhone phone); simpl.
  - apply decides_ret.
  - eapply decides_ext; [| repeat decide_step]. reflexivity.
Qed.

Lemma decides_validateEmail field email :
  decides (isValidEmail email) (validateEmail field email).
Proof.
  unfold validateEmail. destruct (isValidEmail email); simpl.
  - apply decides_ret.
  - eapply decides_ext; [| repeat decide_step]. reflexivity.
Qed.

Lemma decides_validateNcc field ncc :
  decides (isValidNcc ncc) (validateNcc field ncc).
Proof.
  unfold validateNcc. destruct (isValidNcc ncc); simpl.
  - apply decides_ret.
  - eapply decides_ext; [| repeat decide_step]. reflexivity.
Qed.

Lemma decides_validateCustomTax path tax index :
  decides (tax_ok tax) (validateCustomTax path tax index).
Proof.
  unfold validateCustomTax. fold (blank (CustomTax.getName tax)).
  eapply decides_ext; [| repeat decide_step].
  unfold tax_ok. now tidy.
Qed.

Lemma decides_validateBaseFields invoice :
  decides (base_ok invoice) (validateBaseFields invoice).
Proof.
  unfold validateBaseFields.
  eapply decides_ext; [| repeat decide_with decides_validateInArray].
  unfold base_ok. now tidy.
Qed.

Lemma decides_validateClientFields invoice :
  decides (client_ok invoice) (validateClientFields invoice).
Proof.
  unfold validateClientFields.
  eapply decides_ext;
    [| repeat first [ eapply decides_validatePhone | eapply decides_validateEmail
                    | decide_step ] ].
  unfold client_ok. now tidy.
Qed.

Lemma decides_validateTemplateRules invoice :
  decides (template_ok invoice) (validateTemplateRules invoice).
Proof.
  unfold validateTemplateRules, template_ok. cbv zeta.
  destruct (Invoice.getClientNcc invoice) as [ncc |];
    destruct (Invoice.getForeignCurrency invoice) as [currency |];
    unfold truthy;
    (eapply decides_ext;
      [| repeat first [ eapply decides_validateNcc | eapply decides_validateInArray
                      | decide_step ] ]);
    tidy; rewrite ?andb_false_r, ?orb_false_r;
    try (fold (blank ncc));
    try (destruct (blank ncc)); try (destruct (String.eqb currency ""));
    simpl; tidy; rewrite ?andb_false_r, ?orb_false_r, ?andb_true_r; try reflexivity.
Qed.

Lemma decides_tax_code path tax (index : nat) :
  decides (Str.includes ALLOWED_TAX_TYPES tax)
    (when (negb (Str.includes ALLOWED_TAX_TYPES tax))
       (addError (path +:+ ".taxes[" +:+ pretty index +:+ "]")
          ("Type de taxe invalide: " +:+ tax +:+ ". Valeurs acceptées: "
           +:+ Str.join ", " ALLOWED_TAX_TYPES))).
Proof.
  eapply decides_ext; [| repeat decide_step]. now tidy.
Qed.

Lemma decides_validateItem item index invoiceType :
  decides (item_ok invoiceType item) (validateItem item index invoiceType).
Proof.
  unfold validateItem. cbv zeta.
  fold (blank (InvoiceItem.getDescription item)).
  eapply decides_ext;
    [| repeat first
         [ eapply (decides_forEach tax_ok); intros; apply decides_validateCustomTax
         | eapply (decides_forEach (Str.includes ALLOWED_TAX_TYPES)); intros;
           apply (decides_tax_code ("items[" +:+ pretty index +:+ "]"))
         | decide_step ] ].
  unfold item_ok, in_range, INVOICE_TYPE_SALE. tidy.
  now destruct (length (InvoiceItem.getTaxes item) =? 0)%nat.
Qed.

Lemma decides_validateItems invoice :
  decides (items_ok invoice) (validateItems invoice).
Proof.
  unfold validateItems, items_ok. cbv zeta.
  destruct (length (Invoice.getItems invoice) =? 0)%nat; simpl.
  - apply decides_addError.
  - apply decides_forEach. intros. apply decides_validateItem.
Qed.

Lemma decides_validateOptionalFields invoice :
  decides (optional_ok invoice) (validateOptionalFields invoice).
Proof.
  unfold validateOptionalFields, optional_ok. cbv zeta.
  destruct (Invoice.getForeignCurrency invoice) as [currency |];
    (eapply decides_ext;
      [| repeat first
           [ eapply (decides_forEach tax_ok); intros; apply decides_validateCustomTax
           | decide_step ] ]);
    unfold in_range, truthy; tidy;
    rewrite ?negb_andb, ?negb_involutive; reflexivity.
Qed.

Lemma decides_phases invoice : decides (acceptable invoice) (phases invoice).
Proof.
  unfold phases.
  eapply decides_ext;
    [| eapply decides_bind; [apply decides_validateBaseFields | intros _];
       eapply decides_bind; [apply decides_validateClientFields | intros _];
       eapply decides_bind; [apply decides_validateTemplateRules | intros _];
       eapply decides_bind; [apply decides_validateItems | intros _];
       apply decides_validateOptionalFields ].
  unfold acceptable. now tidy.
Qed.

Lemma errors_replay_nil ws st :
  errors (replay ws st) = [] <-> ws = [] /\ errors st = [].
Proof.
  revert st. induction ws as [| [k m] ws IH]; intros st.
  - simpl. tauto.
  - rewrite replay_cons, IH. simpl. split; [| intros [[=] _]].
    intros [_ H]. destruct (errors st) as [| [k' v'] o]; simpl in H.
    + discriminate.
    + destruct (String.eqb k k'); discriminate.
Qed.

Lemma validate_accepts invoice st :
  fst (validate invoice st) = Return tt <-> acceptable invoice = true.
Proof.
  rewrite validate_result. fold (errorsOf invoice st).
  rewrite errorsOf_phases.
  destruct (decides_phases invoice fresh) as (ws & -> & H).
  rewrite H. destruct ws as [| [k m] ws].
  - simpl. tauto.
  - split; [| discriminate]. rewrite replay_cons.
    destruct (errors (replay ws _)) as [| [k' v'] o] eqn:E; [| discriminate].
    apply errors_replay_nil in E as [_ E]. simpl in E. discriminate.
Qed.

Lemma accepted_errors invoice st :
  errorsOf invoice st = [] <-> acceptable invoice = true.
Proof.
  rewrite errorsOf_phases.
  destruct (decides_phases invoice fresh) as (ws & -> & H).
  rewrite errors_replay_nil, H. simpl. tauto.
Qed.

End Acceptance.

(** X29.  The documents that [validate] accepts.  [validate] returns
    normally, leaving an empty error set, exactly for the documents that
    satisfy [acceptable]: the three enumerated fields hold allowed values,
    the other five mandatory texts are not blank, the phone number and the
    address pass their format checks; a B2B document has a well-formed NCC
    and a B2F document an allowed currency with a rate that does not
    compare [<= 0]; there is at least one item, and every item has a
    description that is not blank, a quantity and an amount that do not
    compare [<= 0], a discount that compares neither [< 0] nor [> 100],
    well-formed custom taxes and, on a sale, at least one tax code, all of
    them allowed; the currency, if set, is allowed, the global discount
    compares neither [< 0] nor [> 100], the RNE number is set when [isRne]
    is, and the custom taxes of the document are well formed.  (NaN
    passes every one of these comparisons, as in the source; blank means
    empty or made of the white space of ECMAScript.)  For every other
    document it throws the [ValidationError] that carries the error set,
    which is then not empty. *)
Theorem X29_accepted_documents (invoice : Invoice.t) (st : Validator.state) :
  (fst (Validator.validate invoice st) = Return tt <-> acceptable invoice = true) /\
  (Validator.errorsOf invoice st = [] <-> acceptable invoice = true) /\
  (acceptable invoice = false ->
   ValidatorSpec.raises invoice st (Validator.errorsOf invoice st) /\
   Validator.errorsOf invoice st <> []).
Proof.
  pose proof (accepted_errors invoice st) as H.
  assert (Hr : fst (Validator.validate invoice st) = Return tt
               <-> Validator.errorsOf invoice st = []).
  { rewrite ValidatorFacts.validate_result. fold (Validator.errorsOf invoice st).
    destruct (Validator.errorsOf invoice st) as [| [k v] o]; simpl.
    - tauto.
    - split; discriminate. }
  split; [now rewrite Hr |]. split; [exact H |].
  intros Hn. assert (Hne : Validator.errorsOf invoice st <> []).
  { intros E. apply H in E. congruence. }
  split; [| exact Hne].
  unfold ValidatorSpec.raises. rewrite ValidatorFacts.validate_result.
  fold (Validator.errorsOf invoice st).
  destruct (Validator.errorsOf invoice st) as [| [k v] o]; [contradiction |].
  simpl. eauto.
Qed.

Lemma X29_accepted_documents_witness :
  ValidatorSpec.raises Samples2.sale_with_bad_item Validator.fresh
    (Validator.errorsOf Samples2.sale_with_bad_item Validator.fresh) /\
  Validator.errorsOf Samples2.sale_with_bad_item Validator.fresh <> [].
Proof.
  destruct (X29_accepted_documents Samples2.sale_with_bad_item Validator.fresh)
    as (_ & _ & H).
  apply H. vm_compute. reflexivity.
Defined.

(** ** The documents that the factory methods build *)

Section Factories.
Import Validator.

(** Evaluates [acceptable] on a document built by a factory method, up to
    the conditions on the arguments. *)
Ltac evaluate_rules :=
  unfold acceptable, base_ok, client_ok, template_ok, items_ok, optional_ok,
    item_ok, contact_ok, goods_ok, tax_ok;
  unfold createSaleInvoice, createB2BInvoice, createB2FInvoice, createFromRne,
    createItem, PurchaseService.createPurchaseInvoice,
    PurchaseService.createPurchaseItem, newInvoice, Invoice.addItem;
  cbn [Invoice.getInvoiceType Invoice.getPaymentMethod Invoice.getTemplate
       Invoice.getPointOfSale Invoice.getEstablishment Invoice.getClientCompanyName
       Invoice.getClientPhone Invoice.getClientEmail Invoice.getClientNcc
       Invoice.getForeignCurrency Invoice.getForeignCurrencyRate Invoice.getIsRne
       Invoice.getRne Invoice.getDiscount Invoice.getItems Invoice.getCustomTaxes
       Invoice._invoiceType Invoice._paymentMethod Invoice._template
       Invoice._pointOfSale Invoice._establishment Invoice._clientCompanyName
       Invoice._clientPhone Invoice._clientEmail Invoice._clientNcc
       Invoice._foreignCurrency Invoice._foreignCurrencyRate Invoice._isRne
       Invoice._rne Invoice._discount Invoice._items Invoice._customTaxes
       InvoiceItem.getDescription InvoiceItem.getQuantity InvoiceItem.getAmount
       InvoiceItem.getTaxes InvoiceItem.getDiscount InvoiceItem.getCustomTaxes
       InvoiceItem._description InvoiceItem._quantity InvoiceItem._amount
       InvoiceItem._taxes InvoiceItem._discount InvoiceItem._customTaxes
       default app forallb length Nat.eqb negb andb orb].

Ltac closed t :=
  match t with
  | context [?x] => is_var x; fail 1
  | _ => idtac
  end.

Ltac const_bool t :=
  closed t;
  let v := eval vm_compute in t in
  lazymatch v with
  | true => change t with true
  | false => change t with false
  end.

Ltac constants :=
  repeat match goal with
  | |- context [blank ?s] => const_bool (blank s)
  | |- context [Str.includes ?l ?s] => const_bool (Str.includes l s)
  | |- context [String.eqb ?a ?b] => const_bool (String.eqb a b)
  | |- context [in_range ?d] => const_bool (in_range d)
  end;
  cbn [negb andb orb];
  rewrite ?andb_true_r, ?andb_false_r, ?orb_false_r, ?andb_assoc.

Lemma sale_rules pos est name phone email description quantity amount :
  acceptable
    (Invoice.addItem (createItem description quantity amount None)
       (createSaleInvoice pos est name phone email None None))
  = contact_ok pos est name phone email && goods_ok description quantity amount.
Proof. evaluate_rules. constants. reflexivity. Qed.

Lemma purchase_rules pos est name phone email description quantity amount unit_ :
  acceptable
    (Invoice.addItem
       (PurchaseService.createPurchaseItem description quantity amount unit_)
       (PurchaseService.createPurchaseInvoice pos est name phone email None None))
  = contact_ok pos est name phone email && goods_ok description quantity amount.
Proof. evaluate_rules. constants. reflexivity. Qed.

Lemma b2b_rules pos est name phone email ncc description quantity amount :
  acceptable
    (Invoice.addItem (createItem description quantity amount None)
       (createB2BInvoice pos est name phone email ncc None))
  = contact_ok pos est name phone email && goods_ok description quantity amount
    && negb (blank ncc) && isValidNcc ncc.
Proof.
  evaluate_rules. constants. btauto.
Qed.

Lemma b2f_rules pos est name phone email currency rate description quantity amount :
  acceptable
    (Invoice.addItem (createItem description quantity amount None)
       (createB2FInvoice pos est name phone email currency rate None))
  = contact_ok pos est name phone email && goods_ok description quantity amount
    && Str.includes ALLOWED_CURRENCIES currency && negb (Number.le rate 0%num).
Proof.
  evaluate_rules. constants.
  assert (Hc : Str.includes ALLOWED_CURRENCIES currency = true ->
               String.eqb currency "" = false).
  { destruct (String.eqb_spec currency "") as [-> |]; [discriminate | reflexivity]. }
  destruct (Str.includes ALLOWED_CURRENCIES currency);
    [rewrite (Hc eq_refl) | destruct (String.eqb currency "")];
    cbn [negb andb orb]; btauto.
Qed.

Lemma rne_rules rne pos est name phone email description quantity amount :
  acceptable
    (Invoice.addItem (createItem description quantity amount None)
       (createFromRne rne pos est name phone email None))
  = contact_ok pos est name phone email && goods_ok description quantity amount
    && negb (String.eqb rne "").
Proof.
  evaluate_rules. constants. unfold truthy. btauto.
Qed.

Lemma mixed_rules pos est name phone email description quantity amount unit_ :
  acceptable
    (Invoice.addItem
       (PurchaseService.createPurchaseItem description quantity amount unit_)
       (createSaleInvoice pos est name phone email None None))
  = false.
Proof. evaluate_rules. constants. reflexivity. Qed.

End Factories.

(** X30.  The documents that the factory methods build.  A sale built by
    [createSaleInvoice] with the default payment method and template, with
    one item built by [createItem] with the default tax code, is accepted by
    [validate] exactly when the point of sale, the establishment and the
    name of the client are not blank, the phone number and the address pass
    their checks, the description is not blank and the quantity and the
    amount do not compare [<= 0] (as NaN does not); the same holds for a
    purchase built by [createPurchaseInvoice] with an item built by
    [createPurchaseItem], which has no tax code.  A B2B sale needs a
    well-formed NCC besides, an export sale an allowed currency and a rate
    that does not compare [<= 0], a sale made from an RNE a number that is
    not empty.  A sale with an item built by [createPurchaseItem] is never
    accepted. *)
Theorem X30_factory_documents (pos est name phone email description : string)
    (quantity amount : number) (st : Validator.state) :
  let accepts invoice := fst (Validator.validate invoice st) = Return tt in
  let ok := contact_ok pos est name phone email
            && goods_ok description quantity amount in
  let item := createItem description quantity amount None in
  (accepts (Invoice.addItem item
              (createSaleInvoice pos est name phone email None None))
   <-> ok = true) /\
  (forall unit_,
     accepts (Invoice.addItem
                (PurchaseService.createPurchaseItem description quantity amount unit_)
                (PurchaseService.createPurchaseInvoice pos est name phone email
                   None None))
     <-> ok = true) /\
  (forall ncc,
     accepts (Invoice.addItem item
                (createB2BInvoice pos est name phone email ncc None))
     <-> ok && negb (blank ncc) && isValidNcc ncc = true) /\
  (forall currency rate,
     accepts (Invoice.addItem item
                (createB2FInvoice pos est name phone email currency rate None))
     <-> ok && Str.includes ALLOWED_CURRENCIES currency
         && negb (Number.le rate 0%num) = true) /\
  (forall rne,
     accepts (Invoice.addItem item
                (createFromRne rne pos est name phone email None))
     <-> ok && negb (String.eqb rne "") = true) /\
  (forall unit_,
     ~ accepts (Invoice.addItem
                  (PurchaseService.createPurchaseItem description quantity amount unit_)
                  (createSaleInvoice pos est name phone email None None))).
Proof.
  cbv zeta beta.
  split; [rewrite validate_accepts; now rewrite sale_rules |].
  split; [intros; rewrite validate_accepts; now rewrite purchase_rules |].
  split; [intros; rewrite validate_accepts; now rewrite b2b_rules |].
  split; [intros; rewrite validate_accepts; now rewrite b2f_rules |].
  split; [intros; rewrite validate_accepts; now rewrite rne_rules |].
  intros unit_. rewrite validate_accepts. now rewrite mixed_rules.
Qed.
